(** * Train-ticket finder: the polling / allocation core

    A shallow embedding of the JavaScript sources [config.js], [utils.js],
    [search.js], [seat_allocation.js] and [api.js], followed by the
    properties of the specification that concern them.

    Conventions of the embedding.
    - A JavaScript string is a [string]; the relational operators on strings
      are the lexicographic order on character codes ([String.leb]).
    - An object is a record; a property that may be missing, [null] or
      [undefined] is an [option] field; an array is a [list]; a [Set] is a
      [gset].
    - Numbers that the program only counts with (seat counts, identifiers,
      milliseconds) are [Z].  Where it computes with fractions
      ([getRandomDelay]), a number is the rational value of a double and
      every operation rounds its exact result to the nearest double
      ([Double.round]).
    - The fields of the three singletons [trainAPI], [seatAllocationManager]
      and [searchManager] make up one record, [World.t]; an [async] function
      is a tree of type [Prog] that reads and updates it and is suspended at
      every [await].  The calls on [uiManager] are recorded in the order they
      are made; what the presentation layer does with them is not modelled.
    - [console.log] and [console.error] have no effect on the program and are
      left out.

    The file has two halves: the embedding (with the sample data the examples
    use), then the lemmas and the theorems. *)

From Stdlib Require Import ZArith QArith Qround Qabs Qpower Lqa.
From Stdlib Require Import String Ascii List Lia Bool.
From stdpp Require Import base list gmap strings pretty.
Import ListNotations.

Open Scope string_scope.
Open Scope Z_scope.
Open Scope list_scope.

(* ===================================================================== *)
(** * JavaScript values                                                   *)
(* ===================================================================== *)

Module Js.

(** Truthiness of a string: only the empty string is falsy. *)
Definition truthyStr (s : string) : bool :=
  match s with EmptyString => false | String _ _ => true end.

(** Truthiness of a possibly missing string. *)
Definition truthyOptStr (o : option string) : bool :=
  match o with Some s => truthyStr s | None => false end.

(** Truthiness of a number: zero is falsy. *)
Definition truthyNum (z : Z) : bool := negb (z =? 0).

(** [a || b] on possibly missing strings. *)
Definition orStr (a b : option string) : option string :=
  if truthyOptStr a then a else b.

(** [a || d] on a possibly missing number with a numeric default. *)
Definition orNum (a : option Z) (d : Z) : Z :=
  match a with
  | Some z => if truthyNum z then z else d
  | None => d
  end.

(** [s.split(sep)] for a one-character separator. *)
Fixpoint split (sep : ascii) (s : string) : list string :=
  match s with
  | EmptyString => [EmptyString]
  | String c rest =>
      if Ascii.eqb c sep then EmptyString :: split sep rest
      else match split sep rest with
           | piece :: pieces => String c piece :: pieces
           | [] => [String c EmptyString]
           end
  end.

(** Array destructuring [[a, b, c] = arr] reads the element at an index;
    a missing element is [undefined], which a template literal prints as
    the text "undefined". *)
Definition element (i : nat) (arr : list string) : string :=
  nth i arr "undefined".

Definition isDigit (c : ascii) : bool :=
  let n := N_of_ascii c in (48 <=? n)%N && (n <=? 57)%N.

(** The character does not occur in the string. *)
Fixpoint lacks (sep : ascii) (s : string) : bool :=
  match s with
  | EmptyString => true
  | String c rest => negb (Ascii.eqb c sep) && lacks sep rest
  end.

End Js.

(* ===================================================================== *)
(** * JavaScript numbers                                                  *)
(* ===================================================================== *)

Module Double.

(** A JavaScript number is a double: a binary64 floating-point number.  The
    finite doubles are the rationals [m * 2 ^ e] with [|m| <= 2 ^ 53] and
    [-1074 <= e], below [2 ^ 1024] in magnitude, and an arithmetic operation
    returns the double nearest to its exact result, a tie going to the even
    [m].  A double is represented by its rational value; the results beyond
    the largest double, for which the code has [Infinity], are out of the
    reach of the program and are not represented. *)

(** [floor (log2 |q|)], for a rational that is not zero. *)
Definition log2 (q : Q) : Z :=
  let k := Z.log2 (Z.abs (Qnum q)) - Z.log2 (Zpos (Qden q)) - 1 in
  if Qle_bool (2 ^ (k + 1))%Q (Qabs q) then k + 1 else k.

(** The nearest integer, a tie going to the even one. *)
Definition roundHalfEven (x : Q) : Z :=
  let k := Qfloor x in
  match (x - inject_Z k ?= 1 # 2)%Q with
  | Lt => k
  | Gt => k + 1
  | Eq => if Z.even k then k else k + 1
  end.

(** The exponent of the last place of the doubles around [q]: 52 binary
    places below the leading one, and [-1074] for the subnormal doubles. *)
Definition exponent (q : Q) : Z := Z.max (-1074) (log2 q - 52).

(** The double nearest to [q]. *)
Definition round (q : Q) : Q :=
  let q' := Qred q in
  let e := exponent q' in
  (inject_Z (roundHalfEven (q' * 2 ^ (- e))) * 2 ^ e)%Q.

(** The rational is the value of a double. *)
Definition representable (f : Q) : Prop :=
  exists m e, Z.abs m <= 2 ^ 53 /\ -1074 <= e /\ (f == inject_Z m * 2 ^ e)%Q.

(** [a - b], [a * b] and [a + b] on doubles. *)
Definition sub (a b : Q) : Q := round (a - b)%Q.
Definition mul (a b : Q) : Q := round (a * b)%Q.
Definition add (a b : Q) : Q := round (a + b)%Q.

(** The integer is one that a double holds exactly. *)
Definition exact (z : Z) : Prop := Z.abs z <= 2 ^ 53.

End Double.

(* ===================================================================== *)
(** * config.js                                                           *)
(* ===================================================================== *)

Module Config.

Definition CHECK_INTERVAL : Z := 5000.
Definition MIN_ANTI_BOT_DELAY : Z := 3000.
Definition MAX_ANTI_BOT_DELAY : Z := 8000.

(** One entry of [CONFIG.CABIN_CLASSES]. *)
Record CabinClass := {
  id : Z;
  code : string;
  name : string;
  displayName : string
}.

(** [CONFIG.CABIN_CLASSES]: an object literal; [Object.keys] and
    [Object.values] enumerate it in the order it is written, so the catalog
    is an association list. *)
Definition CABIN_CLASSES : list (string * CabinClass) :=
  [ ("ECONOMY",   {| id := 2;  code := "Y1";  name := "Ekonomi";
                     displayName := "Ekonomi Sınıfı" |});
    ("BUSINESS",  {| id := 1;  code := "C";   name := "Business";
                     displayName := "Business Sınıfı" |});
    ("SLEEPER",   {| id := 3;  code := "SL";  name := "Yataklı";
                     displayName := "Yataklı (Kuşet)" |});
    ("COUCHETTE", {| id := 6;  code := "CT";  name := "Örtülü Kuşet";
                     displayName := "Örtülü Kuşet" |});
    ("LOCA",      {| id := 11; code := "L";   name := "Loca";
                     displayName := "Loca (Özel Kabin)" |});
    ("DISABLED",  {| id := 12; code := "DSB"; name := "Tekerlekli Sandalye";
                     displayName := "Engelli (Tekerlekli Sandalye)" |}) ].

(** [CONFIG.CABIN_CLASSES[key]] *)
Definition lookupKey (key : string) : option CabinClass :=
  option_map snd (List.find (fun kv => String.eqb (fst kv) key) CABIN_CLASSES).

(** [Object.values(CONFIG.CABIN_CLASSES).find(config => config.id === i)] *)
Definition findById (i : Z) : option CabinClass :=
  List.find (fun c => id c =? i) (List.map snd CABIN_CLASSES).

(** [Object.keys(CONFIG.CABIN_CLASSES).find(key => CONFIG.CABIN_CLASSES[key].id === i)] *)
Definition keyOfId (i : Z) : option string :=
  List.find
    (fun key => match lookupKey key with
                | Some c => id c =? i
                | None => false
                end)
    (List.map fst CABIN_CLASSES).

End Config.

(* ===================================================================== *)
(** * utils.js                                                            *)
(* ===================================================================== *)

Module Utils.

(** [isInTimeRange(trainTime, startTime, endTime)].  [formatTime] renders a
    timestamp through [Date.prototype.toLocaleTimeString], which depends on
    the time zone of the browser: it is a parameter here. *)
Definition isInTimeRange (formatTime : Z -> string)
           (trainTime : Z) (startTime endTime : string) : bool :=
  let trainHourMin := formatTime trainTime in
  String.leb startTime trainHourMin && String.leb trainHourMin endTime.

(** [getRandomDelay(min, max)] = [Math.floor(min + Math.random() * (max - min))]
    for integer bounds, as a function of the outcome [r] of [Math.random()].
    The subtraction, the product and the sum are those of doubles, each
    rounded; [Math.floor] is exact. *)
Definition getRandomDelay (min max : Z) (r : Q) : Z :=
  Qfloor (Double.add (inject_Z min)
                     (Double.mul r (Double.sub (inject_Z max) (inject_Z min)))).
Arguments getRandomDelay : simpl never.

(** [convertDateToAPI(dateString)] *)
Definition convertDateToAPI (dateString : string) : string :=
  if negb (Js.truthyStr dateString) then ""
  else
    let parts := Js.split "-" dateString in
    let year := Js.element 0 parts in
    let month := Js.element 1 parts in
    let day := Js.element 2 parts in
    day +:+ "-" +:+ month +:+ "-" +:+ year.

(** [convertDateFromAPI(dateString)] *)
Definition convertDateFromAPI (dateString : string) : string :=
  if negb (Js.truthyStr dateString) then ""
  else
    let parts := Js.split "-" dateString in
    let day := Js.element 0 parts in
    let month := Js.element 1 parts in
    let year := Js.element 2 parts in
    year +:+ "-" +:+ month +:+ "-" +:+ day.

(** A date as the HTML date input delivers it: four digits, a dash, two
    digits, a dash, two digits. *)
Definition isoDate (s : string) : bool :=
  match s with
  | String y1 (String y2 (String y3 (String y4 (String d1
    (String m1 (String m2 (String d2
    (String a1 (String a2 EmptyString))))))))) =>
      Js.isDigit y1 && Js.isDigit y2 && Js.isDigit y3 && Js.isDigit y4
      && Ascii.eqb d1 "-" && Js.isDigit m1 && Js.isDigit m2
      && Ascii.eqb d2 "-" && Js.isDigit a1 && Js.isDigit a2
  | _ => false
  end.

(** An instance of [formatTime] for the examples: a browser whose zone has
    a fixed offset from UTC, given in minutes (180 for Europe/Istanbul);
    the timestamp is in milliseconds since the epoch. *)
Definition twoDigits (n : Z) : string :=
  if n <? 10 then "0" +:+ pretty n else pretty n.

Definition formatTimeAt (offsetMinutes : Z) (timestamp : Z) : string :=
  let minutes := (timestamp / 60000 + offsetMinutes) mod 1440 in
  twoDigits (minutes / 60) +:+ ":" +:+ twoDigits (minutes mod 60).

End Utils.

(* ===================================================================== *)
(** * Shapes of the JSON bodies the remote service answers with           *)
(* ===================================================================== *)

(** A price field is either a plain number or an object that may carry a
    [parsedValue]. *)
Inductive PriceField :=
| PriceNumber (amount : Q)
| PriceObject (parsedValue : option Q).

Definition parsedValueOf (p : option PriceField) : option Q :=
  match p with
  | Some (PriceObject (Some v)) => if Qeq_bool v 0 then None else Some v
  | _ => None
  end.

Definition truthyPrice (p : option PriceField) : bool :=
  match p with
  | Some (PriceNumber v) => negb (Qeq_bool v 0)
  | Some (PriceObject _) => true
  | None => false
  end.

Module Segment.
Record t := { departureTime : Z; arrivalTime : Z }.
End Segment.

Module BookingClass.
Record t := { price : option PriceField }.
End BookingClass.

Module ClassAvail.
(** [cabinClass] holds the [id] of the [cabinClass] object when present. *)
Record t := {
  cabinClass : option Z;
  availabilityCount : option Z;
  minPrice : option PriceField;
  bookingClassAvailabilities : option (list BookingClass.t)
}.
End ClassAvail.

Module Train.
Record t := {
  id : Z;
  commercialName : option string;
  name : option string;
  segments : option (list Segment.t);
  cabinClassAvailabilities : option (list ClassAvail.t)
}.
End Train.

Module TrainGroup.
Record t := { trains : option (list Train.t) }.
End TrainGroup.

Module TrainLeg.
Record t := { trainAvailabilities : option (list (option TrainGroup.t)) }.
End TrainLeg.

Module Availability.
Record t := { trainLegs : option (list (option TrainLeg.t)) }.
End Availability.

Module SeatItem.
Record item := { saleable : bool; cabinClassId : option Z; id : Z }.
Record t := { item_ : option item; seatNumber : option string }.
End SeatItem.

Module Car.
Record t := { id : option Z; name : option string }.
End Car.

Module Template.
Record t := {
  car : option Car.t;
  seatMaps : option (list SeatItem.t);
  description : option string;
  name : option string
}.
End Template.

Module SeatMap.
(** [allocationSeats]: [Some l] when the property is an array, whose
    entries carry a possibly missing [seatNumber]. *)
Record t := {
  trainCarId : Z;
  seatMapTemplate : option Template.t;
  allocationSeats : option (list (option string))
}.
End SeatMap.

Module SeatMapData.
Record t := { seatMaps : option (list SeatMap.t) }.
End SeatMapData.

Module AllocationResult.
Record t := { allocationId : option Z; lockFor : option Z }.
End AllocationResult.

(** A parsed JSON body. *)
Inductive Body :=
| BNull
| BAvailability (d : Availability.t)
| BSeatMaps (d : SeatMapData.t)
| BAllocation (d : AllocationResult.t).

(* ===================================================================== *)
(** * search.js: the result filter                                        *)
(* ===================================================================== *)

Module Cabin.
(** An entry of [trainInfo.cabinClasses]. *)
Record t := {
  className : string;
  classKey : option string;
  availability : Z;
  price : option PriceField;
  isSelected : bool
}.
End Cabin.

Module TrainInfo.
Record t := {
  trainId : Z;
  name : option string;
  departureTime : string;
  arrivalTime : string;
  cabinClasses : list Cabin.t
}.
End TrainInfo.

Module SearchResult.
Record t := { found : bool; trains : list TrainInfo.t; totalSeats : Z }.
End SearchResult.

Module Filter.

(** [selectedCabinClasses.includes(cabinKey)]; [cabinKey] may be
    [undefined], which a list of strings never includes. *)
Definition includesKey (selected : list string) (key : option string) : bool :=
  match key with
  | Some k => existsb (String.eqb k) selected
  | None => false
  end.

(** The price of one cabin-class entry: parsed minimum price, else the raw
    minimum price field, else the parsed price of the first booking class. *)
Definition priceOf (classAvail : ClassAvail.t) : option PriceField :=
  match parsedValueOf (ClassAvail.minPrice classAvail) with
  | Some v => Some (PriceNumber v)
  | None =>
      if truthyPrice (ClassAvail.minPrice classAvail)
      then ClassAvail.minPrice classAvail
      else
        match ClassAvail.bookingClassAvailabilities classAvail with
        | Some (first :: _) =>
            match parsedValueOf (BookingClass.price first) with
            | Some v => Some (PriceNumber v)
            | None => None
            end
        | _ => None
        end
  end.

(** The body of the loop over [train.cabinClassAvailabilities]: the entry
    pushed for one [classAvail], or nothing when the loop continues. *)
Definition cabinEntry (selectedCabinClasses : list string)
           (classAvail : ClassAvail.t) : option Cabin.t :=
  match ClassAvail.cabinClass classAvail with
  | None => None
  | Some cid =>
      match Config.findById cid with
      | None => None
      | Some cabinConfig =>
          let cabinKey := Config.keyOfId cid in
          Some {| Cabin.className := Config.displayName cabinConfig;
                  Cabin.classKey := cabinKey;
                  Cabin.availability :=
                    Js.orNum (ClassAvail.availabilityCount classAvail) 0;
                  Cabin.price := priceOf classAvail;
                  Cabin.isSelected := includesKey selectedCabinClasses cabinKey |}
      end
  end.

Section WithClock.

(** [formatTime] of utils.js. *)
Variable formatTime : Z -> string.

(** [SearchManager.processTrainAvailability] *)
Definition processTrainAvailability (train : Train.t)
           (timeStart timeEnd : string) (selectedCabinClasses : list string)
  : option TrainInfo.t :=
  match Train.segments train with
  | None | Some [] => None
  | Some (firstSegment :: moreSegments) =>
      let lastSegment := List.last moreSegments firstSegment in
      let departureTime := Segment.departureTime firstSegment in
      if negb (Utils.isInTimeRange formatTime departureTime timeStart timeEnd)
      then None
      else
        match Train.cabinClassAvailabilities train with
        | None => None
        | Some avails =>
            let cabinClasses :=
              omap (cabinEntry selectedCabinClasses) avails in
            match cabinClasses with
            | [] => None
            | _ =>
                Some {| TrainInfo.trainId := Train.id train;
                        TrainInfo.name :=
                          Js.orStr (Train.commercialName train) (Train.name train);
                        TrainInfo.departureTime :=
                          formatTime (Segment.departureTime firstSegment);
                        TrainInfo.arrivalTime :=
                          formatTime (Segment.arrivalTime lastSegment);
                        TrainInfo.cabinClasses := cabinClasses |}
            end
        end
  end.

(** [cabinClasses.some(cabin => cabin.availability > 0 && cabin.isSelected)] *)
Definition hasAvailableSeatsInSelectedClasses (trainInfo : TrainInfo.t) : bool :=
  existsb (fun cabin => (0 <? Cabin.availability cabin) && Cabin.isSelected cabin)
          (TrainInfo.cabinClasses trainInfo).

(** [cabinClasses.filter(cabin => cabin.isSelected)
      .reduce((sum, cabin) => sum + cabin.availability, 0)] *)
Definition selectedSeats (trainInfo : TrainInfo.t) : Z :=
  fold_left (fun sum cabin => sum + Cabin.availability cabin)
            (List.filter Cabin.isSelected (TrainInfo.cabinClasses trainInfo)) 0.

(** The callback of [trains.forEach] in [processTrainData], acting on the
    three local variables [availableTrains], [foundAvailable] and
    [totalSeats], held in a [SearchResult.t]. *)
Definition visitTrain (timeStart timeEnd : string)
           (selectedCabinClasses : list string)
           (acc : SearchResult.t) (train : Train.t) : SearchResult.t :=
  match processTrainAvailability train timeStart timeEnd selectedCabinClasses with
  | Some trainInfo =>
      if hasAvailableSeatsInSelectedClasses trainInfo
      then {| SearchResult.found := true;
              SearchResult.trains := SearchResult.trains acc ++ [trainInfo];
              SearchResult.totalSeats :=
                SearchResult.totalSeats acc + selectedSeats trainInfo |}
      else acc
  | None => acc
  end.

(** The body of the loop over [allTrainAvailabilities]. *)
Definition visitGroup (timeStart timeEnd : string)
           (selectedCabinClasses : list string)
           (acc : SearchResult.t) (group : option TrainGroup.t) : SearchResult.t :=
  match group with
  | Some {| TrainGroup.trains := Some trains |} =>
      fold_left (visitTrain timeStart timeEnd selectedCabinClasses) trains acc
  | _ => acc
  end.

(** [data.trainLegs?.[0]?.trainAvailabilities] *)
Definition allTrainAvailabilities (data : Availability.t)
  : option (list (option TrainGroup.t)) :=
  match Availability.trainLegs data with
  | Some (Some leg :: _) => TrainLeg.trainAvailabilities leg
  | _ => None
  end.

(** [SearchManager.processTrainData] *)
Definition processTrainData (data : Availability.t)
           (timeStart timeEnd : string) (selectedCabinClasses : list string)
  : SearchResult.t :=
  let start := {| SearchResult.found := false;
                  SearchResult.trains := [];
                  SearchResult.totalSeats := 0 |} in
  match allTrainAvailabilities data with
  | Some groups =>
      fold_left (visitGroup timeStart timeEnd selectedCabinClasses) groups start
  | None => start
  end.

(** The raw trains of one entry of [allTrainAvailabilities]. *)
Definition trainsOfGroup (group : option TrainGroup.t) : list Train.t :=
  match group with
  | Some {| TrainGroup.trains := Some trains |} => trains
  | _ => []
  end.

(** Every raw train of the response, in the order the loops visit them. *)
Definition rawTrains (data : Availability.t) : list Train.t :=
  match allTrainAvailabilities data with
  | Some groups => flat_map trainsOfGroup groups
  | None => []
  end.

(** What [processTrainData] pushes for one raw train: the train info
    when the train is in the window and some selected class has seats. *)
Definition kept (timeStart timeEnd : string)
           (selectedCabinClasses : list string) (train : Train.t)
  : option TrainInfo.t :=
  match processTrainAvailability train timeStart timeEnd selectedCabinClasses with
  | Some trainInfo =>
      if hasAvailableSeatsInSelectedClasses trainInfo
      then Some trainInfo else None
  | None => None
  end.

End WithClock.

(** A cabin that counts towards a find: selected, with seats. *)
Definition counts (cabin : Cabin.t) : Prop :=
  Cabin.isSelected cabin = true /\ 0 < Cabin.availability cabin.

(** [list.length > 0] *)
Definition nonEmpty {A} (l : list A) : bool :=
  match l with [] => false | _ :: _ => true end.

(** The seat count [handleTicketsFound] recomputes over [result.trains]:
    for every selected cabin with [availability > 0], add it up. *)
Definition actualAvailableSeats (result : SearchResult.t) : Z :=
  fold_left
    (fun total train =>
       fold_left
         (fun total cabin =>
            if Cabin.isSelected cabin && (0 <? Cabin.availability cabin)
            then total + Cabin.availability cabin
            else total)
         (TrainInfo.cabinClasses train) total)
    (SearchResult.trains result) 0.

End Filter.

(* ===================================================================== *)
(** * seat_allocation.js: the seat locator                                *)
(* ===================================================================== *)

Module WagonText.

(** The match [wagonText.match(/(\d+)\s*[\.\s]*VAGON/i)] and its first
    group.  A string is the sequence of the bytes of its UTF-8 encoding, so
    the white space recognised by [\s] is the ASCII white space. *)

Definition isSpace (c : ascii) : bool :=
  let n := N_of_ascii c in
  ((9 <=? n)%N && (n <=? 13)%N) || (n =? 32)%N.

Definition isDot (c : ascii) : bool := (N_of_ascii c =? 46)%N.

Definition upper (c : ascii) : ascii :=
  let n := N_of_ascii c in
  if ((97 <=? n)%N && (n <=? 122)%N)%bool then ascii_of_N (n - 32) else c.

(** The longest run of digits at the head of the text, and what follows. *)
Fixpoint digitRun (s : string) : string * string :=
  match s with
  | String c rest =>
      if Js.isDigit c
      then let '(run, tail) := digitRun rest in (String c run, tail)
      else (EmptyString, s)
  | EmptyString => (EmptyString, EmptyString)
  end.

(** Drop the dots and white space at the head: [\s*[\.\s]*]. *)
Fixpoint skipGap (s : string) : string :=
  match s with
  | String c rest => if isSpace c || isDot c then skipGap rest else s
  | EmptyString => EmptyString
  end.

(** The text starts with the word, letter case ignored. *)
Fixpoint startsWith (word s : string) : bool :=
  match word, s with
  | EmptyString, _ => true
  | String w word', String c s' =>
      Ascii.eqb (upper w) (upper c) && startsWith word' s'
  | String _ _, EmptyString => false
  end.

(** A match that starts at the head of the text. *)
Definition matchHere (s : string) : option string :=
  let '(run, tail) := digitRun s in
  if Js.truthyStr run && startsWith "VAGON" (skipGap tail)
  then Some run else None.

(** The leftmost match. *)
Fixpoint firstMatch (s : string) : option string :=
  match matchHere s with
  | Some run => Some run
  | None =>
      match s with
      | String _ rest => firstMatch rest
      | EmptyString => None
      end
  end.

End WagonText.

Module SeatCandidate.
(** The object [findFirstAvailableSeat] returns. *)
Record t := {
  trainCarId : Z;
  seatNumber : string;
  carName : option string;
  wagonNumber : string;
  cabinClassName : string;
  itemId : Z
}.
End SeatCandidate.

Module SeatLocator.

(** [selectedCabinClasses.map(key => CONFIG.CABIN_CLASSES[key]?.id)
      .filter(id => id !== undefined)] *)
Definition selectedCabinClassIds (selectedCabinClasses : list string) : list Z :=
  omap (fun key => option_map Config.id (Config.lookupKey key))
       selectedCabinClasses.

(** [selectedCabinClassIds.includes(item.cabinClassId)] *)
Definition includesId (ids : list Z) (cid : option Z) : bool :=
  match cid with
  | Some i => existsb (Z.eqb i) ids
  | None => false
  end.

(** The set [occupiedSeats] built from [seatMap.allocationSeats]. *)
Definition occupiedSeats (seatMap : SeatMap.t) : gset string :=
  match SeatMap.allocationSeats seatMap with
  | Some allocs =>
      fold_left
        (fun occupied alloc =>
           match alloc with
           | Some number =>
               if Js.truthyStr number then occupied ∪ {[ number ]} else occupied
           | None => occupied
           end)
        allocs ∅
  | None => ∅
  end.

(** The wagon number read off the description or the name of the car. *)
Definition wagonNumberOf (template : Template.t) : string :=
  let wagonText :=
    match Js.orStr (Template.description template) (Template.name template) with
    | Some text => text
    | None => ""
    end in
  match WagonText.firstMatch wagonText with
  | Some digits => digits
  | None => "?"
  end.

(** [template.car?.name || template.name] *)
Definition carNameOf (template : Template.t) : option string :=
  Js.orStr (match Template.car template with
            | Some car => Car.name car
            | None => None
            end)
           (Template.name template).

(** [cabinConfig?.displayName || 'Bilinmeyen'] *)
Definition cabinClassNameOf (cid : option Z) : string :=
  match cid with
  | Some i =>
      match Config.findById i with
      | Some cabinConfig =>
          if Js.truthyStr (Config.displayName cabinConfig)
          then Config.displayName cabinConfig else "Bilinmeyen"
      | None => "Bilinmeyen"
      end
  | None => "Bilinmeyen"
  end.

(** The four tests of the inner loop: the seat item passes when none of the
    [continue] statements is taken. *)
Definition passes (ids : list Z) (occupied : gset string)
           (seatItem : SeatItem.t) : bool :=
  match SeatItem.item_ seatItem with
  | None => false
  | Some item =>
      SeatItem.saleable item
      && includesId ids (SeatItem.cabinClassId item)
      && match SeatItem.seatNumber seatItem with
         | Some number =>
             Js.truthyStr number && negb (bool_decide (number ∈ occupied))
         | None => false
         end
  end.

(** The object returned for a seat item that passed. *)
Definition candidate (seatMap : SeatMap.t) (template : Template.t)
           (seatItem : SeatItem.t) : option SeatCandidate.t :=
  match SeatItem.item_ seatItem, SeatItem.seatNumber seatItem with
  | Some item, Some number =>
      Some {| SeatCandidate.trainCarId := SeatMap.trainCarId seatMap;
              SeatCandidate.seatNumber := number;
              SeatCandidate.carName := carNameOf template;
              SeatCandidate.wagonNumber := wagonNumberOf template;
              SeatCandidate.cabinClassName :=
                cabinClassNameOf (SeatItem.cabinClassId item);
              SeatCandidate.itemId := SeatItem.id item |}
  | _, _ => None
  end.

(** The inner loop [for (const seatItem of template.seatMaps)]: the object
    returned from inside it, or nothing when the loop runs to its end. *)
Fixpoint scanItems (ids : list Z) (occupied : gset string)
         (seatMap : SeatMap.t) (template : Template.t)
         (items : list SeatItem.t) : option SeatCandidate.t :=
  match items with
  | [] => None
  | seatItem :: rest =>
      if passes ids occupied seatItem
      then candidate seatMap template seatItem
      else scanItems ids occupied seatMap template rest
  end.

(** The outer loop [for (const seatMap of seatMaps)]. *)
Fixpoint scanCars (ids : list Z) (seatMaps : list SeatMap.t)
  : option SeatCandidate.t :=
  match seatMaps with
  | [] => None
  | seatMap :: rest =>
      match SeatMap.seatMapTemplate seatMap with
      | Some template =>
          match Template.seatMaps template with
          | Some items =>
              match scanItems ids (occupiedSeats seatMap) seatMap template items with
              | Some seat => Some seat
              | None => scanCars ids rest
              end
          | None => scanCars ids rest
          end
      | None => scanCars ids rest
      end
  end.

(** [SeatAllocationManager.findFirstAvailableSeat] *)
Definition findFirstAvailableSeat (seatMaps : list SeatMap.t)
           (selectedCabinClasses : list string) : option SeatCandidate.t :=
  scanCars (selectedCabinClassIds selectedCabinClasses) seatMaps.

(** ** The locator as the specification words it *)

(** The seat items of a car, in template order; none when the car has no
    template or the template has no item list. *)
Definition itemsOf (seatMap : SeatMap.t) : list SeatItem.t :=
  match SeatMap.seatMapTemplate seatMap with
  | Some {| Template.seatMaps := Some items |} => items
  | _ => []
  end.

(** Every seat of the response with its car: seat-map array order first,
    template item order second. *)
Definition seatsInOrder (seatMaps : list SeatMap.t)
  : list (SeatMap.t * SeatItem.t) :=
  flat_map (fun seatMap => List.map (pair seatMap) (itemsOf seatMap)) seatMaps.

(** The four conditions of the specification on a seat of a car: saleable,
    class in the selected set, a seat number assigned, and that number not
    among the numbers the car's allocation list holds. *)
Definition acceptable (selectedCabinClasses : list string)
           (seat : SeatMap.t * SeatItem.t) : Prop :=
  let '(seatMap, seatItem) := seat in
  exists item number,
    SeatItem.item_ seatItem = Some item
    /\ SeatItem.saleable item = true
    /\ (exists key class i,
          In key selectedCabinClasses
          /\ Config.lookupKey key = Some class
          /\ Config.id class = i
          /\ SeatItem.cabinClassId item = Some i)
    /\ SeatItem.seatNumber seatItem = Some number
    /\ number <> ""
    /\ ~ (exists allocs, SeatMap.allocationSeats seatMap = Some allocs
                         /\ In (Some number) allocs).

(** What the returned object says of the seat it was built from. *)
Definition describes (seat : SeatCandidate.t) (from : SeatMap.t * SeatItem.t) : Prop :=
  let '(seatMap, seatItem) := from in
  SeatCandidate.trainCarId seat = SeatMap.trainCarId seatMap
  /\ SeatItem.seatNumber seatItem = Some (SeatCandidate.seatNumber seat)
  /\ exists item, SeatItem.item_ seatItem = Some item
                  /\ SeatCandidate.itemId seat = SeatItem.id item.

End SeatLocator.

(* ===================================================================== *)
(** * The state of the page and asynchronous functions                    *)
(* ===================================================================== *)

Module Error.
(** A JavaScript [Error]: its [message]. *)
Record t := { message : string }.
End Error.

(** How a call ends: [return] or [throw]. *)
Inductive Result (A : Type) : Type :=
| Returned (a : A)
| Thrown (e : Error.t).
Arguments Returned {A} a.
Arguments Thrown {A} e.

(** The JSON bodies the four endpoints are posted; the headers are the same
    constants in every request. *)
Inductive Request :=
| AvailabilityRequest (departureStationId : Z) (departureStationName : string)
                      (arrivalStationId : Z) (arrivalStationName : string)
                      (departureDate : string)
| SeatMapRequest (fromStationId toStationId trainId legIndex : Z)
| AllocateRequest (trainCarId fromStationId toStationId : Z) (gender : string)
                  (seatNumber : string)
                  (passengerTypeId totalPassengerCount fareFamilyId : Z)
| DeallocateRequest (trainCarId allocationId : Z) (seatNumber : string).

Module Response.
(** What [fetch] resolves to: [ok], [status], and what [response.json()]
    settles to. *)
Record t := { ok : bool; status : Z; json : Result Body }.
End Response.

(** [fetch] either rejects (the network failed) or resolves. *)
Inductive FetchOutcome :=
| Rejected (e : Error.t)
| Resolved (r : Response.t).

Module Allocation.
(** The object stored in [seatAllocationManager.allocatedSeat]. *)
Record t := {
  trainName : option string;
  trainId : Z;
  departureTime : string;
  arrivalTime : string;
  seatNumber : string;
  trainCarId : Z;
  carName : option string;
  wagonNumber : string;
  cabinClassName : string;
  allocationId : Z;
  lockFor : Z
}.
End Allocation.

(** The calls the core makes on [uiManager], the presentation layer. *)
Inductive UiCall :=
| UpdateStatus (message type : string)
| AddLog (message : string)
| DisplayResults (trains : list TrainInfo.t)
| SetSearchingState (searching : bool)
| StopMusic
| PlayAlert
| ShowAllocatedSeat (seatInfo : option Allocation.t).

Module World.
(** The mutable state of the page: the fields of the three singletons
    [trainAPI], [seatAllocationManager] and [searchManager]; the interval
    timers of the window that are armed; the outcomes [Math.random()] is
    going to produce and how many were drawn; the text [getCurrentTime()]
    returns; and the calls made on [uiManager] so far, latest first. *)
Record t := {
  isLoading : bool;
  allocatedSeat : option Allocation.t;
  searchInterval : option positive;
  isSearching : bool;
  isFirstRequest : bool;
  timers : gset positive;
  randomOutcomes : nat -> Q;
  randomDrawn : nat;
  currentTime : string;
  uiCalls : list UiCall
}.

Definition setLoading (b : bool) (w : t) : t :=
  {| isLoading := b; allocatedSeat := allocatedSeat w;
     searchInterval := searchInterval w; isSearching := isSearching w;
     isFirstRequest := isFirstRequest w; timers := timers w;
     randomOutcomes := randomOutcomes w; randomDrawn := randomDrawn w;
     currentTime := currentTime w; uiCalls := uiCalls w |}.

Definition setAllocatedSeat (a : option Allocation.t) (w : t) : t :=
  {| isLoading := isLoading w; allocatedSeat := a;
     searchInterval := searchInterval w; isSearching := isSearching w;
     isFirstRequest := isFirstRequest w; timers := timers w;
     randomOutcomes := randomOutcomes w; randomDrawn := randomDrawn w;
     currentTime := currentTime w; uiCalls := uiCalls w |}.

Definition setSearchInterval (i : option positive) (w : t) : t :=
  {| isLoading := isLoading w; allocatedSeat := allocatedSeat w;
     searchInterval := i; isSearching := isSearching w;
     isFirstRequest := isFirstRequest w; timers := timers w;
     randomOutcomes := randomOutcomes w; randomDrawn := randomDrawn w;
     currentTime := currentTime w; uiCalls := uiCalls w |}.

Definition setSearching (b : bool) (w : t) : t :=
  {| isLoading := isLoading w; allocatedSeat := allocatedSeat w;
     searchInterval := searchInterval w; isSearching := b;
     isFirstRequest := isFirstRequest w; timers := timers w;
     randomOutcomes := randomOutcomes w; randomDrawn := randomDrawn w;
     currentTime := currentTime w; uiCalls := uiCalls w |}.

(** [clearInterval(handle)] *)
Definition clearInterval (handle : positive) (w : t) : t :=
  {| isLoading := isLoading w; allocatedSeat := allocatedSeat w;
     searchInterval := searchInterval w; isSearching := isSearching w;
     isFirstRequest := isFirstRequest w; timers := timers w ∖ {[ handle ]};
     randomOutcomes := randomOutcomes w; randomDrawn := randomDrawn w;
     currentTime := currentTime w; uiCalls := uiCalls w |}.

(** One more outcome of [Math.random()] has been consumed. *)
Definition drawn (w : t) : t :=
  {| isLoading := isLoading w; allocatedSeat := allocatedSeat w;
     searchInterval := searchInterval w; isSearching := isSearching w;
     isFirstRequest := isFirstRequest w; timers := timers w;
     randomOutcomes := randomOutcomes w; randomDrawn := S (randomDrawn w);
     currentTime := currentTime w; uiCalls := uiCalls w |}.

Definition logUi (c : UiCall) (w : t) : t :=
  {| isLoading := isLoading w; allocatedSeat := allocatedSeat w;
     searchInterval := searchInterval w; isSearching := isSearching w;
     isFirstRequest := isFirstRequest w; timers := timers w;
     randomOutcomes := randomOutcomes w; randomDrawn := randomDrawn w;
     currentTime := currentTime w; uiCalls := c :: uiCalls w |}.
End World.

(** An [async] function body: a tree whose leaves return or throw, and whose
    nodes read or update the state of the page, or suspend the function at an
    [await] (a timer, a [fetch], a [response.json()]) until the environment
    settles the awaited promise. *)
Inductive Prog (A : Type) : Type :=
| Ret (a : A)
| Throw (e : Error.t)
| GetW (k : World.t -> Prog A)
| ModW (f : World.t -> World.t) (k : Prog A)
| Sleep (ms : Z) (k : Prog A)
| Fetch (req : Request) (k : FetchOutcome -> Prog A)
| Json (resp : Response.t) (k : Result Body -> Prog A).
Arguments Ret {A} a.
Arguments Throw {A} e.
Arguments GetW {A} k.
Arguments ModW {A} f k.
Arguments Sleep {A} ms k.
Arguments Fetch {A} req k.
Arguments Json {A} resp k.

Module Async.

(** Sequencing: run [p], then [f] on what it returns. *)
Fixpoint bind {A B} (f : A -> Prog B) (p : Prog A) : Prog B :=
  match p with
  | Ret a => f a
  | Throw e => Throw e
  | GetW k => GetW (fun w => bind f (k w))
  | ModW g k => ModW g (bind f k)
  | Sleep ms k => Sleep ms (bind f k)
  | Fetch req k => Fetch req (fun o => bind f (k o))
  | Json resp k => Json resp (fun b => bind f (k b))
  end.

#[global] Instance prog_ret : MRet Prog := fun A a => Ret a.
#[global] Instance prog_bind : MBind Prog := fun A B f p => bind f p.

(** [try { p } catch (e) { handler e }] *)
Fixpoint tryCatch {A} (p : Prog A) (handler : Error.t -> Prog A) : Prog A :=
  match p with
  | Ret a => Ret a
  | Throw e => handler e
  | GetW k => GetW (fun w => tryCatch (k w) handler)
  | ModW g k => ModW g (tryCatch k handler)
  | Sleep ms k => Sleep ms (tryCatch k handler)
  | Fetch req k => Fetch req (fun o => tryCatch (k o) handler)
  | Json resp k => Json resp (fun b => tryCatch (k b) handler)
  end.

(** [try { p } finally { update }], for a [finally] block that only
    updates the state. *)
Fixpoint tryFinally {A} (p : Prog A) (update : World.t -> World.t) : Prog A :=
  match p with
  | Ret a => ModW update (Ret a)
  | Throw e => ModW update (Throw e)
  | GetW k => GetW (fun w => tryFinally (k w) update)
  | ModW g k => ModW g (tryFinally k update)
  | Sleep ms k => Sleep ms (tryFinally k update)
  | Fetch req k => Fetch req (fun o => tryFinally (k o) update)
  | Json resp k => Json resp (fun b => tryFinally (k b) update)
  end.

Definition modify (f : World.t -> World.t) : Prog unit := ModW f (Ret tt).
Definition sleep (ms : Z) : Prog unit := Sleep ms (Ret tt).

(** [await fetch(url, ...)]: a rejection is thrown at the [await]. *)
Definition fetch (req : Request) : Prog Response.t :=
  Fetch req (fun o => match o with
                      | Rejected e => Throw e
                      | Resolved r => Ret r
                      end).

(** [await response.json()] *)
Definition json (resp : Response.t) : Prog Body :=
  Json resp (fun b => match b with
                      | Returned body => Ret body
                      | Thrown e => Throw e
                      end).

(** A call on [uiManager]. *)
Definition ui (c : UiCall) : Prog unit := modify (World.logUi c).

(** [Math.random()] *)
Definition random : Prog Q :=
  GetW (fun w => ModW World.drawn
                      (Ret (World.randomOutcomes w (World.randomDrawn w)))).

(** ** Running a function up to its next [await] *)

(** A suspended function: what it awaits and how it goes on. *)
Inductive Pending (A : Type) : Type :=
| PSleep (ms : Z) (k : Prog A)
| PFetch (req : Request) (k : FetchOutcome -> Prog A)
| PJson (resp : Response.t) (k : Result Body -> Prog A).
Arguments PSleep {A} ms k.
Arguments PFetch {A} req k.
Arguments PJson {A} resp k.

(** The synchronous run of a function from a state of the page: the state
    it leaves, and either how it ended or where it is suspended. *)
Fixpoint runSync {A} (p : Prog A) (w : World.t)
  : World.t * (Result A + Pending A) :=
  match p with
  | Ret a => (w, inl (Returned a))
  | Throw e => (w, inl (Thrown e))
  | GetW k => runSync (k w) w
  | ModW f k => runSync k (f w)
  | Sleep ms k => (w, inr (PSleep ms k))
  | Fetch req k => (w, inr (PFetch req k))
  | Json resp k => (w, inr (PJson resp k))
  end.

(** ** Running a function alone to its end *)

(** What a function did at its [await]s. *)
Inductive Io :=
| Slept (ms : Z)
| Fetched (req : Request).

Module Run.
Record t (A : Type) := {
  final : World.t;
  outcome : Result A;
  trace : list Io
}.
Arguments final {A} _.
Arguments outcome {A} _.
Arguments trace {A} _.
End Run.

(** The remote service: how the [n]-th [fetch] of a run is settled. *)
Definition Server := nat -> Request -> FetchOutcome.

(** The run of a function with nothing else happening on the page while it
    is suspended.  [fetched] counts the requests made so far and [done]
    holds what was awaited so far, latest first. *)
Fixpoint execFrom {A} (server : Server) (p : Prog A) (w : World.t)
         (fetched : nat) (done : list Io) : Run.t A :=
  match p with
  | Ret a => {| Run.final := w; Run.outcome := Returned a; Run.trace := rev done |}
  | Throw e => {| Run.final := w; Run.outcome := Thrown e; Run.trace := rev done |}
  | GetW k => execFrom server (k w) w fetched done
  | ModW f k => execFrom server k (f w) fetched done
  | Sleep ms k => execFrom server k w fetched (Slept ms :: done)
  | Fetch req k =>
      execFrom server (k (server fetched req)) w (S fetched) (Fetched req :: done)
  | Json resp k => execFrom server (k (Response.json resp)) w fetched done
  end.

Definition exec {A} (server : Server) (p : Prog A) (w : World.t) : Run.t A :=
  execFrom server p w 0%nat [].

End Async.
Import Async.

Module SearchParams.
(** The object [uiManager.getSearchParams()] returns. *)
Record t := {
  departureStationId : Z;
  departureStationName : string;
  arrivalStationId : Z;
  arrivalStationName : string;
  departureDate : string;
  timeStart : string;
  timeEnd : string;
  selectedCabinClasses : list string
}.
End SearchParams.

(* ===================================================================== *)
(** * api.js                                                              *)
(* ===================================================================== *)

Module SeatData.
(** The argument of [allocateSeat]. *)
Record t := {
  trainCarId : Z;
  fromStationId : Z;
  toStationId : Z;
  gender : option string;
  seatNumber : string;
  passengerTypeId : option Z;
  totalPassengerCount : option Z;
  fareFamilyId : option Z
}.
End SeatData.

Module AllocationData.
(** The argument of [deallocateSeat]. *)
Record t := { trainCarId : Z; allocationId : Z; seatNumber : string }.
End AllocationData.

Module TrainAPI.

(** [new Error(`HTTP ${status}: ${what}`)] *)
Definition httpError (status : Z) (what : string) : Error.t :=
  {| Error.message := "HTTP " +:+ pretty status +:+ ": " +:+ what |}.

(** [isRequestInProgress()] *)
Definition isRequestInProgress : Prog bool :=
  GetW (fun w => Ret (World.isLoading w)).

(** The statements of the [try] block of [checkAvailability] that follow
    [this.isLoading = true]. *)
Definition availabilityBody (params : SearchParams.t) (skipDelay : bool)
  : Prog Body :=
  (if negb skipDelay
   then r ← random;
        sleep (Utils.getRandomDelay Config.MIN_ANTI_BOT_DELAY
                                    Config.MAX_ANTI_BOT_DELAY r)
   else Ret tt);;
  response ← fetch (AvailabilityRequest
                      (SearchParams.departureStationId params)
                      (SearchParams.departureStationName params)
                      (SearchParams.arrivalStationId params)
                      (SearchParams.arrivalStationName params)
                      (SearchParams.departureDate params +:+ " 00:00:00"));
  if negb (Response.ok response)
  then Throw (httpError (Response.status response) "API request failed")
  else data ← json response; Ret data.

(** [checkAvailability(params, skipDelay)]; the value [null] is [BNull]. *)
Definition checkAvailability (params : SearchParams.t) (skipDelay : bool)
  : Prog Body :=
  GetW (fun w =>
    if World.isLoading w then Ret BNull
    else
      tryFinally
        (tryCatch
           (modify (World.setLoading true);;
            availabilityBody params skipDelay)
           (fun error => Throw error))
        (World.setLoading false)).

(** The error branch shared by three functions: try to read the error
    body, ignore a failure to parse it, then throw. *)
Definition failWith {A} (response : Response.t) (what : string) : Prog A :=
  tryCatch (_ ← json response; Ret tt) (fun _ => Ret tt);;
  Throw (httpError (Response.status response) what).

(** [checkSeatMap(trainId, fromStationId, toStationId)] *)
Definition checkSeatMap (trainId fromStationId toStationId : Z) : Prog Body :=
  tryCatch
    (response ← fetch (SeatMapRequest fromStationId toStationId trainId 0);
     if negb (Response.ok response)
     then failWith response "Seat map request failed"
     else json response)
    (fun _ => Ret BNull).

(** [allocateSeat(seatData)] *)
Definition allocateSeat (seatData : SeatData.t) : Prog Body :=
  tryCatch
    (response ← fetch (AllocateRequest
                         (SeatData.trainCarId seatData)
                         (SeatData.fromStationId seatData)
                         (SeatData.toStationId seatData)
                         (default "M" (Js.orStr (SeatData.gender seatData) (Some "M")))
                         (SeatData.seatNumber seatData)
                         (Js.orNum (SeatData.passengerTypeId seatData) 0)
                         (Js.orNum (SeatData.totalPassengerCount seatData) 1)
                         (Js.orNum (SeatData.fareFamilyId seatData) 0));
     if negb (Response.ok response)
     then failWith response "Allocation request failed"
     else json response)
    (fun _ => Ret BNull).

(** [deallocateSeat(allocationData)]; the object [{ success: true }] it
    returns is its [success] field. *)
Definition deallocateSeat (allocationData : AllocationData.t) : Prog bool :=
  tryCatch
    (response ← fetch (DeallocateRequest
                         (AllocationData.trainCarId allocationData)
                         (AllocationData.allocationId allocationData)
                         (AllocationData.seatNumber allocationData));
     if negb (Response.ok response)
     then failWith response "Deallocation request failed"
     else Ret true)
    (fun error => Throw error).

End TrainAPI.

(* ===================================================================== *)
(** * seat_allocation.js: the allocation tracker                          *)
(* ===================================================================== *)

Module Outcome.
(** The result objects [{ success, message, seatInfo }]. *)
Record t := {
  success : bool;
  message : string;
  seatInfo : option Allocation.t
}.
End Outcome.

Module SeatAllocationManager.

(** [hasAllocatedSeat()] *)
Definition hasAllocatedSeat : Prog bool :=
  GetW (fun w => Ret (match World.allocatedSeat w with
                      | Some _ => true
                      | None => false
                      end)).

(** [getAllocatedSeatInfo()] *)
Definition getAllocatedSeatInfo : Prog (option Allocation.t) :=
  GetW (fun w => Ret (World.allocatedSeat w)).

Definition failure (message : string) : Outcome.t :=
  {| Outcome.success := false; Outcome.message := message;
     Outcome.seatInfo := None |}.

(** [seatMapData.seatMaps] when [seatMapData] is an object that has it. *)
Definition seatMapsOf (seatMapData : Body) : option (list SeatMap.t) :=
  match seatMapData with
  | BSeatMaps d => SeatMapData.seatMaps d
  | _ => None
  end.

(** The allocation result when it is an object with a truthy
    [allocationId]: that id and [lockFor || 10]. *)
Definition allocationOf (allocationResult : Body) : option (Z * Z) :=
  match allocationResult with
  | BAllocation d =>
      match AllocationResult.allocationId d with
      | Some i =>
          if Js.truthyNum i
          then Some (i, Js.orNum (AllocationResult.lockFor d) 10)
          else None
      | None => None
      end
  | _ => None
  end.

(** [checkAndAllocateFirstSeat(trainInfo, searchParams)] *)
Definition checkAndAllocateFirstSeat (trainInfo : TrainInfo.t)
           (searchParams : SearchParams.t) : Prog Outcome.t :=
  tryCatch
    (seatMapData ← TrainAPI.checkSeatMap
                     (TrainInfo.trainId trainInfo)
                     (SearchParams.departureStationId searchParams)
                     (SearchParams.arrivalStationId searchParams);
     match seatMapsOf seatMapData with
     | None => Ret (failure "Koltuk haritası alınamadı")
     | Some seatMaps =>
         match SeatLocator.findFirstAvailableSeat
                 seatMaps (SearchParams.selectedCabinClasses searchParams) with
         | None => Ret (failure "Seçilen kategorilerde boş koltuk bulunamadı")
         | Some seatToAllocate =>
             allocationResult ← TrainAPI.allocateSeat
               {| SeatData.trainCarId := SeatCandidate.trainCarId seatToAllocate;
                  SeatData.fromStationId :=
                    SearchParams.departureStationId searchParams;
                  SeatData.toStationId :=
                    SearchParams.arrivalStationId searchParams;
                  SeatData.gender := Some "M";
                  SeatData.seatNumber := SeatCandidate.seatNumber seatToAllocate;
                  SeatData.passengerTypeId := Some 0;
                  SeatData.totalPassengerCount := Some 1;
                  SeatData.fareFamilyId := Some 0 |};
             match allocationOf allocationResult with
             | None => Ret (failure "Koltuk tutma işlemi başarısız oldu")
             | Some (allocationId, lockFor) =>
                 modify (World.setAllocatedSeat (Some
                   {| Allocation.trainName := TrainInfo.name trainInfo;
                      Allocation.trainId := TrainInfo.trainId trainInfo;
                      Allocation.departureTime := TrainInfo.departureTime trainInfo;
                      Allocation.arrivalTime := TrainInfo.arrivalTime trainInfo;
                      Allocation.seatNumber :=
                        SeatCandidate.seatNumber seatToAllocate;
                      Allocation.trainCarId :=
                        SeatCandidate.trainCarId seatToAllocate;
                      Allocation.carName := SeatCandidate.carName seatToAllocate;
                      Allocation.wagonNumber :=
                        SeatCandidate.wagonNumber seatToAllocate;
                      Allocation.cabinClassName :=
                        SeatCandidate.cabinClassName seatToAllocate;
                      Allocation.allocationId := allocationId;
                      Allocation.lockFor := lockFor |}));;
                 GetW (fun w =>
                   Ret {| Outcome.success := true;
                          Outcome.message := "Koltuk başarıyla tutuldu";
                          Outcome.seatInfo := World.allocatedSeat w |})
             end
         end
     end)
    (fun error => Ret (failure ("Hata: " +:+ Error.message error))).

(** [releaseSeat()] *)
Definition releaseSeat : Prog Outcome.t :=
  GetW (fun w =>
    match World.allocatedSeat w with
    | None => Ret (failure "Tutulmuş koltuk bulunamadı")
    | Some held =>
        tryCatch
          (TrainAPI.deallocateSeat
             {| AllocationData.trainCarId := Allocation.trainCarId held;
                AllocationData.allocationId := Allocation.allocationId held;
                AllocationData.seatNumber := Allocation.seatNumber held |};;
           modify (World.setAllocatedSeat None);;
           Ret {| Outcome.success := true;
                  Outcome.message := "Koltuk başarıyla serbest bırakıldı";
                  Outcome.seatInfo := None |})
          (fun error => Ret (failure ("Hata: " +:+ Error.message error)))
    end).

(** The request [releaseSeat] sends for a held allocation. *)
Definition releaseRequest (held : Allocation.t) : Request :=
  DeallocateRequest (Allocation.trainCarId held) (Allocation.allocationId held)
                    (Allocation.seatNumber held).

(** How the release request can fail with an error: the [fetch] is
    rejected with it, or resolves with a status that is not a success. *)
Definition transportFailure (o : FetchOutcome) (e : Error.t) : Prop :=
  o = Rejected e
  \/ exists response,
      o = Resolved response
      /\ Response.ok response = false
      /\ e = TrainAPI.httpError (Response.status response)
                                "Deallocation request failed".

(** [clearAllocation()] *)
Definition clearAllocation : Prog unit :=
  modify (World.setAllocatedSeat None).

End SeatAllocationManager.

(* ===================================================================== *)
(** * search.js: the search loop controller                               *)
(* ===================================================================== *)

Module SearchManager.

(** [stopSearch()] *)
Definition stopSearch : Prog unit :=
  GetW (fun w =>
    if negb (World.isSearching w) then Ret tt
    else
      modify (World.setSearching false);;
      ui (SetSearchingState false);;
      GetW (fun w' =>
        match World.searchInterval w' with
        | Some handle =>
            modify (World.clearInterval handle);;
            modify (World.setSearchInterval None)
        | None => Ret tt
        end);;
      ui StopMusic;;
      ui (UpdateStatus "Arama durduruldu." "waiting")).

(** A possibly missing string inside a template literal. *)
Definition shown (o : option string) : string := default "undefined" o.

(** The branch of [handleTicketsFound] for a positive seat count. *)
Definition announceAndAllocate (actualAvailableSeats : Z)
           (result : SearchResult.t) (params : SearchParams.t) : Prog unit :=
  ui (UpdateStatus ("✅ YER BULUNDU! " +:+ pretty actualAvailableSeats
                      +:+ " yer mevcut") "found");;
  GetW (fun w =>
    ui (AddLog ("🎉 KOLTUK BULUNDU: " +:+ pretty actualAvailableSeats
                  +:+ " yer (" +:+ World.currentTime w +:+ ")")));;
  stopSearch;;
  ui PlayAlert;;
  held ← SeatAllocationManager.hasAllocatedSeat;
  if negb held
  then
    match SearchResult.trains result with
    | targetTrain :: _ =>
        ui (AddLog ("🎫 Otomatik koltuk tutuluyor... ("
                      +:+ shown (TrainInfo.name targetTrain) +:+ ")"));;
        allocResult ← SeatAllocationManager.checkAndAllocateFirstSeat
                        targetTrain params;
        if Outcome.success allocResult
        then
          ui (AddLog ("✅ BAŞARILI: " +:+ Outcome.message allocResult));;
          ui (ShowAllocatedSeat (Outcome.seatInfo allocResult))
        else
          ui (AddLog ("⚠️ Koltuk tutulamadı: " +:+ Outcome.message allocResult))
    | [] => Ret tt
    end
  else ui (AddLog "ℹ️ Zaten tutulmuş bir koltuk var.").

(** The branch of [handleTicketsFound] for a seat count of zero. *)
Definition reportSoldOut (result : SearchResult.t) : Prog unit :=
  let count := pretty (Z.of_nat (length (SearchResult.trains result))) in
  ui (UpdateStatus (count +:+ " sefer bulundu ancak seçtiğiniz sınıflarda koltuk TÜKENDI. Arama devam ediyor...") "searching");;
  GetW (fun w =>
    ui (AddLog ("⚠️ " +:+ count +:+ " sefer var ama seçili sınıflarda tükendi ("
                  +:+ World.currentTime w +:+ ")"))).

(** [handleTicketsFound(result, params)] *)
Definition handleTicketsFound (result : SearchResult.t)
           (params : SearchParams.t) : Prog unit :=
  let actualAvailableSeats := Filter.actualAvailableSeats result in
  (if 0 <? actualAvailableSeats
   then announceAndAllocate actualAvailableSeats result params
   else reportSoldOut result);;
  ui (DisplayResults (SearchResult.trains result)).

End SearchManager.

(* ===================================================================== *)
(** * The client under interleaved calls                                  *)
(* ===================================================================== *)

Module Client.

(** A call of one of the four functions of [trainAPI] that is suspended at
    an [await]: a request in flight. *)
Inductive Task :=
| TAvailability (p : Pending Body)
| TSeatMap (p : Pending Body)
| TAllocate (p : Pending Body)
| TDeallocate (p : Pending bool).

Inductive Call :=
| CallAvailability (params : SearchParams.t) (skipDelay : bool)
| CallSeatMap (trainId fromStationId toStationId : Z)
| CallAllocate (seatData : SeatData.t)
| CallDeallocate (allocationData : AllocationData.t).

(** The page with its calls in flight. *)
Record Config := { world : World.t; inFlight : list Task }.

(** How a call ended, when it did. *)
Inductive Settlement :=
| SettledBody (r : Result Body)
| SettledFlag (r : Result bool).

(** The environment settles what a suspended call awaits: the timer
    fires, the [fetch] resolves or rejects, the body has been read. *)
Inductive Answer :=
| TimerFired
| FetchSettled (o : FetchOutcome)
| BodyRead.

Inductive Action :=
| Invoke (c : Call)
| Settle (i : nat) (a : Answer).

(** Where a suspended call goes on when its promise settles; nothing when
    the answer is not the one it awaits. *)
Definition resume {A} (p : Pending A) (a : Answer) : option (Prog A) :=
  match p, a with
  | PSleep _ k, TimerFired => Some k
  | PFetch _ k, FetchSettled o => Some (k o)
  | PJson resp k, BodyRead => Some (k (Response.json resp))
  | _, _ => None
  end.

(** Run a function until it ends or suspends; a suspended one joins the
    calls in flight. *)
Definition advance {A} (task : Pending A -> Task) (settled : Result A -> Settlement)
           (p : Prog A) (w : World.t) (others : list Task)
  : Config * option Settlement :=
  match runSync p w with
  | (w', inl r) => ({| world := w'; inFlight := others |}, Some (settled r))
  | (w', inr pending) =>
      ({| world := w'; inFlight := others ++ [task pending] |}, None)
  end.

Definition invoke (c : Call) (cfg : Config) : Config * option Settlement :=
  match c with
  | CallAvailability params skipDelay =>
      advance TAvailability SettledBody
              (TrainAPI.checkAvailability params skipDelay)
              (world cfg) (inFlight cfg)
  | CallSeatMap trainId fromStationId toStationId =>
      advance TSeatMap SettledBody
              (TrainAPI.checkSeatMap trainId fromStationId toStationId)
              (world cfg) (inFlight cfg)
  | CallAllocate seatData =>
      advance TAllocate SettledBody (TrainAPI.allocateSeat seatData)
              (world cfg) (inFlight cfg)
  | CallDeallocate allocationData =>
      advance TDeallocate SettledFlag (TrainAPI.deallocateSeat allocationData)
              (world cfg) (inFlight cfg)
  end.

Definition settleTask {A} (task : Pending A -> Task)
           (settled : Result A -> Settlement)
           (p : Pending A) (a : Answer) (cfg : Config) (others : list Task)
  : Config * option Settlement :=
  match resume p a with
  | Some next => advance task settled next (world cfg) others
  | None => (cfg, None)
  end.

Definition settle (i : nat) (a : Answer) (cfg : Config)
  : Config * option Settlement :=
  match inFlight cfg !! i with
  | Some t =>
      let others := delete i (inFlight cfg) in
      match t with
      | TAvailability p => settleTask TAvailability SettledBody p a cfg others
      | TSeatMap p => settleTask TSeatMap SettledBody p a cfg others
      | TAllocate p => settleTask TAllocate SettledBody p a cfg others
      | TDeallocate p => settleTask TDeallocate SettledFlag p a cfg others
      end
  | None => (cfg, None)
  end.

Definition step (a : Action) (cfg : Config) : Config * option Settlement :=
  match a with
  | Invoke c => invoke c cfg
  | Settle i answer => settle i answer cfg
  end.

(** The page after a sequence of actions. *)
Definition run (actions : list Action) (cfg : Config) : Config :=
  fold_left (fun c a => fst (step a c)) actions cfg.

(** A page on which no call was made yet. *)
Definition fresh (w : World.t) : Config := {| world := w; inFlight := [] |}.

Definition isAvailability (t : Task) : bool :=
  match t with TAvailability _ => true | _ => false end.

(** The [checkAvailability] calls in flight. *)
Definition availabilityCalls (cfg : Config) : nat :=
  length (List.filter isAvailability (inFlight cfg)).

Definition weight (t : Task) : nat := if isAvailability t then 1 else 0.

(** The flag and the number of availability calls in flight agree. *)
Definition flagMatches (w : World.t) (calls : nat) : Prop :=
  (World.isLoading w = false /\ calls = 0%nat)
  \/ (World.isLoading w = true /\ calls = 1%nat).

(** ** Functions that leave the in-flight flag alone *)

Fixpoint keepsLoading {A} (p : Prog A) : Prop :=
  match p with
  | Ret _ | Throw _ => True
  | GetW k => forall w, keepsLoading (k w)
  | ModW f k =>
      (forall w, World.isLoading (f w) = World.isLoading w) /\ keepsLoading k
  | Sleep _ k => keepsLoading k
  | Fetch _ k => forall o, keepsLoading (k o)
  | Json _ k => forall b, keepsLoading (k b)
  end.

Definition keepsLoadingP {A} (p : Pending A) : Prop :=
  match p with
  | PSleep _ k => keepsLoading k
  | PFetch _ k => forall o, keepsLoading (k o)
  | PJson _ k => forall b, keepsLoading (k b)
  end.

(** A suspended function inside [try { ... } finally { update }]. *)
Definition guarded {A} (update : World.t -> World.t) (p : Pending A) : Pending A :=
  match p with
  | PSleep ms k => PSleep ms (tryFinally k update)
  | PFetch req k => PFetch req (fun o => tryFinally (k o) update)
  | PJson resp k => PJson resp (fun b => tryFinally (k b) update)
  end.

(** What the calls in flight are known to be: a [checkAvailability] call is
    inside the [finally] block that resets the flag and does not touch the
    flag before; the other calls never touch it. *)
Definition wellFormed (t : Task) : Prop :=
  match t with
  | TAvailability p =>
      exists inner, p = guarded (World.setLoading false) inner
                    /\ keepsLoadingP inner
  | TSeatMap p | TAllocate p => keepsLoadingP p
  | TDeallocate p => keepsLoadingP p
  end.

(** The invariant of the client: the calls in flight are well formed, and
    the flag is set exactly when one [checkAvailability] call is in flight;
    there is never more than one. *)
Definition invariant (cfg : Config) : Prop :=
  Forall wellFormed (inFlight cfg)
  /\ flagMatches (world cfg) (availabilityCalls cfg).

End Client.

(* ===================================================================== *)
(** * Sample data                                                         *)
(* ===================================================================== *)

Module Sample.

(** A browser in Europe/Istanbul. *)
Definition clock : Z -> string := Utils.formatTimeAt 180.

(** 5 March 2025, 09:15 and 13:40 in Istanbul. *)
Definition at0915 : Z := 1741155300000.
Definition at1340 : Z := 1741171200000.

Definition classAvail (classId available : Z) : ClassAvail.t :=
  {| ClassAvail.cabinClass := Some classId;
     ClassAvail.availabilityCount := Some available;
     ClassAvail.minPrice := None;
     ClassAvail.bookingClassAvailabilities := None |}.

Definition train (departure : Z) (classes : list ClassAvail.t) : Train.t :=
  {| Train.id := 4711;
     Train.commercialName := Some "YHT 81003";
     Train.name := None;
     Train.segments :=
       Some [ {| Segment.departureTime := departure;
                 Segment.arrivalTime := departure + 6600000 |} ];
     Train.cabinClassAvailabilities := Some classes |}.

Definition response (trains : list Train.t) : Availability.t :=
  {| Availability.trainLegs :=
       Some [ Some {| TrainLeg.trainAvailabilities :=
                        Some [ Some {| TrainGroup.trains := Some trains |} ] |} ] |}.

(** One train at 09:15 with 3 economy seats. *)
Definition oneTrain : Availability.t :=
  response [ train at0915 [ classAvail 2 3 ] ].

(** One train at 09:15, economy sold out, 5 business seats. *)
Definition soldOut : Availability.t :=
  response [ train at0915 [ classAvail 2 0; classAvail 1 5 ] ].

Definition params : SearchParams.t :=
  {| SearchParams.departureStationId := 796;
     SearchParams.departureStationName := "KONYA";
     SearchParams.arrivalStationId := 98;
     SearchParams.arrivalStationName := "ANKARA GAR";
     SearchParams.departureDate := "05-03-2025";
     SearchParams.timeStart := "08:00";
     SearchParams.timeEnd := "12:00";
     SearchParams.selectedCabinClasses := ["ECONOMY"] |}.

Definition page : World.t :=
  {| World.isLoading := false;
     World.allocatedSeat := None;
     World.searchInterval := None;
     World.isSearching := false;
     World.isFirstRequest := true;
     World.timers := ∅;
     World.randomOutcomes := fun _ => 1 # 2;
     World.randomDrawn := 0;
     World.currentTime := "09:00:00";
     World.uiCalls := [] |}.

Definition held : Allocation.t :=
  {| Allocation.trainName := Some "YHT 81003";
     Allocation.trainId := 4711;
     Allocation.departureTime := "09:15";
     Allocation.arrivalTime := "11:05";
     Allocation.seatNumber := "7C";
     Allocation.trainCarId := 31;
     Allocation.carName := Some "1. VAGON";
     Allocation.wagonNumber := "1";
     Allocation.cabinClassName := "Ekonomi Sınıfı";
     Allocation.allocationId := 900;
     Allocation.lockFor := 10 |}.

(** The train info the filter returns for [oneTrain]. *)
Definition trainInfo : TrainInfo.t :=
  {| TrainInfo.trainId := 4711;
     TrainInfo.name := Some "YHT 81003";
     TrainInfo.departureTime := "09:15";
     TrainInfo.arrivalTime := "11:05";
     TrainInfo.cabinClasses :=
       [ {| Cabin.className := "Ekonomi Sınıfı";
            Cabin.classKey := Some "ECONOMY";
            Cabin.availability := 3;
            Cabin.price := None;
            Cabin.isSelected := true |} ] |}.

Definition found : SearchResult.t :=
  {| SearchResult.found := true;
     SearchResult.trains := [trainInfo];
     SearchResult.totalSeats := 3 |}.

(** A page that holds an allocation. *)
Definition holding : World.t := World.setAllocatedSeat (Some held) page.

(** A page on which a search is running with interval timer 5 armed. *)
Definition searching : World.t :=
  {| World.isLoading := false;
     World.allocatedSeat := Some held;
     World.searchInterval := Some 5%positive;
     World.isSearching := true;
     World.isFirstRequest := false;
     World.timers := {[ 5%positive; 9%positive ]};
     World.randomOutcomes := fun _ => 1 # 2;
     World.randomDrawn := 0;
     World.currentTime := "09:00:00";
     World.uiCalls := [] |}.

Definition seat (number : string) (classId : Z) (saleable : bool) : SeatItem.t :=
  {| SeatItem.item_ := Some {| SeatItem.saleable := saleable;
                               SeatItem.cabinClassId := Some classId;
                               SeatItem.id := 1 |};
     SeatItem.seatNumber := Some number |}.

Definition car (carId : Z) (text : string) (items : list SeatItem.t)
           (occupied : list string) : SeatMap.t :=
  {| SeatMap.trainCarId := carId;
     SeatMap.seatMapTemplate :=
       Some {| Template.car := None;
               Template.seatMaps := Some items;
               Template.description := Some text;
               Template.name := None |};
     SeatMap.allocationSeats := Some (List.map Some occupied) |}.

(** A car whose only economy seat 5A is occupied. *)
Definition fullCar : SeatMap.t :=
  car 31 "YHT CAF 1. VAGON EKONOMI" [ seat "5A" 2 true ] ["5A"].

(** A car with a business seat, an occupied economy seat and a free one. *)
Definition openCar : SeatMap.t :=
  car 32 "CAF 2.VAGON EKONOMI"
      [ seat "1A" 1 true; seat "2A" 2 true; seat "2B" 2 true ] ["2A"].

Definition okResponse (body : Body) : FetchOutcome :=
  Resolved {| Response.ok := true; Response.status := 200;
              Response.json := Returned body |}.

(** A service that answers the seat map with [openCar] and grants every
    allocation with id 77; releases succeed. *)
Definition granting : Server :=
  fun _ req =>
    match req with
    | SeatMapRequest _ _ _ _ =>
        okResponse (BSeatMaps {| SeatMapData.seatMaps := Some [fullCar; openCar] |})
    | AllocateRequest _ _ _ _ _ _ _ _ =>
        okResponse (BAllocation {| AllocationResult.allocationId := Some 77;
                                   AllocationResult.lockFor := None |})
    | _ => okResponse BNull
    end.

(** A service that answers every request with status 500. *)
Definition failing : Server :=
  fun _ _ => Resolved {| Response.ok := false; Response.status := 500;
                         Response.json := Returned BNull |}.

(** A network that is down. *)
Definition offline : Server :=
  fun _ _ => Rejected {| Error.message := "Failed to fetch" |}.

End Sample.

(* ===================================================================== *)
(** * Reading the runs                                                    *)
(* ===================================================================== *)

Module Trace.

(** The requests a run made, in order. *)
Definition requests (t : list Io) : list Request :=
  omap (fun io => match io with
                  | Fetched req => Some req
                  | Slept _ => None
                  end) t.

(** How many requests a run made. *)
Definition fetchCount (t : list Io) : nat := length (requests t).

(** The sleeps of a run, in order. *)
Definition sleeps (t : list Io) : list Z :=
  omap (fun io => match io with
                  | Slept ms => Some ms
                  | Fetched _ => None
                  end) t.

End Trace.

Module ApiSpec.

(** What [checkSeatMap] and [allocateSeat] make of the outcome of their
    request: the parsed body of a successful response, and [null] for a
    rejected request, a status that is not a success or a body that does not
    parse. *)
Definition bodyOrNull (o : FetchOutcome) : Body :=
  match o with
  | Resolved response =>
      if Response.ok response
      then match Response.json response with
           | Returned body => body
           | Thrown _ => BNull
           end
      else BNull
  | Rejected _ => BNull
  end.

(** What [checkAvailability] makes of the outcome of its request. *)
Definition bodyOrError (o : FetchOutcome) : Result Body :=
  match o with
  | Resolved response =>
      if Response.ok response
      then Response.json response
      else Thrown (TrainAPI.httpError (Response.status response)
                                      "API request failed")
  | Rejected e => Thrown e
  end.

(** What [deallocateSeat] makes of the outcome of its request. *)
Definition releasedOrError (o : FetchOutcome) : Result bool :=
  match o with
  | Resolved response =>
      if Response.ok response
      then Returned true
      else Thrown (TrainAPI.httpError (Response.status response)
                                      "Deallocation request failed")
  | Rejected e => Thrown e
  end.

(** The request [checkAvailability] posts for the search parameters. *)
Definition availabilityRequest (params : SearchParams.t) : Request :=
  AvailabilityRequest (SearchParams.departureStationId params)
                      (SearchParams.departureStationName params)
                      (SearchParams.arrivalStationId params)
                      (SearchParams.arrivalStationName params)
                      (SearchParams.departureDate params +:+ " 00:00:00").

(** The request [allocateSeat] posts for its argument. *)
Definition allocateRequest (seatData : SeatData.t) : Request :=
  AllocateRequest (SeatData.trainCarId seatData)
                  (SeatData.fromStationId seatData)
                  (SeatData.toStationId seatData)
                  (default "M" (Js.orStr (SeatData.gender seatData) (Some "M")))
                  (SeatData.seatNumber seatData)
                  (Js.orNum (SeatData.passengerTypeId seatData) 0)
                  (Js.orNum (SeatData.totalPassengerCount seatData) 1)
                  (Js.orNum (SeatData.fareFamilyId seatData) 0).

End ApiSpec.

Module TrackerSpec.

(** The seat-map request of an allocation attempt. *)
Definition seatMapRequest (trainInfo : TrainInfo.t) (params : SearchParams.t)
  : Request :=
  SeatMapRequest (SearchParams.departureStationId params)
                 (SearchParams.arrivalStationId params)
                 (TrainInfo.trainId trainInfo) 0.

(** The select-seat request of an allocation attempt for a located seat. *)
Definition selectSeatRequest (seat : SeatCandidate.t) (params : SearchParams.t)
  : Request :=
  AllocateRequest (SeatCandidate.trainCarId seat)
                  (SearchParams.departureStationId params)
                  (SearchParams.arrivalStationId params)
                  "M" (SeatCandidate.seatNumber seat) 0 1 0.

(** The allocation stored for a located seat that the service granted. *)
Definition stored (trainInfo : TrainInfo.t) (seat : SeatCandidate.t)
           (allocationId lockFor : Z) : Allocation.t :=
  {| Allocation.trainName := TrainInfo.name trainInfo;
     Allocation.trainId := TrainInfo.trainId trainInfo;
     Allocation.departureTime := TrainInfo.departureTime trainInfo;
     Allocation.arrivalTime := TrainInfo.arrivalTime trainInfo;
     Allocation.seatNumber := SeatCandidate.seatNumber seat;
     Allocation.trainCarId := SeatCandidate.trainCarId seat;
     Allocation.carName := SeatCandidate.carName seat;
     Allocation.wagonNumber := SeatCandidate.wagonNumber seat;
     Allocation.cabinClassName := SeatCandidate.cabinClassName seat;
     Allocation.allocationId := allocationId;
     Allocation.lockFor := lockFor |}.

(** The seat the locator picks in the seat map the service answered with. *)
Definition located (server : Server) (trainInfo : TrainInfo.t)
           (params : SearchParams.t) : option SeatCandidate.t :=
  match SeatAllocationManager.seatMapsOf
          (ApiSpec.bodyOrNull (server 0%nat (seatMapRequest trainInfo params))) with
  | Some seatMaps =>
      SeatLocator.findFirstAvailableSeat
        seatMaps (SearchParams.selectedCabinClasses params)
  | None => None
  end.

(** The allocation id and the hold the service granted for a located seat. *)
Definition granted (server : Server) (seat : SeatCandidate.t)
           (params : SearchParams.t) : option (Z * Z) :=
  SeatAllocationManager.allocationOf
    (ApiSpec.bodyOrNull (server 1%nat (selectSeatRequest seat params))).

(** An allocation attempt run alone, case by case. *)
Definition attempt (server : Server) (trainInfo : TrainInfo.t)
           (params : SearchParams.t) (w : World.t) : Run.t Outcome.t :=
  match SeatAllocationManager.seatMapsOf
          (ApiSpec.bodyOrNull (server 0%nat (seatMapRequest trainInfo params))) with
  | None =>
      {| Run.final := w;
         Run.outcome :=
           Returned (SeatAllocationManager.failure "Koltuk haritası alınamadı");
         Run.trace := [Fetched (seatMapRequest trainInfo params)] |}
  | Some seatMaps =>
      match SeatLocator.findFirstAvailableSeat
              seatMaps (SearchParams.selectedCabinClasses params) with
      | None =>
          {| Run.final := w;
             Run.outcome :=
               Returned (SeatAllocationManager.failure
                           "Seçilen kategorilerde boş koltuk bulunamadı");
             Run.trace := [Fetched (seatMapRequest trainInfo params)] |}
      | Some seat =>
          match granted server seat params with
          | None =>
              {| Run.final := w;
                 Run.outcome :=
                   Returned (SeatAllocationManager.failure
                               "Koltuk tutma işlemi başarısız oldu");
                 Run.trace := [Fetched (seatMapRequest trainInfo params);
                               Fetched (selectSeatRequest seat params)] |}
          | Some (allocationId, lockFor) =>
              let allocation := stored trainInfo seat allocationId lockFor in
              {| Run.final := World.setAllocatedSeat (Some allocation) w;
                 Run.outcome :=
                   Returned {| Outcome.success := true;
                               Outcome.message := "Koltuk başarıyla tutuldu";
                               Outcome.seatInfo := Some allocation |};
                 Run.trace := [Fetched (seatMapRequest trainInfo params);
                               Fetched (selectSeatRequest seat params)] |}
          end
      end
  end.

End TrackerSpec.

Module FilterSpec.

(** The sum of a quantity over a list. *)
Definition sumOver {A} (f : A -> Z) (l : list A) : Z :=
  foldr (fun x sum => f x + sum) 0 l.

(** The seats of a cabin that count towards [totalSeats]: all those of a
    selected class. *)
Definition selectedCount (cabin : Cabin.t) : Z :=
  if Cabin.isSelected cabin then Cabin.availability cabin else 0.

(** The seats of a cabin that count in [handleTicketsFound]: those of a
    selected class with seats. *)
Definition availableCount (cabin : Cabin.t) : Z :=
  if Cabin.isSelected cabin && (0 <? Cabin.availability cabin)
  then Cabin.availability cabin else 0.

(** The result of the filter when nothing is found. *)
Definition nothing : SearchResult.t :=
  {| SearchResult.found := false; SearchResult.trains := [];
     SearchResult.totalSeats := 0 |}.

(** The identifiers of the six classes of the catalog. *)
Definition knownClassIds : list Z := [2; 1; 3; 6; 11; 12].

End FilterSpec.

Module LocatorSpec.

(** Every character of the text is a decimal digit. *)
Fixpoint allDigits (s : string) : bool :=
  match s with
  | EmptyString => true
  | String c rest => Js.isDigit c && allDigits rest
  end.

(** The car has a template with a list of seat items: the outer loop of
    the locator does not [continue] past it. *)
Definition hasItems (seatMap : SeatMap.t) : bool :=
  match SeatMap.seatMapTemplate seatMap with
  | Some template =>
      match Template.seatMaps template with
      | Some _ => true
      | None => false
      end
  | None => false
  end.

(** The first of two possible picks. *)
Definition orElse {A} (first second : option A) : option A :=
  match first with
  | Some a => Some a
  | None => second
  end.

End LocatorSpec.

(* ===================================================================== *)
(** * ui.js: reading the form                                             *)
(* ===================================================================== *)

Module Station.
(** What [getSelectedStation] returns for a chosen option.  The options
    are written by [populateStations] with the numeric id of a station as
    their value, which [parseInt] reads back. *)
Record t := { id : Z; name : string; code : string }.
End Station.

Module Form.
(** The values of the form elements when [getSearchParams] reads them:
    the station of each of the two selects ([None] when no option or the
    empty option is chosen), the three text inputs and the six boxes. *)
Record t := {
  departureStation : option Station.t;
  arrivalStation : option Station.t;
  departureDate : string;
  timeStart : string;
  timeEnd : string;
  cabinEconomy : bool;
  cabinBusiness : bool;
  cabinSleeper : bool;
  cabinCouchette : bool;
  cabinLoca : bool;
  cabinDisabled : bool
}.
End Form.

Module UiManager.

(** [if (box.checked) selectedCabinClasses.push(key)] *)
Definition pushIf (checked : bool) (key : string) (keys : list string)
  : list string :=
  if checked then keys ++ [key] else keys.

(** The keys of the ticked boxes, in the order the boxes are read. *)
Definition tickedClasses (form : Form.t) : list string :=
  pushIf (Form.cabinDisabled form) "DISABLED"
    (pushIf (Form.cabinLoca form) "LOCA"
       (pushIf (Form.cabinCouchette form) "COUCHETTE"
          (pushIf (Form.cabinSleeper form) "SLEEPER"
             (pushIf (Form.cabinBusiness form) "BUSINESS"
                (pushIf (Form.cabinEconomy form) "ECONOMY" []))))).

(** A failed validation: the message is shown and [null] is returned. *)
Definition reject (message : string) : Prog (option SearchParams.t) :=
  ui (UpdateStatus message "error");; Ret None.

Section WithCalendar.

(** [new Date(dateValue) < today], where [today] is the local midnight of
    the day the function runs: it depends on the clock and the time zone of
    the browser. *)
Variable isPast : string -> bool.

(** [getSearchParams()] *)
Definition getSearchParams (form : Form.t) : Prog (option SearchParams.t) :=
  match Form.departureStation form, Form.arrivalStation form with
  | Some departureStation, Some arrivalStation =>
      if Station.id departureStation =? Station.id arrivalStation
      then reject "⚠️ Kalkış ve varış istasyonu aynı olamaz"
      else
        let dateValue := Form.departureDate form in
        if negb (Js.truthyStr dateValue)
        then reject "⚠️ Lütfen bir tarih seçin"
        else if isPast dateValue
        then reject "⚠️ Geçmiş bir tarih seçemezsiniz"
        else
          let timeStart := Form.timeStart form in
          let timeEnd := Form.timeEnd form in
          if negb (Js.truthyStr timeStart) || negb (Js.truthyStr timeEnd)
          then reject "⚠️ Lütfen saat aralığını belirleyin"
          else if String.ltb timeEnd timeStart
          then reject "⚠️ Başlangıç saati, bitiş saatinden önce olmalıdır"
          else
            let selectedCabinClasses := tickedClasses form in
            if (length selectedCabinClasses =? 0)%nat
            then reject "⚠️ En az bir sınıf seçmelisiniz"
            else
              let departureDateAPI := Utils.convertDateToAPI dateValue in
              Ret (Some
                {| SearchParams.departureStationId := Station.id departureStation;
                   SearchParams.departureStationName := Station.name departureStation;
                   SearchParams.arrivalStationId := Station.id arrivalStation;
                   SearchParams.arrivalStationName := Station.name arrivalStation;
                   SearchParams.departureDate := departureDateAPI;
                   SearchParams.timeStart := timeStart;
                   SearchParams.timeEnd := timeEnd;
                   SearchParams.selectedCabinClasses := selectedCabinClasses |})
  | _, _ => reject "⚠️ Lütfen kalkış ve varış istasyonlarını seçin"
  end.

End WithCalendar.

End UiManager.

(* ===================================================================== *)
(** * search.js: one round of the search loop                             *)
(* ===================================================================== *)

Module Controller.

Definition setFirstRequest (b : bool) (w : World.t) : World.t :=
  {| World.isLoading := World.isLoading w;
     World.allocatedSeat := World.allocatedSeat w;
     World.searchInterval := World.searchInterval w;
     World.isSearching := World.isSearching w;
     World.isFirstRequest := b; World.timers := World.timers w;
     World.randomOutcomes := World.randomOutcomes w;
     World.randomDrawn := World.randomDrawn w;
     World.currentTime := World.currentTime w;
     World.uiCalls := World.uiCalls w |}.

(** The response as [processTrainData] reads it: a body of another shape
    has no [trainLegs]. *)
Definition asAvailability (data : Body) : Availability.t :=
  match data with
  | BAvailability d => d
  | _ => {| Availability.trainLegs := None |}
  end.

(** A call of an [async] function that is not awaited and after which the
    caller does nothing more: the function runs to its end, and an error it
    throws rejects a promise nobody reads instead of reaching the caller. *)
Definition detached (p : Prog unit) : Prog unit :=
  tryCatch p (fun _ => Ret tt).

(** The [catch] block of [performCheck]. *)
Definition reportError (error : Error.t) : Prog unit :=
  ui (UpdateStatus ("❌ Hata: " +:+ Error.message error) "error");;
  GetW (fun w =>
    ui (AddLog ("⚠️ Hata: " +:+ Error.message error +:+ " ("
                  +:+ World.currentTime w +:+ ")"))).

Section WithBrowser.

Variable formatTime : Z -> string.
Variable isPast : string -> bool.

(** The statements of [performCheck] that follow the [await]. *)
Definition handleData (params : SearchParams.t) (data : Body) : Prog unit :=
  match data with
  | BNull => Ret tt
  | _ =>
      let result :=
        Filter.processTrainData formatTime (asAvailability data)
                                (SearchParams.timeStart params)
                                (SearchParams.timeEnd params)
                                (SearchParams.selectedCabinClasses params) in
      if SearchResult.found result
      then detached (SearchManager.handleTicketsFound result params)
      else
        ui (UpdateStatus "Belirtilen saat aralığında boş koltuk bulunamadı. Arama devam ediyor..." "searching");;
        ui (DisplayResults [])
  end.

(** The statements of the [try] block for parameters that passed the
    validation. *)
Definition checkWith (params : SearchParams.t) : Prog unit :=
  ui (UpdateStatus "Kontrol ediliyor..." "searching");;
  GetW (fun w =>
    let skipDelay := World.isFirstRequest w in
    modify (setFirstRequest false);;
    data ← TrainAPI.checkAvailability params skipDelay;
    handleData params data).

(** The [try] block of [performCheck]. *)
Definition checkBody (form : Form.t) : Prog unit :=
  params ← UiManager.getSearchParams isPast form;
  match params with
  | None => SearchManager.stopSearch
  | Some params => checkWith params
  end.

(** [performCheck()], for the values the form holds when it is called. *)
Definition performCheck (form : Form.t) : Prog unit :=
  TrainAPI.isRequestInProgress ≫= fun busy : bool =>
  if busy then Ret tt else tryCatch (checkBody form) reportError.

End WithBrowser.

End Controller.

(* ===================================================================== *)
(** * Reading the rounds                                                  *)
(* ===================================================================== *)

Module RunSpec.

(** The service as a function sees it that starts after [n] requests. *)
Definition shift (n : nat) (server : Server) : Server :=
  fun k => server (n + k)%nat.

(** The number of requests made when a run that started at [fetched]
    requests is over. *)
Fixpoint requestsMade {A} (server : Server) (p : Prog A) (w : World.t)
         (fetched : nat) : nat :=
  match p with
  | Ret _ | Throw _ => fetched
  | GetW k => requestsMade server (k w) w fetched
  | ModW f k => requestsMade server k (f w) fetched
  | Sleep _ k => requestsMade server k w fetched
  | Fetch req k => requestsMade server (k (server fetched req)) w (S fetched)
  | Json resp k => requestsMade server (k (Response.json resp)) w fetched
  end.

(** A run that comes after what was awaited before it. *)
Definition after {A} (before : list Io) (r : Run.t A) : Run.t A :=
  {| Run.final := Run.final r; Run.outcome := Run.outcome r;
     Run.trace := before ++ Run.trace r |}.

End RunSpec.

Module ControllerSpec.

(** The page after [stopSearch]. *)
Definition stopped (w : World.t) : World.t :=
  if negb (World.isSearching w) then w
  else
    let w1 := World.logUi (SetSearchingState false) (World.setSearching false w) in
    let w2 := match World.searchInterval w1 with
              | Some handle =>
                  World.setSearchInterval None (World.clearInterval handle w1)
              | None => w1
              end in
    World.logUi (UpdateStatus "Arama durduruldu." "waiting")
                (World.logUi StopMusic w2).

(** The first validation of [getSearchParams] the form fails, with the
    message shown for it, in the order the validations are made. *)
Definition problem (isPast : string -> bool) (form : Form.t) : option string :=
  match Form.departureStation form, Form.arrivalStation form with
  | Some departureStation, Some arrivalStation =>
      if Station.id departureStation =? Station.id arrivalStation
      then Some "⚠️ Kalkış ve varış istasyonu aynı olamaz"
      else if negb (Js.truthyStr (Form.departureDate form))
      then Some "⚠️ Lütfen bir tarih seçin"
      else if isPast (Form.departureDate form)
      then Some "⚠️ Geçmiş bir tarih seçemezsiniz"
      else if negb (Js.truthyStr (Form.timeStart form))
              || negb (Js.truthyStr (Form.timeEnd form))
      then Some "⚠️ Lütfen saat aralığını belirleyin"
      else if String.ltb (Form.timeEnd form) (Form.timeStart form)
      then Some "⚠️ Başlangıç saati, bitiş saatinden önce olmalıdır"
      else if negb (Form.cabinEconomy form || Form.cabinBusiness form
                    || Form.cabinSleeper form || Form.cabinCouchette form
                    || Form.cabinLoca form || Form.cabinDisabled form)
      then Some "⚠️ En az bir sınıf seçmelisiniz"
      else None
  | _, _ => Some "⚠️ Lütfen kalkış ve varış istasyonlarını seçin"
  end.

(** The parameters read off a form. *)
Definition paramsOf (form : Form.t) : option SearchParams.t :=
  match Form.departureStation form, Form.arrivalStation form with
  | Some departureStation, Some arrivalStation =>
      Some {| SearchParams.departureStationId := Station.id departureStation;
              SearchParams.departureStationName := Station.name departureStation;
              SearchParams.arrivalStationId := Station.id arrivalStation;
              SearchParams.arrivalStationName := Station.name arrivalStation;
              SearchParams.departureDate :=
                Utils.convertDateToAPI (Form.departureDate form);
              SearchParams.timeStart := Form.timeStart form;
              SearchParams.timeEnd := Form.timeEnd form;
              SearchParams.selectedCabinClasses := UiManager.tickedClasses form |}
  | _, _ => None
  end.

(** The sleep of a [checkAvailability] call on a page: none for the first
    request of a session, a random delay later. *)
Definition delayOf (w : World.t) : list Io :=
  if World.isFirstRequest w then []
  else [Slept (Utils.getRandomDelay
                 Config.MIN_ANTI_BOT_DELAY Config.MAX_ANTI_BOT_DELAY
                 (World.randomOutcomes w (World.randomDrawn w)))].

(** The result of the filter for a response and the parameters. *)
Definition resultOf (formatTime : Z -> string) (params : SearchParams.t)
           (data : Body) : SearchResult.t :=
  Filter.processTrainData formatTime (Controller.asAvailability data)
                          (SearchParams.timeStart params)
                          (SearchParams.timeEnd params)
                          (SearchParams.selectedCabinClasses params).

End ControllerSpec.


Module Rounds.

(** A form filled in for Konya to Ankara in the morning, economy class. *)
Definition form : Form.t :=
  {| Form.departureStation :=
       Some {| Station.id := 796; Station.name := "KONYA"; Station.code := "KNY" |};
     Form.arrivalStation :=
       Some {| Station.id := 98; Station.name := "ANKARA GAR";
               Station.code := "ANK" |};
     Form.departureDate := "2025-03-05";
     Form.timeStart := "08:00";
     Form.timeEnd := "12:00";
     Form.cabinEconomy := true;
     Form.cabinBusiness := false;
     Form.cabinSleeper := false;
     Form.cabinCouchette := false;
     Form.cabinLoca := false;
     Form.cabinDisabled := false |}.

(** The same form with no class ticked. *)
Definition noClass : Form.t :=
  {| Form.departureStation := Form.departureStation form;
     Form.arrivalStation := Form.arrivalStation form;
     Form.departureDate := "2025-03-05";
     Form.timeStart := "08:00";
     Form.timeEnd := "12:00";
     Form.cabinEconomy := false;
     Form.cabinBusiness := false;
     Form.cabinSleeper := false;
     Form.cabinCouchette := false;
     Form.cabinLoca := false;
     Form.cabinDisabled := false |}.

(** A day on which no date of the form is in the past. *)
Definition early : string -> bool := fun _ => false.

(** A service that answers the availability request with the given trains
    and otherwise behaves as [Sample.granting]. *)
Definition answering (data : Availability.t) : Server :=
  fun n req =>
    match req with
    | AvailabilityRequest _ _ _ _ _ => Sample.okResponse (BAvailability data)
    | _ => Sample.granting n req
    end.

(** A page on which a search is running and no seat is held. *)
Definition searching : World.t := World.setAllocatedSeat None Sample.searching.

End Rounds.

(* ===================================================================== *)
(** * utils.js: today's date                                              *)
(* ===================================================================== *)

Module Calendar.

(** The calendar fields of a [Date] in the time zone of the browser:
    [getFullYear()], [getMonth()] (from 0) and [getDate()]. *)
Record Date := { fullYear : Z; month : Z; date : Z }.

Fixpoint pads (n : nat) (pad : ascii) : string :=
  match n with
  | O => EmptyString
  | S n' => String pad (pads n' pad)
  end.

(** [s.padStart(targetLength, pad)] for a one-character pad. *)
Definition padStart (targetLength : nat) (pad : ascii) (s : string) : string :=
  pads (targetLength - String.length s) pad +:+ s.

(** [getTodayDate()], as a function of [new Date()]. *)
Definition getTodayDate (today : Date) : string :=
  let year := fullYear today in
  let month := padStart 2 "0" (pretty (month today + 1)) in
  let day := padStart 2 "0" (pretty (date today)) in
  pretty year +:+ "-" +:+ month +:+ "-" +:+ day.

(** The fields are those of a date with a four-digit year. *)
Definition fourDigitYear (today : Date) : bool :=
  (1000 <=? fullYear today) && (fullYear today <=? 9999)
  && (0 <=? month today) && (month today <=? 11)
  && (1 <=? date today) && (date today <=? 31).

(** A number prints as four digits. *)
Definition printsFour (n : Z) : bool :=
  match pretty n with
  | String a (String b (String c (String d EmptyString))) =>
      Js.isDigit a && Js.isDigit b && Js.isDigit c && Js.isDigit d
  | _ => false
  end.

(** A number, padded, prints as two digits. *)
Definition printsTwo (n : Z) : bool :=
  match padStart 2 "0" (pretty n) with
  | String a (String b EmptyString) => Js.isDigit a && Js.isDigit b
  | _ => false
  end.

End Calendar.

(* ===================================================================== *)
(** * The embedding on the scenarios of the specification                 *)
(* ===================================================================== *)

Module Scenarios.

(** One train at 09:15 with three economy seats, window 08:00 to 12:00,
    economy selected: found, one candidate, three seats. *)
Example one_train_found :
  let result := Filter.processTrainData Sample.clock Sample.oneTrain
                                        "08:00" "12:00" ["ECONOMY"] in
  SearchResult.found result = true
  /\ SearchResult.trains result = [Sample.trainInfo]
  /\ SearchResult.totalSeats result = 3.
Proof. repeat split; reflexivity. Qed.

(** The same train outside the window 10:00 to 12:00 is not a candidate. *)
Example one_train_outside :
  Filter.processTrainData Sample.clock Sample.oneTrain "10:00" "12:00" ["ECONOMY"]
  = {| SearchResult.found := false; SearchResult.trains := [];
       SearchResult.totalSeats := 0 |}.
Proof. reflexivity. Qed.

(** A car whose only economy seat is occupied yields no seat. *)
Example occupied_seat_not_located :
  SeatLocator.findFirstAvailableSeat [Sample.fullCar] ["ECONOMY"] = None.
Proof. reflexivity. Qed.

(** The first free economy seat is the third item of the second car. *)
Example free_seat_located :
  option_map SeatCandidate.seatNumber
             (SeatLocator.findFirstAvailableSeat [Sample.fullCar; Sample.openCar]
                                                 ["ECONOMY"])
  = Some "2B".
Proof. reflexivity. Qed.

(** The wagon number in the two descriptions the source quotes. *)
Example wagon_numbers :
  WagonText.firstMatch "YHT CAF 1. VAGON BUSINESS" = Some "1"
  /\ WagonText.firstMatch "CAF 2.VAGON ENGELLİ" = Some "2"
  /\ WagonText.firstMatch "YHT CAF" = None.
Proof. repeat split; reflexivity. Qed.

Example date_to_api : Utils.convertDateToAPI "2025-03-05" = "05-03-2025".
Proof. reflexivity. Qed.

Example date_from_api : Utils.convertDateFromAPI "05-03-2025" = "2025-03-05".
Proof. reflexivity. Qed.

(** Half way through the range of the random source. *)
Example delay_half_way : Utils.getRandomDelay 3000 8000 (1 # 2) = 5500.
Proof. reflexivity. Qed.

(** A granted allocation on an empty tracker is stored with the default
    hold of ten minutes. *)
Example allocation_stored :
  let run := exec Sample.granting
                  (SeatAllocationManager.checkAndAllocateFirstSeat
                     Sample.trainInfo Sample.params)
                  Sample.page in
  option_map Allocation.seatNumber (World.allocatedSeat (Run.final run)) = Some "2B"
  /\ option_map Allocation.allocationId (World.allocatedSeat (Run.final run)) = Some 77
  /\ option_map Allocation.lockFor (World.allocatedSeat (Run.final run)) = Some 10.
Proof. repeat split; reflexivity. Qed.

(** With the network down the seat map is unavailable and nothing is stored. *)
Example allocation_without_seat_map :
  let run := exec Sample.offline
                  (SeatAllocationManager.checkAndAllocateFirstSeat
                     Sample.trainInfo Sample.params)
                  Sample.page in
  Run.outcome run
  = Returned (SeatAllocationManager.failure "Koltuk haritası alınamadı")
  /\ World.allocatedSeat (Run.final run) = None.
Proof. split; reflexivity. Qed.

End Scenarios.

(* ===================================================================== *)
(** * Properties of the rounding of doubles                               *)
(* ===================================================================== *)

Module DoubleFacts.
Import Double.

Section Rounding.
Local Open Scope Q_scope.

Lemma two_pos e : 0 < 2 ^ e.
Proof. apply Qpower_0_lt. reflexivity. Qed.

Lemma two_ne : ~ 2 == 0.
Proof. discriminate. Qed.

Lemma two_split a b : 2 ^ (a + b) == 2 ^ a * 2 ^ b.
Proof. apply Qpower_plus, two_ne. Qed.

Lemma two_le a b : (a <= b)%Z -> 2 ^ a <= 2 ^ b.
Proof. intros H. apply Qpower_le_compat_l; [exact H | discriminate]. Qed.

Lemma two_inject n : (0 <= n)%Z -> inject_Z (2 ^ n) == 2 ^ n.
Proof. intros H. rewrite (Zpower_Qpower 2 n H). reflexivity. Qed.

Lemma two_cancel e : 2 ^ (- e) * 2 ^ e == 1.
Proof. rewrite <- two_split. replace (- e + e)%Z with 0%Z by lia. reflexivity. Qed.

(** ** The nearest integer *)

Lemma roundHalfEven_cases x :
  let k := Qfloor x in
  (roundHalfEven x = k /\ x - inject_Z k <= 1 # 2)
  \/ (roundHalfEven x = (k + 1)%Z /\ 1 # 2 <= x - inject_Z k).
Proof.
  intros k. unfold roundHalfEven. fold k.
  destruct (Qcompare_spec (x - inject_Z k) (1 # 2)) as [Heq | Hlt | Hgt].
  - destruct (Z.even k); [left | right]; split; auto; rewrite Heq; apply Qle_refl.
  - left. split; [reflexivity | apply Qlt_le_weak, Hlt].
  - right. split; [reflexivity | apply Qlt_le_weak, Hgt].
Qed.

Lemma floor_bounds x : inject_Z (Qfloor x) <= x /\ x < inject_Z (Qfloor x) + 1.
Proof.
  split; [apply Qfloor_le|].
  pose proof (Qlt_floor x) as H. rewrite inject_Z_plus in H. exact H.
Qed.

Lemma roundHalfEven_nearest x j :
  Qabs (x - inject_Z (roundHalfEven x)) <= Qabs (x - inject_Z j).
Proof.
  destruct (floor_bounds x) as [Hlow Hhigh].
  assert (Hj : (j <= Qfloor x)%Z \/ (Qfloor x + 1 <= j)%Z) by lia.
  assert (Hjq : inject_Z j <= inject_Z (Qfloor x)
                \/ inject_Z (Qfloor x) + 1 <= inject_Z j).
  { destruct Hj as [H | H]; [left | right].
    - rewrite <- Zle_Qle. exact H.
    - change 1 with (inject_Z 1).
      rewrite <- (inject_Z_plus (Qfloor x) 1), <- Zle_Qle. exact H. }
  destruct (roundHalfEven_cases x) as [[-> Hfrac] | [-> Hfrac]];
    rewrite ?inject_Z_plus; change (inject_Z 1) with 1.
  - rewrite (Qabs_pos (x - inject_Z (Qfloor x))) by lra.
    destruct Hjq as [Hbelow | Habove].
    + rewrite (Qabs_pos (x - inject_Z j)) by lra. lra.
    + rewrite (Qabs_neg (x - inject_Z j)) by lra. lra.
  - rewrite (Qabs_neg (x - (inject_Z (Qfloor x) + 1))) by lra.
    destruct Hjq as [Hbelow | Habove].
    + rewrite (Qabs_pos (x - inject_Z j)) by lra. lra.
    + rewrite (Qabs_neg (x - inject_Z j)) by lra. lra.
Qed.

Lemma roundHalfEven_between x a b :
  inject_Z a <= x -> x <= inject_Z b ->
  (a <= roundHalfEven x <= b)%Z.
Proof.
  intros Ha Hb.
  pose proof (roundHalfEven_nearest x a) as Hna.
  pose proof (roundHalfEven_nearest x b) as Hnb.
  revert Hna Hnb. set (m := roundHalfEven x).
  intros Hna Hnb. split.
  - destruct (Z_le_gt_dec a m) as [H | H]; [exact H | exfalso].
    assert (inject_Z m + 1 <= inject_Z a)
      by (change 1 with (inject_Z 1);
          rewrite <- (inject_Z_plus m 1), <- Zle_Qle; lia).
    pose proof (Qle_Qabs (x - inject_Z m)) as Hup.
    rewrite (Qabs_pos (x - inject_Z a)) in Hna by lra. lra.
  - destruct (Z_le_gt_dec m b) as [H | H]; [exact H | exfalso].
    assert (inject_Z b + 1 <= inject_Z m)
      by (change 1 with (inject_Z 1);
          rewrite <- (inject_Z_plus b 1), <- Zle_Qle; lia).
    pose proof (Qle_Qabs (- (x - inject_Z m))) as Hdown.
    rewrite Qabs_opp in Hdown.
    rewrite (Qabs_neg (x - inject_Z b)) in Hnb by lra. lra.
Qed.

(** ** The binary logarithm *)

Lemma Zlog2_two n :
  (0 < n)%Z -> 2 ^ Z.log2 n <= inject_Z n /\ inject_Z n < 2 * 2 ^ Z.log2 n.
Proof.
  intros Hn. destruct (Z.log2_spec n Hn) as [Hlow Hhigh].
  pose proof (Z.log2_nonneg n) as Hnonneg.
  rewrite <- (two_inject (Z.log2 n) Hnonneg).
  split; [rewrite <- Zle_Qle; exact Hlow|].
  change 2 with (inject_Z 2) at 1.
  rewrite <- inject_Z_mult, <- Zlt_Qlt.
  rewrite Z.pow_succ_r in Hhigh by exact Hnonneg. exact Hhigh.
Qed.

Lemma log2_spec q :
  ~ q == 0 -> 2 ^ log2 q <= Qabs q /\ Qabs q < 2 ^ (log2 q + 1).
Proof.
  intros Hq. unfold log2.
  set (n := Z.abs (Qnum q)). set (d := Z.pos (Qden q)).
  assert (Hn : (0 < n)%Z).
  { subst n. destruct q as [[|p|p] den]; [exfalso; apply Hq; reflexivity | simpl; lia..]. }
  assert (Hd : (0 < d)%Z) by (subst d; lia).
  destruct (Zlog2_two n Hn) as [Hn1 Hn2].
  destruct (Zlog2_two d Hd) as [Hd1 Hd2].
  set (a := Z.log2 n) in *. set (b := Z.log2 d) in *.
  set (k := (a - b - 1)%Z).
  assert (Habs : Qabs q * inject_Z d == inject_Z n).
  { subst n d. destruct q as [num den]. unfold Qabs, Qeq, Qmult, inject_Z. simpl.
    rewrite Pos.mul_1_r. ring. }
  assert (HD : 0 < inject_Z d) by (change 0 with (inject_Z 0); rewrite <- Zlt_Qlt; lia).
  assert (Hk1 : 2 ^ k * (2 * 2 ^ b) == 2 ^ a).
  { transitivity (2 ^ k * 2 ^ (b + 1)).
    - rewrite (two_split b 1). change (2 ^ 1) with 2. ring.
    - rewrite <- two_split. subst k. replace (a - b - 1 + (b + 1))%Z with a by lia.
      reflexivity. }
  assert (Hk2 : 2 ^ (k + 1) == 2 * 2 ^ k).
  { rewrite (two_split k 1). change (2 ^ 1) with 2. ring. }
  assert (Hk3 : 2 ^ (k + 1 + 1) == 4 * 2 ^ k).
  { rewrite (two_split (k + 1) 1), Hk2. change (2 ^ 1) with 2. ring. }
  pose proof (two_pos k) as HK. pose proof (two_pos b) as HB.
  assert (Hlow : 2 ^ k <= Qabs q).
  { apply Qnot_lt_le. intros Hlt.
    assert (Qabs q * inject_Z d < 2 ^ k * inject_Z d)
      by (apply Qmult_lt_compat_r; assumption).
    assert (2 ^ k * inject_Z d <= 2 ^ k * (2 * 2 ^ b))
      by (apply Qmult_le_l; [exact HK | lra]).
    lra. }
  assert (Hhigh : Qabs q < 4 * 2 ^ k).
  { apply Qnot_le_lt. intros Hle.
    assert (4 * 2 ^ k * inject_Z d <= Qabs q * inject_Z d)
      by (apply Qmult_le_compat_r; [exact Hle | lra]).
    assert (2 ^ k * 2 ^ b <= 2 ^ k * inject_Z d)
      by (apply Qmult_le_l; [exact HK | lra]).
    lra. }
  destruct (Qle_bool (2 ^ (k + 1)) (Qabs q)) eqn:Htest.
  - apply Qle_bool_iff in Htest. split; [exact Htest|]. rewrite Hk3. exact Hhigh.
  - split; [exact Hlow|]. apply Qnot_le_lt. intros Hle.
    apply Qle_bool_iff in Hle. congruence.
Qed.

(** ** The nearest double *)

Lemma exponent_low q : (-1074 <= exponent q)%Z.
Proof. unfold exponent. lia. Qed.

Lemma exponent_high q : Qabs q < 2 ^ (exponent q + 53).
Proof.
  destruct (Qeq_dec q 0) as [Hzero | Hq].
  - rewrite (Qabs_wd q 0 Hzero). apply two_pos.
  - destruct (log2_spec q Hq) as [_ Hhigh].
    eapply Qlt_le_trans; [exact Hhigh|]. apply two_le. unfold exponent. lia.
Qed.

Lemma exponent_normal q :
  ~ q == 0 -> (-1074 < exponent q)%Z -> 2 ^ (exponent q + 52) <= Qabs q.
Proof.
  intros Hq Hnormal. destruct (log2_spec q Hq) as [Hlow _].
  replace (exponent q + 52)%Z with (log2 q); [exact Hlow|].
  unfold exponent in *. lia.
Qed.

Lemma scaled_back q e : q * 2 ^ (- e) * 2 ^ e == q.
Proof. rewrite <- Qmult_assoc, two_cancel. ring. Qed.

Lemma scaled_abs q e : Qabs (q * 2 ^ (- e)) == Qabs q * 2 ^ (- e).
Proof. rewrite Qabs_Qmult, (Qabs_pos (2 ^ (- e))); [reflexivity|].
       apply Qlt_le_weak, two_pos. Qed.

Lemma round_unfold q :
  round q
  = inject_Z (roundHalfEven (Qred q * 2 ^ (- exponent (Qred q))))
    * 2 ^ exponent (Qred q).
Proof. reflexivity. Qed.

Lemma round_comp x y : x == y -> round x = round y.
Proof. intros H. unfold round. rewrite (Qred_complete x y H). reflexivity. Qed.

Lemma round_representable q : representable (round q).
Proof.
  rewrite round_unfold. set (q' := Qred q). set (e := exponent q').
  exists (roundHalfEven (q' * 2 ^ (- e))), e.
  split; [|split; [apply exponent_low | reflexivity]].
  assert (Hbound : Qabs (q' * 2 ^ (- e)) <= 2 ^ 53).
  { rewrite scaled_abs. apply Qlt_le_weak.
    apply Qlt_le_trans with (2 ^ (e + 53) * 2 ^ (- e)).
    - apply Qmult_lt_compat_r; [apply two_pos | apply exponent_high].
    - rewrite <- two_split. replace (e + 53 + - e)%Z with 53%Z by lia.
      apply Qle_refl. }
  apply Qabs_Qle_condition in Hbound as [Hlow Hhigh].
  assert (Hz : inject_Z (2 ^ 53) == 2 ^ 53) by (apply two_inject; lia).
  destruct (roundHalfEven_between (q' * 2 ^ (- e)) (- 2 ^ 53) (2 ^ 53)) as [H1 H2].
  - rewrite inject_Z_opp, Hz. exact Hlow.
  - rewrite Hz. exact Hhigh.
  - lia.
Qed.

(** No double is nearer to [q] than [round q]. *)
Lemma round_nearest q f :
  representable f -> Qabs (q - round q) <= Qabs (q - f).
Proof.
  intros (m' & e' & Hm' & He' & Hf).
  rewrite round_unfold. set (q' := Qred q). set (e := exponent q').
  set (x := q' * 2 ^ (- e)). set (m := roundHalfEven x).
  assert (Hq' : q' == q) by apply Qred_correct.
  assert (Hx : x * 2 ^ e == q) by (subst x; rewrite scaled_back; exact Hq').
  pose proof (two_pos e) as HP.
  assert (Hscale : forall j : Z,
             Qabs (q - inject_Z j * 2 ^ e) == Qabs (x - inject_Z j) * 2 ^ e).
  { intros j. rewrite <- (Qabs_pos (2 ^ e)) at 2 by (apply Qlt_le_weak, HP).
    rewrite <- Qabs_Qmult. apply Qabs_wd. rewrite <- Hx. ring. }
  assert (Hgrid : forall j : Z,
             Qabs (q - inject_Z m * 2 ^ e) <= Qabs (q - inject_Z j * 2 ^ e)).
  { intros j. rewrite !Hscale. apply Qmult_le_compat_r;
      [apply roundHalfEven_nearest | apply Qlt_le_weak, HP]. }
  destruct (Z_le_gt_dec e e') as [Hee | Hee].
  - (* [f] is on the grid of [q] *)
    assert (Hfj : f == inject_Z (m' * 2 ^ (e' - e)) * 2 ^ e).
    { rewrite Hf, inject_Z_mult, two_inject by lia.
      rewrite <- Qmult_assoc, <- two_split.
      replace (e' - e + e)%Z with e' by lia. reflexivity. }
    rewrite Hfj. apply Hgrid.
  - (* [f] is below the binade of [q] *)
    destruct (Qeq_dec q' 0) as [Hzero | Hq].
    { (* zero is a double *)
      assert (Hm : m = 0%Z).
      { destruct (roundHalfEven_between x 0 0) as [H1 H2]; [| |subst m; lia];
          subst x; rewrite Hzero; change (inject_Z 0) with 0; lra. }
      rewrite Hm. rewrite Hq' in Hzero.
      assert (Hnone : q - inject_Z 0 * 2 ^ e == 0)
        by (rewrite Hzero; change (inject_Z 0) with 0; ring).
      rewrite (Qabs_wd _ _ Hnone). apply Qabs_nonneg. }
    assert (Hnormal : (-1074 < e)%Z) by lia.
    pose proof (exponent_normal q' Hq Hnormal) as Hbig. fold e in Hbig.
    rewrite Hq' in Hbig.
    assert (Hsmall : Qabs f <= 2 ^ (e + 52)).
    { rewrite Hf, Qabs_Qmult, (Qabs_pos (2 ^ e')) by (apply Qlt_le_weak, two_pos).
      apply Qle_trans with (2 ^ 53 * 2 ^ e').
      - apply Qmult_le_compat_r; [|apply Qlt_le_weak, two_pos].
        change (Qabs (inject_Z m')) with (inject_Z (Z.abs m')).
        rewrite <- (two_inject 53) by lia. rewrite <- Zle_Qle. exact Hm'.
      - rewrite <- two_split. apply two_le. lia. }
    assert (Hedge : 2 ^ (e + 52) == inject_Z (2 ^ 52) * 2 ^ e).
    { rewrite two_inject by lia. rewrite (Z.add_comm e 52). apply two_split. }
    destruct (Qlt_le_dec q 0) as [Hneg | Hpos].
    + (* below zero: the edge of the binade is [- 2 ^ (e + 52)] *)
      eapply Qle_trans; [apply (Hgrid (- 2 ^ 52)%Z)|].
      rewrite inject_Z_opp.
      rewrite (Qabs_neg q) in Hbig by lra.
      rewrite (Qabs_neg (q - - inject_Z (2 ^ 52) * 2 ^ e)) by lra.
      pose proof (Qle_Qabs (- (q - f))) as H1. rewrite Qabs_opp in H1.
      pose proof (Qle_Qabs (- f)) as H2. rewrite Qabs_opp in H2.
      lra.
    + eapply Qle_trans; [apply (Hgrid (2 ^ 52)%Z)|].
      rewrite (Qabs_pos q) in Hbig by lra.
      rewrite (Qabs_pos (q - inject_Z (2 ^ 52) * 2 ^ e)) by lra.
      pose proof (Qle_Qabs (q - f)) as H1.
      pose proof (Qle_Qabs f) as H2.
      lra.
Qed.

(** A double rounds to itself. *)
Lemma round_fix f : representable f -> round f == f.
Proof.
  intros Hf. pose proof (round_nearest f f Hf) as Hnear.
  assert (Hzero : f - f == 0) by ring.
  rewrite (Qabs_wd _ _ Hzero) in Hnear. change (Qabs 0) with 0 in Hnear.
  pose proof (Qle_Qabs (f - round f)) as H1.
  pose proof (Qle_Qabs (- (f - round f))) as H2. rewrite Qabs_opp in H2.
  lra.
Qed.

(** Rounding keeps the order. *)
Lemma round_monotone x y : x <= y -> round x <= round y.
Proof.
  intros Hxy. apply Qnot_lt_le. intros Hlt.
  pose proof (round_nearest x (round y) (round_representable y)) as Hx.
  pose proof (round_nearest y (round x) (round_representable x)) as Hy.
  pose proof (Qle_Qabs (- (x - round x))) as Hx1. rewrite Qabs_opp in Hx1.
  pose proof (Qle_Qabs (y - round y)) as Hy1.
  assert (Hmid1 : round x + round y <= 2 * x).
  { destruct (Qlt_le_dec x (round y)) as [H | H].
    - rewrite (Qabs_neg (x - round y)) in Hx by lra. lra.
    - rewrite (Qabs_pos (x - round y)) in Hx by lra. lra. }
  assert (Hmid2 : 2 * y <= round x + round y).
  { destruct (Qlt_le_dec (round x) y) as [H | H].
    - rewrite (Qabs_pos (y - round x)) in Hy by lra. lra.
    - rewrite (Qabs_neg (y - round x)) in Hy by lra. lra. }
  assert (Heq : x == y) by lra.
  rewrite (round_comp x y Heq) in Hlt. exact (Qlt_irrefl _ Hlt).
Qed.

(** The integers up to [2 ^ 53] in magnitude are doubles. *)
Lemma integer_representable z :
  (Z.abs z <= 2 ^ 53)%Z -> representable (inject_Z z).
Proof.
  intros Hz. exists z, 0%Z. split; [exact Hz|]. split; [lia|].
  change (2 ^ 0) with 1. ring.
Qed.

Lemma round_integer z : (Z.abs z <= 2 ^ 53)%Z -> round (inject_Z z) == inject_Z z.
Proof. intros Hz. apply round_fix, integer_representable, Hz. Qed.

End Rounding.

End DoubleFacts.

(* ===================================================================== *)
(** * Properties of utils.js                                              *)
(* ===================================================================== *)

Module UtilsFacts.

Lemma digit_not_dash c : Js.isDigit c = true -> Ascii.eqb c "-" = false.
Proof.
  intros Hd. destruct (Ascii.eqb_spec c "-") as [->|]; [|reflexivity].
  discriminate Hd.
Qed.

Lemma split_single sep s : Js.lacks sep s = true -> Js.split sep s = [s].
Proof.
  induction s as [|c s IH]; simpl; [reflexivity|].
  intros H. apply andb_prop in H as [Hc Hs].
  apply negb_true_iff in Hc. rewrite Hc, (IH Hs). reflexivity.
Qed.

Lemma split_field sep a b :
  Js.lacks sep a = true ->
  Js.split sep (a +:+ String sep b) = a :: Js.split sep b.
Proof.
  induction a as [|c a IH]; simpl.
  - intros _. rewrite Ascii.eqb_refl. reflexivity.
  - intros H. apply andb_prop in H as [Hc Hs].
    apply negb_true_iff in Hc. rewrite Hc, (IH Hs). reflexivity.
Qed.

(** Three dash-free fields are swapped end for end, whatever they hold. *)
Lemma convertDateToAPI_fields y m d :
  Js.lacks "-" y = true -> Js.lacks "-" m = true -> Js.lacks "-" d = true ->
  Utils.convertDateToAPI (y +:+ "-" +:+ m +:+ "-" +:+ d)
  = d +:+ "-" +:+ m +:+ "-" +:+ y.
Proof.
  intros Hy Hm Hd. unfold Utils.convertDateToAPI.
  replace (Js.truthyStr (y +:+ "-" +:+ m +:+ "-" +:+ d)) with true
    by (destruct y; reflexivity).
  cbn [negb]. cbv zeta.
  change ("-" +:+ m +:+ "-" +:+ d) with (String "-" (m +:+ String "-" d)).
  rewrite (split_field _ _ _ Hy), (split_field _ _ _ Hm), (split_single _ _ Hd).
  reflexivity.
Qed.

Lemma convertDateFromAPI_fields d m y :
  Js.lacks "-" y = true -> Js.lacks "-" m = true -> Js.lacks "-" d = true ->
  Utils.convertDateFromAPI (d +:+ "-" +:+ m +:+ "-" +:+ y)
  = y +:+ "-" +:+ m +:+ "-" +:+ d.
Proof.
  intros Hy Hm Hd. unfold Utils.convertDateFromAPI.
  replace (Js.truthyStr (d +:+ "-" +:+ m +:+ "-" +:+ y)) with true
    by (destruct d; reflexivity).
  cbn [negb]. cbv zeta.
  change ("-" +:+ m +:+ "-" +:+ y) with (String "-" (m +:+ String "-" y)).
  rewrite (split_field _ _ _ Hd), (split_field _ _ _ Hm), (split_single _ _ Hy).
  reflexivity.
Qed.

(** An ISO date is made of three dash-free fields of 4, 2 and 2 digits. *)
Lemma isoDate_fields s :
  Utils.isoDate s = true ->
  exists y m d,
    s = y +:+ "-" +:+ m +:+ "-" +:+ d
    /\ y = substring 0 4 s /\ m = substring 5 2 s /\ d = substring 8 2 s
    /\ Js.lacks "-" y = true /\ Js.lacks "-" m = true /\ Js.lacks "-" d = true.
Proof.
  destruct s as [|y1 [|y2 [|y3 [|y4 [|d1 [|m1 [|m2 [|d2 [|a1 [|a2 [|? ?]]]]]]]]]]];
    try discriminate.
  unfold Utils.isoDate. intros H.
  rewrite !andb_true_iff in H.
  repeat match goal with E : _ /\ _ |- _ => destruct E end.
  repeat match goal with
         | E : Ascii.eqb _ "-" = true |- _ => apply Ascii.eqb_eq in E; subst
         | E : Js.isDigit _ = true |- _ => apply digit_not_dash in E
         end.
  exists (String y1 (String y2 (String y3 (String y4 "")))),
         (String m1 (String m2 "")), (String a1 (String a2 "")).
  cbn [Js.lacks].
  repeat match goal with E : Ascii.eqb _ "-" = false |- _ => rewrite E; clear E end.
  repeat split; reflexivity.
Qed.

(** C9. For every date string of the form YYYY-MM-DD, [convertDateToAPI]
    yields DD-MM-YYYY (the day, the month and the year of the input, in
    that order, joined by dashes), [convertDateFromAPI] applied to the
    result gives the input back, "2025-03-05" becomes "05-03-2025", and
    both functions map the empty string to the empty string. *)
Theorem convertDate_roundtrip (s : string) (Hiso : Utils.isoDate s = true) :
  Utils.convertDateToAPI s
  = substring 8 2 s +:+ "-" +:+ substring 5 2 s +:+ "-" +:+ substring 0 4 s
  /\ Utils.convertDateFromAPI (Utils.convertDateToAPI s) = s
  /\ Utils.convertDateToAPI "2025-03-05" = "05-03-2025"
  /\ Utils.convertDateFromAPI "05-03-2025" = "2025-03-05"
  /\ Utils.convertDateToAPI "" = ""
  /\ Utils.convertDateFromAPI "" = "".
Proof.
  destruct (isoDate_fields s Hiso) as (y & m & d & Hs & Ey & Em & Ed & Hy & Hm & Hd).
  rewrite <- Ey, <- Em, <- Ed.
  assert (Hto : Utils.convertDateToAPI s = d +:+ "-" +:+ m +:+ "-" +:+ y).
  { rewrite Hs at 1. apply convertDateToAPI_fields; assumption. }
  split; [exact Hto|].
  split.
  { rewrite Hto, convertDateFromAPI_fields by assumption. symmetry. exact Hs. }
  repeat split; reflexivity.
Qed.

Lemma convertDate_roundtrip_witness :
  Utils.isoDate "2025-03-05" = true
  /\ Utils.convertDateToAPI "2025-03-05" = "05-03-2025"
  /\ Utils.convertDateFromAPI (Utils.convertDateToAPI "2025-03-05") = "2025-03-05".
Proof.
  split; [reflexivity|].
  pose proof (convertDate_roundtrip "2025-03-05" eq_refl) as (H1 & H2 & _).
  split; [exact H1 | exact H2].
Defined.

(** The delay lies between the bounds, whatever the random source draws,
    for bounds that doubles hold exactly. *)
Lemma getRandomDelay_range (min max : Z) (r : Q) :
  Double.exact min -> Double.exact max -> Double.exact (max - min) ->
  min <= max -> (0 <= r)%Q -> (r < 1)%Q ->
  min <= Utils.getRandomDelay min max r <= max.
Proof.
  unfold Double.exact. intros Hmin Hmax Hexact Hmm Hr0 Hr1.
  unfold Utils.getRandomDelay, Double.add, Double.mul, Double.sub.
  set (span := Double.round (inject_Z max - inject_Z min)).
  assert (Hspan' : (span == inject_Z (max - min))%Q).
  { subst span.
    rewrite (DoubleFacts.round_comp (inject_Z max - inject_Z min)
                                    (inject_Z (max - min)))
      by (unfold Z.sub; rewrite inject_Z_plus, inject_Z_opp; ring).
    apply DoubleFacts.round_integer. exact Hexact. }
  assert (Hspan0 : (0 <= inject_Z (max - min))%Q)
    by (change 0%Q with (inject_Z 0); rewrite <- Zle_Qle; lia).
  assert (Hsum : (inject_Z min + inject_Z (max - min) == inject_Z max)%Q)
    by (rewrite <- inject_Z_plus; apply inject_Z_injective; lia).
  set (part := Double.round (r * span)).
  assert (Hpart : (0 <= part)%Q /\ (part <= inject_Z (max - min))%Q).
  { subst part. split.
    - apply Qle_trans with (Double.round (inject_Z 0)).
      + rewrite (DoubleFacts.round_integer 0) by (vm_compute; discriminate).
        apply Qle_refl.
      + apply DoubleFacts.round_monotone. change (inject_Z 0) with 0%Q.
        apply Qmult_le_0_compat; [exact Hr0 | rewrite Hspan'; exact Hspan0].
    - apply Qle_trans with (Double.round span).
      + apply DoubleFacts.round_monotone. apply Qle_trans with (1 * span)%Q.
        * apply Qmult_le_compat_r; [apply Qlt_le_weak, Hr1|].
          rewrite Hspan'. exact Hspan0.
        * rewrite Qmult_1_l. apply Qle_refl.
      + rewrite (DoubleFacts.round_fix span)
          by (subst span; apply DoubleFacts.round_representable).
        rewrite Hspan'. apply Qle_refl. }
  destruct Hpart as [Hpart0 Hpart1].
  split.
  - apply Z.le_trans with (Qfloor (inject_Z min)); [rewrite Qfloor_Z; lia|].
    apply Qfloor_resp_le.
    apply Qle_trans with (Double.round (inject_Z min)).
    + rewrite (DoubleFacts.round_integer min) by exact Hmin. apply Qle_refl.
    + apply DoubleFacts.round_monotone. lra.
  - apply Z.le_trans with (Qfloor (inject_Z max)); [|rewrite Qfloor_Z; lia].
    apply Qfloor_resp_le.
    apply Qle_trans with (Double.round (inject_Z max)).
    + apply DoubleFacts.round_monotone. lra.
    + rewrite (DoubleFacts.round_integer max) by exact Hmax. apply Qle_refl.
Qed.

(** The configured bounds of the delay are integers that doubles hold. *)
Lemma delay_bounds_exact :
  Double.exact Config.MIN_ANTI_BOT_DELAY
  /\ Double.exact Config.MAX_ANTI_BOT_DELAY
  /\ Double.exact (Config.MAX_ANTI_BOT_DELAY - Config.MIN_ANTI_BOT_DELAY)
  /\ Config.MIN_ANTI_BOT_DELAY <= Config.MAX_ANTI_BOT_DELAY.
Proof. repeat split; vm_compute; discriminate. Qed.

End UtilsFacts.

(* ===================================================================== *)
(** * Properties of the result filter                                     *)
(* ===================================================================== *)

Module FilterFacts.
Import Filter.

Lemma hasAvailable_iff info :
  hasAvailableSeatsInSelectedClasses info = true
  <-> exists cabin, In cabin (TrainInfo.cabinClasses info) /\ counts cabin.
Proof.
  unfold hasAvailableSeatsInSelectedClasses, counts.
  rewrite existsb_exists. split.
  - intros (c & Hin & Hc). apply andb_prop in Hc as [Hp Hs].
    exists c. repeat split; [assumption..|]. apply Z.ltb_lt, Hp.
  - intros (c & Hin & Hs & Hp). exists c. split; [assumption|].
    rewrite Hs, andb_true_r. apply Z.ltb_lt, Hp.
Qed.

Section WithClock.
Variable formatTime : Z -> string.
Variables timeStart timeEnd : string.
Variable selected : list string.

Let visit := visitTrain formatTime timeStart timeEnd selected.
Let keep := kept formatTime timeStart timeEnd selected.
Let process := fun train =>
  processTrainAvailability formatTime train timeStart timeEnd selected.

Lemma kept_Some train info :
  keep train = Some info
  <-> process train = Some info
      /\ hasAvailableSeatsInSelectedClasses info = true.
Proof.
  subst keep process. unfold kept. cbv beta.
  destruct (processTrainAvailability _ _ _ _ _) as [i|]; [|split; [discriminate|intros [? _]; discriminate]].
  destruct (hasAvailableSeatsInSelectedClasses i) eqn:E.
  - split; [intros [= <-]; auto | intros [[= <-] _]; reflexivity].
  - split; [discriminate | intros [[= <-] H]; congruence].
Qed.

Lemma visit_trains acc train :
  SearchResult.trains (visit acc train)
  = SearchResult.trains acc ++ option_list (keep train).
Proof.
  subst visit keep. unfold visitTrain, kept.
  destruct (processTrainAvailability _ _ _ _ _) as [i|]; simpl;
    [|symmetry; apply app_nil_r].
  destruct (hasAvailableSeatsInSelectedClasses i); simpl;
    [reflexivity | symmetry; apply app_nil_r].
Qed.

Lemma visit_found acc train :
  SearchResult.found (visit acc train)
  = SearchResult.found acc || nonEmpty (option_list (keep train)).
Proof.
  subst visit keep. unfold visitTrain, kept.
  destruct (processTrainAvailability _ _ _ _ _) as [i|]; simpl;
    [|symmetry; apply orb_false_r].
  destruct (hasAvailableSeatsInSelectedClasses i); simpl;
    [symmetry; apply orb_true_r | symmetry; apply orb_false_r].
Qed.

(** The accumulator after a run of trains: the list grows by the kept
    trains, and the flag is set as soon as one is kept. *)
Lemma fold_visit trains acc :
  let r := fold_left visit trains acc in
  SearchResult.trains r = SearchResult.trains acc ++ omap keep trains
  /\ SearchResult.found r
     = SearchResult.found acc || nonEmpty (omap keep trains).
Proof.
  revert acc. induction trains as [|t ts IH]; intros acc; simpl.
  - rewrite app_nil_r, orb_false_r. split; reflexivity.
  - destruct (IH (visit acc t)) as [Ht Hf]. rewrite Ht, Hf.
    rewrite visit_trains, visit_found.
    destruct (keep t) as [i|]; simpl.
    + rewrite <- app_assoc. split; [reflexivity|].
      rewrite orb_true_r. reflexivity.
    + rewrite app_nil_r, orb_false_r. split; reflexivity.
Qed.

Lemma fold_groups groups acc :
  let r := fold_left (visitGroup formatTime timeStart timeEnd selected) groups acc in
  SearchResult.trains r
  = SearchResult.trains acc ++ omap keep (flat_map trainsOfGroup groups)
  /\ SearchResult.found r
     = SearchResult.found acc
       || nonEmpty (omap keep (flat_map trainsOfGroup groups)).
Proof.
  revert acc. induction groups as [|g gs IH]; intros acc; simpl.
  - rewrite app_nil_r, orb_false_r. split; reflexivity.
  - destruct (IH (visitGroup formatTime timeStart timeEnd selected acc g))
      as [Ht Hf].
    rewrite Ht, Hf. clear Ht Hf IH.
    assert (Hg : SearchResult.trains
                   (visitGroup formatTime timeStart timeEnd selected acc g)
                 = SearchResult.trains acc ++ omap keep (trainsOfGroup g)
                 /\ SearchResult.found
                      (visitGroup formatTime timeStart timeEnd selected acc g)
                    = SearchResult.found acc
                      || nonEmpty (omap keep (trainsOfGroup g))).
    { destruct g as [[[ts|]]|]; simpl;
        try (rewrite app_nil_r, orb_false_r; split; reflexivity).
      apply fold_visit. }
    destruct Hg as [-> ->].
    rewrite omap_app, <- app_assoc. split; [reflexivity|].
    rewrite <- orb_assoc. f_equal.
    destruct (omap keep (trainsOfGroup g)); reflexivity.
Qed.

Variable data : Availability.t.

Let result := processTrainData formatTime data timeStart timeEnd selected.

(** The returned list is the raw trains of the response, in order, each
    passed through [kept]. *)
Lemma processTrainData_trains :
  SearchResult.trains result = omap keep (rawTrains data).
Proof.
  subst result. unfold processTrainData, rawTrains.
  destruct (allTrainAvailabilities data) as [groups|]; [|reflexivity].
  apply (fold_groups groups).
Qed.

Lemma processTrainData_found :
  SearchResult.found result = nonEmpty (SearchResult.trains result).
Proof.
  rewrite processTrainData_trains.
  subst result. unfold processTrainData, rawTrains.
  destruct (allTrainAvailabilities data) as [groups|]; [|reflexivity].
  apply (fold_groups groups).
Qed.

Lemma in_trains info :
  In info (SearchResult.trains result)
  <-> exists train, In train (rawTrains data)
                    /\ process train = Some info
                    /\ hasAvailableSeatsInSelectedClasses info = true.
Proof.
  rewrite processTrainData_trains, <- list_elem_of_In, list_elem_of_omap.
  split; intros (t & Hin & Hk); exists t.
  - apply list_elem_of_In in Hin. apply kept_Some in Hk. tauto.
  - split; [apply list_elem_of_In; assumption | apply kept_Some; assumption].
Qed.

(** A train info comes out with the formatted departure of the first
    segment, and only when that time is in the window. *)
Lemma process_Some train info :
  process train = Some info ->
  exists first rest,
    Train.segments train = Some (first :: rest)
    /\ TrainInfo.departureTime info = formatTime (Segment.departureTime first)
    /\ String.leb timeStart (TrainInfo.departureTime info) = true
    /\ String.leb (TrainInfo.departureTime info) timeEnd = true.
Proof.
  subst process. unfold processTrainAvailability. cbv beta.
  destruct (Train.segments train) as [[|first rest]|]; try discriminate.
  cbv zeta.
  destruct (Utils.isInTimeRange formatTime (Segment.departureTime first)
                                timeStart timeEnd) eqn:Hrange;
    simpl; [|discriminate].
  destruct (Train.cabinClassAvailabilities train) as [avails|]; [|discriminate].
  destruct (omap (cabinEntry selected) avails); [discriminate|].
  intros [= <-]. simpl.
  unfold Utils.isInTimeRange in Hrange. apply andb_prop in Hrange as [H1 H2].
  exists first, rest. repeat split; assumption.
Qed.

(** A train whose formatted departure is outside the window is rejected. *)
Lemma process_outside train first rest :
  Train.segments train = Some (first :: rest) ->
  String.leb timeStart (formatTime (Segment.departureTime first)) = false
  \/ String.leb (formatTime (Segment.departureTime first)) timeEnd = false ->
  process train = None.
Proof.
  intros Hseg Hout. subst process. unfold processTrainAvailability. cbv beta.
  rewrite Hseg. cbv zeta. unfold Utils.isInTimeRange.
  destruct Hout as [-> | ->]; [reflexivity|].
  rewrite andb_false_r. reflexivity.
Qed.

End WithClock.

End FilterFacts.

Module SumFacts.
Import Filter.

(** The inner loop of the recount in [handleTicketsFound]. *)
Lemma recount_cabins_ge cabins total :
  total <= fold_left
             (fun total cabin =>
                if Cabin.isSelected cabin && (0 <? Cabin.availability cabin)
                then total + Cabin.availability cabin else total)
             cabins total.
Proof.
  revert total. induction cabins as [|c cs IH]; intros total; simpl; [lia|].
  destruct (Cabin.isSelected c && (0 <? Cabin.availability c)) eqn:E.
  - apply andb_prop in E as [_ Hp]. apply Z.ltb_lt in Hp.
    specialize (IH (total + Cabin.availability c)). lia.
  - apply IH.
Qed.

Lemma recount_cabins_gt cabins total :
  (exists cabin, In cabin cabins /\ counts cabin) ->
  total < fold_left
            (fun total cabin =>
               if Cabin.isSelected cabin && (0 <? Cabin.availability cabin)
               then total + Cabin.availability cabin else total)
            cabins total.
Proof.
  revert total. induction cabins as [|c cs IH]; intros total (x & Hin & Hs & Hp).
  - destruct Hin.
  - simpl. destruct Hin as [<- | Hin].
    + rewrite Hs. apply Z.ltb_lt in Hp as Hb. rewrite Hb. simpl.
      pose proof (recount_cabins_ge cs (total + Cabin.availability c)). lia.
    + assert (Hrest : exists cabin, In cabin cs /\ counts cabin)
        by (exists x; split; [assumption | split; assumption]).
      destruct (Cabin.isSelected c && (0 <? Cabin.availability c)) eqn:E.
      * apply andb_prop in E as [_ Hc]. apply Z.ltb_lt in Hc.
        specialize (IH (total + Cabin.availability c) Hrest). lia.
      * apply IH, Hrest.
Qed.

Lemma recount_trains_ge trains total :
  total <= fold_left
             (fun total train =>
                fold_left
                  (fun total cabin =>
                     if Cabin.isSelected cabin && (0 <? Cabin.availability cabin)
                     then total + Cabin.availability cabin else total)
                  (TrainInfo.cabinClasses train) total)
             trains total.
Proof.
  revert total. induction trains as [|t ts IH]; intros total; simpl; [lia|].
  etransitivity; [apply (recount_cabins_ge (TrainInfo.cabinClasses t))|apply IH].
Qed.

(** One train with a cabin that counts makes the recount positive. *)
Lemma actualAvailableSeats_pos result :
  (exists info cabin, In info (SearchResult.trains result)
                      /\ In cabin (TrainInfo.cabinClasses info) /\ counts cabin) ->
  0 < actualAvailableSeats result.
Proof.
  unfold actualAvailableSeats. generalize 0 at 1 3 as total.
  induction (SearchResult.trains result) as [|t ts IH];
    intros total (info & cabin & Hin & Hc & Hcounts).
  - destruct Hin.
  - simpl. destruct Hin as [<- | Hin].
    + eapply Z.lt_le_trans; [|apply recount_trains_ge].
      apply recount_cabins_gt. exists cabin. split; assumption.
    + eapply Z.le_lt_trans; [apply (recount_cabins_ge (TrainInfo.cabinClasses t))|].
      apply IH. exists info, cabin. repeat split; first [assumption | apply Hcounts].
Qed.

End SumFacts.

Module FilterClaims.
Import Filter FilterFacts.

(** C6. Every train info that [processTrainData] returns carries the
    formatted departure time of the first segment of a train of the
    response, and that time [t] satisfies [timeStart <= t <= timeEnd] in the
    lexicographic order on strings, both bounds included; a train whose
    formatted departure time is outside the window is rejected by
    [processTrainAvailability].  The bound [timeStart <= timeEnd] on the
    criteria plays no part. *)
Theorem departure_in_window
        (formatTime : Z -> string) (data : Availability.t)
        (timeStart timeEnd : string) (selected : list string) :
  (forall info,
      In info (SearchResult.trains
                 (processTrainData formatTime data timeStart timeEnd selected)) ->
      String.leb timeStart (TrainInfo.departureTime info) = true
      /\ String.leb (TrainInfo.departureTime info) timeEnd = true
      /\ exists train first rest,
          In train (rawTrains data)
          /\ Train.segments train = Some (first :: rest)
          /\ TrainInfo.departureTime info
             = formatTime (Segment.departureTime first))
  /\ (forall train first rest,
         Train.segments train = Some (first :: rest) ->
         String.leb timeStart (formatTime (Segment.departureTime first)) = false
         \/ String.leb (formatTime (Segment.departureTime first)) timeEnd = false ->
         processTrainAvailability formatTime train timeStart timeEnd selected = None
         /\ kept formatTime timeStart timeEnd selected train = None).
Proof.
  split.
  - intros info Hin. apply in_trains in Hin as (train & Hraw & Hproc & _).
    apply process_Some in Hproc as (first & rest & Hseg & Hdep & Hlo & Hhi).
    repeat split; [assumption..|]. exists train, first, rest. auto.
  - intros train first rest Hseg Hout.
    pose proof (process_outside formatTime timeStart timeEnd selected
                                train first rest Hseg Hout) as Hnone.
    split; [exact Hnone|]. unfold kept. rewrite Hnone. reflexivity.
Qed.

Lemma departure_in_window_witness :
  let result := processTrainData Sample.clock Sample.oneTrain "08:00" "12:00" ["ECONOMY"] in
  exists info,
    SearchResult.trains result = [info]
    /\ TrainInfo.departureTime info = "09:15"
    /\ String.leb "08:00" (TrainInfo.departureTime info) = true
    /\ String.leb (TrainInfo.departureTime info) "12:00" = true
    /\ processTrainAvailability Sample.clock
         (Sample.train Sample.at1340 [Sample.classAvail 2 3])
         "08:00" "12:00" ["ECONOMY"] = None.
Proof.
  intros result.
  destruct (departure_in_window Sample.clock Sample.oneTrain
                                "08:00" "12:00" ["ECONOMY"]) as [Hin Hout].
  eexists. split; [reflexivity|]. split; [reflexivity|].
  destruct (Hin _ (or_introl eq_refl)) as (Hlo & Hhi & _).
  split; [exact Hlo|]. split; [exact Hhi|].
  refine (proj1 (Hout (Sample.train Sample.at1340 [Sample.classAvail 2 3])
                      _ [] eq_refl (or_intror _))).
  reflexivity.
Defined.

(** C1, as the specification states it, fails: the response [Sample.soldOut]
    has one train inside the window whose only selected-class entry is sold
    out; the filter answers [found = false], but with an empty list. *)
Lemma soldOut_list_is_empty :
  let result := processTrainData Sample.clock Sample.soldOut "08:00" "12:00" ["ECONOMY"] in
  (exists info cabin,
      processTrainAvailability Sample.clock
        (Sample.train Sample.at0915 [Sample.classAvail 2 0; Sample.classAvail 1 5])
        "08:00" "12:00" ["ECONOMY"] = Some info
      /\ List.filter Cabin.isSelected (TrainInfo.cabinClasses info) = [cabin]
      /\ Cabin.availability cabin = 0)
  /\ ~ (SearchResult.found result = false /\ SearchResult.trains result <> []).
Proof.
  split.
  - eexists. eexists. split; [reflexivity|]. split; reflexivity.
  - intros [_ Hne]. apply Hne. reflexivity.
Qed.

(** C1, amended. [found] is true exactly when some returned train has a
    selected-class entry with availability > 0; the returned list holds
    exactly the in-window trains that have such an entry; and a response
    whose in-window trains have only sold-out selected-class entries yields
    [found = false] together with an empty list. *)
Theorem found_iff_available
        (formatTime : Z -> string) (data : Availability.t)
        (timeStart timeEnd : string) (selected : list string) :
  let result := processTrainData formatTime data timeStart timeEnd selected in
  (SearchResult.found result = true
   <-> exists info cabin,
        In info (SearchResult.trains result)
        /\ In cabin (TrainInfo.cabinClasses info) /\ counts cabin)
  /\ (forall info,
         In info (SearchResult.trains result)
         <-> exists train,
             In train (rawTrains data)
             /\ processTrainAvailability formatTime train timeStart timeEnd selected
                = Some info
             /\ exists cabin, In cabin (TrainInfo.cabinClasses info) /\ counts cabin)
  /\ ((forall train info cabin,
          In train (rawTrains data) ->
          processTrainAvailability formatTime train timeStart timeEnd selected
          = Some info ->
          In cabin (TrainInfo.cabinClasses info) ->
          Cabin.isSelected cabin = true ->
          Cabin.availability cabin = 0) ->
      SearchResult.found result = false /\ SearchResult.trains result = []).
Proof.
  intros result.
  assert (Hchar : forall info,
             In info (SearchResult.trains result)
             <-> exists train,
                 In train (rawTrains data)
                 /\ processTrainAvailability formatTime train timeStart timeEnd selected
                    = Some info
                 /\ exists cabin, In cabin (TrainInfo.cabinClasses info) /\ counts cabin).
  { intros info. subst result. rewrite in_trains.
    split; intros (t & ? & ? & H); exists t; (split; [assumption|]);
      (split; [assumption|]); apply hasAvailable_iff; exact H. }
  pose proof (processTrainData_found formatTime timeStart timeEnd selected data)
    as Hfound.
  fold result in Hfound.
  split; [|split; [exact Hchar|]].
  - rewrite Hfound. split.
    + destruct (SearchResult.trains result) as [|info rest] eqn:E; [discriminate|].
      intros _.
      assert (Hin : In info (info :: rest)) by (left; reflexivity).
      apply Hchar in Hin as (_ & _ & _ & cabin & Hc & Hcounts).
      exists info, cabin. split; [left; reflexivity | split; assumption].
    + intros (info & _ & Hin & _).
      destruct (SearchResult.trains result); [destruct Hin | reflexivity].
  - intros Hsold.
    assert (Hnil : SearchResult.trains result = []).
    { destruct (SearchResult.trains result) as [|info rest] eqn:E; [reflexivity|].
      assert (Hin : In info (info :: rest)) by (left; reflexivity).
      apply Hchar in Hin as (train & Hraw & Hproc & cabin & Hc & Hs & Hp).
      specialize (Hsold train info cabin Hraw Hproc Hc Hs). lia. }
    rewrite Hfound, Hnil. split; reflexivity.
Qed.

Lemma found_iff_available_witness :
  let result := processTrainData Sample.clock Sample.soldOut "08:00" "12:00" ["ECONOMY"] in
  SearchResult.found result = false /\ SearchResult.trains result = [].
Proof.
  intros result.
  apply (found_iff_available Sample.clock Sample.soldOut "08:00" "12:00" ["ECONOMY"]).
  intros train info cabin Hraw Hproc Hin Hsel.
  destruct Hraw as [<- | []].
  injection Hproc as <-.
  destruct Hin as [<- | [<- | []]]; [reflexivity | discriminate Hsel].
Defined.

(** C10. Every train in the list [processTrainData] returns has a selected
    cabin class with availability > 0, and [found] is true exactly when the
    list is not empty; so whenever [found] is true the seat count that
    [handleTicketsFound] recomputes is positive and [handleTicketsFound]
    runs its found branch: the sold-out branch is never taken on a result
    of the filter. *)
Theorem found_result_has_seats
        (formatTime : Z -> string) (data : Availability.t)
        (timeStart timeEnd : string) (selected : list string) :
  let result := processTrainData formatTime data timeStart timeEnd selected in
  (forall info,
      In info (SearchResult.trains result) ->
      exists cabin, In cabin (TrainInfo.cabinClasses info) /\ counts cabin)
  /\ (SearchResult.found result = true <-> SearchResult.trains result <> [])
  /\ (SearchResult.found result = true -> 0 < actualAvailableSeats result)
  /\ (SearchResult.found result = true ->
      forall params,
        SearchManager.handleTicketsFound result params
        = (SearchManager.announceAndAllocate
             (actualAvailableSeats result) result params;;
           ui (DisplayResults (SearchResult.trains result)))).
Proof.
  intros result.
  assert (Hall : forall info,
             In info (SearchResult.trains result) ->
             exists cabin, In cabin (TrainInfo.cabinClasses info) /\ counts cabin).
  { intros info Hin. subst result.
    apply in_trains in Hin as (_ & _ & _ & H). apply hasAvailable_iff, H. }
  pose proof (processTrainData_found formatTime timeStart timeEnd selected data)
    as Hfound.
  fold result in Hfound.
  assert (Hpos : SearchResult.found result = true -> 0 < actualAvailableSeats result).
  { rewrite Hfound. intros Hne. apply SumFacts.actualAvailableSeats_pos.
    destruct (SearchResult.trains result) as [|info rest] eqn:E; [discriminate|].
    destruct (Hall info (or_introl eq_refl)) as (cabin & Hc & Hcounts).
    exists info, cabin. split; [left; reflexivity | split; assumption]. }
  split; [exact Hall|]. split; [|split; [exact Hpos|]].
  - rewrite Hfound.
    destruct (SearchResult.trains result); simpl; split; congruence.
  - intros Hf params. unfold SearchManager.handleTicketsFound. cbv zeta.
    apply Hpos, Z.ltb_lt in Hf. rewrite Hf. reflexivity.
Qed.

Lemma found_result_has_seats_witness :
  let result := processTrainData Sample.clock Sample.oneTrain "08:00" "12:00" ["ECONOMY"] in
  SearchResult.found result = true
  /\ 0 < actualAvailableSeats result
  /\ actualAvailableSeats result = 3.
Proof.
  intros result.
  destruct (found_result_has_seats Sample.clock Sample.oneTrain
                                   "08:00" "12:00" ["ECONOMY"])
    as (_ & _ & Hpos & _).
  split; [reflexivity|]. split; [apply Hpos; reflexivity | reflexivity].
Defined.

End FilterClaims.

(* ===================================================================== *)
(** * Properties of the seat locator                                      *)
(* ===================================================================== *)

Module SeatLocatorFacts.
Import SeatLocator.

(** The identifiers matched against are those of the selected keys that
    the catalog knows. *)
Lemma includesId_iff selected cid :
  includesId (selectedCabinClassIds selected) cid = true
  <-> exists key class i,
      In key selected /\ Config.lookupKey key = Some class
      /\ Config.id class = i /\ cid = Some i.
Proof.
  unfold includesId, selectedCabinClassIds. destruct cid as [i|].
  - rewrite existsb_exists. split.
    + intros (j & Hin & Heq). apply Z.eqb_eq in Heq. subst j.
      apply list_elem_of_In, list_elem_of_omap in Hin as (key & Hkey & Hopt).
      apply list_elem_of_In in Hkey.
      destruct (Config.lookupKey key) as [class|] eqn:E; [|discriminate].
      injection Hopt as Hid. exists key, class, i. auto.
    + intros (key & class & j & Hkey & Hlook & Hid & [= ->]).
      exists j. split; [|apply Z.eqb_refl].
      apply list_elem_of_In, list_elem_of_omap. exists key.
      split; [apply list_elem_of_In, Hkey|]. rewrite Hlook. simpl. congruence.
  - split; [discriminate|]. intros (? & ? & ? & _ & _ & _ & [=]).
Qed.

Lemma occupied_fold allocs (start : gset string) number :
  number ∈ fold_left
             (fun occupied alloc =>
                match alloc with
                | Some n => if Js.truthyStr n then occupied ∪ {[ n ]} else occupied
                | None => occupied
                end)
             allocs start
  <-> number ∈ start \/ (In (Some number) allocs /\ number <> "").
Proof.
  revert start. induction allocs as [|a rest IH]; intros start; simpl.
  - split; [auto | intros [H | [[] _]]; exact H].
  - rewrite IH. clear IH.
    destruct a as [[|c n']|]; simpl.
    + split; [intros [H | [H Hne]] | intros [H | [[H | H] Hne]]]; auto;
        try (injection H as <-; congruence).
    + rewrite elem_of_union, elem_of_singleton. split.
      * intros [[H | ->] | [H Hne]]; auto;
          try (right; split; [left; reflexivity | discriminate]).
      * intros [H | [[H | H] Hne]]; auto; try (injection H as <-; auto).
    + split; [intros [H | [H Hne]] | intros [H | [[H | H] Hne]]]; auto;
        try discriminate H.
Qed.

(** A seat number is in the occupied set of a car exactly when it is not
    empty and the allocation list of the car holds it. *)
Lemma occupiedSeats_iff seatMap number :
  number ∈ occupiedSeats seatMap
  <-> number <> ""
      /\ exists allocs, SeatMap.allocationSeats seatMap = Some allocs
                        /\ In (Some number) allocs.
Proof.
  unfold occupiedSeats. destruct (SeatMap.allocationSeats seatMap) as [allocs|].
  - rewrite occupied_fold. split.
    + intros [H | [H Hne]]; [set_solver|]. split; [assumption|]. eauto.
    + intros (Hne & l & [= <-] & Hin). right. split; assumption.
  - split; [set_solver|]. intros (_ & l & [=] & _).
Qed.

(** The tests of the loop are the four conditions of the specification. *)
Lemma passes_iff selected seatMap seatItem :
  passes (selectedCabinClassIds selected) (occupiedSeats seatMap) seatItem = true
  <-> acceptable selected (seatMap, seatItem).
Proof.
  unfold passes, acceptable.
  destruct (SeatItem.item_ seatItem) as [item|];
    [|split; [discriminate | intros (? & ? & [=] & _)]].
  destruct (SeatItem.seatNumber seatItem) as [number|].
  - rewrite !andb_true_iff, includesId_iff, negb_true_iff, bool_decide_eq_false,
      occupiedSeats_iff.
    split.
    + intros [[Hsale Hclass] [Hnum Hfree]].
      exists item, number. repeat split; try assumption.
      * destruct number; [discriminate | discriminate].
      * intros Hheld. apply Hfree. split; [|exact Hheld].
        destruct number; [discriminate | discriminate].
    + intros (item' & number' & [= <-] & Hsale & Hclass & [= <-] & Hne & Hfree).
      repeat split; try assumption.
      * destruct number; [congruence | reflexivity].
      * intros [_ Hheld]. apply Hfree, Hheld.
  - split.
    + intros H. rewrite andb_false_r in H. discriminate.
    + intros (? & ? & _ & _ & _ & [=] & _).
Qed.

Lemma itemsOf_template seatMap template items :
  SeatMap.seatMapTemplate seatMap = Some template ->
  Template.seatMaps template = Some items ->
  itemsOf seatMap = items.
Proof.
  unfold itemsOf. intros -> Hitems. destruct template. simpl in *.
  rewrite Hitems. reflexivity.
Qed.

Lemma itemsOf_none seatMap :
  SeatMap.seatMapTemplate seatMap = None
  \/ (exists template, SeatMap.seatMapTemplate seatMap = Some template
                       /\ Template.seatMaps template = None) ->
  itemsOf seatMap = [].
Proof.
  unfold itemsOf. intros [-> | (template & -> & Hnone)]; [reflexivity|].
  destruct template. simpl in *. rewrite Hnone. reflexivity.
Qed.

(** The inner loop stops at the first item of the car that meets the four
    conditions. *)
Lemma scanItems_first selected seatMap template items :
  match scanItems (selectedCabinClassIds selected) (occupiedSeats seatMap)
                  seatMap template items with
  | Some seat =>
      exists before seatItem after,
        items = before ++ seatItem :: after
        /\ acceptable selected (seatMap, seatItem)
        /\ describes seat (seatMap, seatItem)
        /\ forall earlier, In earlier before ->
                           ~ acceptable selected (seatMap, earlier)
  | None => forall seatItem, In seatItem items ->
                             ~ acceptable selected (seatMap, seatItem)
  end.
Proof.
  induction items as [|seatItem rest IH]; simpl; [intros ? []|].
  destruct (passes _ _ seatItem) eqn:Hpass.
  - pose proof (proj1 (passes_iff _ _ _) Hpass) as Hok.
    destruct Hok as (item & number & Hitem & Hsale & Hclass & Hnum & Hne & Hfree).
    unfold candidate. rewrite Hitem, Hnum.
    exists [], seatItem, rest. split; [reflexivity|].
    split; [exact (proj1 (passes_iff _ _ _) Hpass)|].
    split; [|intros ? []].
    simpl. split; [reflexivity|]. split; [assumption|].
    exists item. split; [assumption | reflexivity].
  - assert (Hno : ~ acceptable selected (seatMap, seatItem)).
    { intros Hok. apply passes_iff in Hok. congruence. }
    destruct (scanItems _ _ seatMap template rest) as [seat|].
    + destruct IH as (before & chosen & after & -> & Hok & Hdesc & Hearlier).
      exists (seatItem :: before), chosen, after.
      split; [reflexivity|]. split; [assumption|]. split; [assumption|].
      intros earlier [<- | Hin]; [assumption | apply Hearlier, Hin].
    + intros x [<- | Hin]; [assumption | apply IH, Hin].
Qed.

(** The two loops together stop at the first seat of the response, cars in
    array order and items in template order, that meets the conditions. *)
Lemma scanCars_first selected seatMaps :
  match scanCars (selectedCabinClassIds selected) seatMaps with
  | Some seat =>
      exists before chosen after,
        seatsInOrder seatMaps = before ++ chosen :: after
        /\ acceptable selected chosen
        /\ describes seat chosen
        /\ forall earlier, In earlier before -> ~ acceptable selected earlier
  | None => forall s, In s (seatsInOrder seatMaps) -> ~ acceptable selected s
  end.
Proof.
  induction seatMaps as [|seatMap rest IH]; [intros ? []|].
  unfold seatsInOrder. simpl. fold (seatsInOrder rest).
  destruct (SeatMap.seatMapTemplate seatMap) as [template|] eqn:Htpl;
    [destruct (Template.seatMaps template) as [items|] eqn:Hitems|].
  - rewrite (itemsOf_template _ _ _ Htpl Hitems).
    pose proof (scanItems_first selected seatMap template items) as Hscan.
    destruct (scanItems _ _ seatMap template items) as [seat|].
    + destruct Hscan as (before & seatItem & after & -> & Hok & Hdesc & Hearlier).
      exists (List.map (pair seatMap) before), (seatMap, seatItem),
             (List.map (pair seatMap) after ++ seatsInOrder rest).
      split; [rewrite map_app, <- app_assoc; reflexivity|].
      split; [assumption|]. split; [assumption|].
      intros earlier Hin. apply in_map_iff in Hin as (x & <- & Hin).
      apply Hearlier, Hin.
    + assert (Hcar : forall s, In s (List.map (pair seatMap) items) ->
                               ~ acceptable selected s).
      { intros s Hin. apply in_map_iff in Hin as (x & <- & Hin).
        apply Hscan, Hin. }
      destruct (scanCars _ rest) as [seat|].
      * destruct IH as (before & chosen & after & -> & Hok & Hdesc & Hearlier).
        exists (List.map (pair seatMap) items ++ before), chosen, after.
        split; [rewrite <- app_assoc; reflexivity|].
        split; [assumption|]. split; [assumption|].
        intros earlier Hin. apply in_app_or in Hin as [Hin | Hin];
          [apply Hcar, Hin | apply Hearlier, Hin].
      * intros s Hin. apply in_app_or in Hin as [Hin | Hin];
          [apply Hcar, Hin | apply IH, Hin].
  - rewrite itemsOf_none by (right; eauto). simpl. exact IH.
  - rewrite itemsOf_none by (left; assumption). simpl. exact IH.
Qed.

(** C5. For every seat-map list and set of selected classes,
    [findFirstAvailableSeat] returns the first seat, in seat-map array
    order and then template item order, that is saleable, whose cabin-class
    id is that of a selected class, that has a seat number, and whose seat
    number is not in the occupied set built from the allocation list of its
    car; the seat it returns meets the four conditions, and it returns
    [null] exactly when no seat of any car meets them. *)
Theorem findFirstAvailableSeat_first
        (seatMaps : list SeatMap.t) (selected : list string) :
  (forall seat,
      findFirstAvailableSeat seatMaps selected = Some seat ->
      exists before seatMap seatItem after item,
        seatsInOrder seatMaps = before ++ (seatMap, seatItem) :: after
        /\ (forall earlier, In earlier before -> ~ acceptable selected earlier)
        /\ acceptable selected (seatMap, seatItem)
        /\ describes seat (seatMap, seatItem)
        /\ SeatItem.item_ seatItem = Some item
        /\ SeatItem.saleable item = true
        /\ includesId (selectedCabinClassIds selected)
                      (SeatItem.cabinClassId item) = true
        /\ SeatCandidate.seatNumber seat <> ""
        /\ SeatCandidate.seatNumber seat ∉ occupiedSeats seatMap)
  /\ (findFirstAvailableSeat seatMaps selected = None
      <-> forall s, In s (seatsInOrder seatMaps) -> ~ acceptable selected s).
Proof.
  unfold findFirstAvailableSeat.
  pose proof (scanCars_first selected seatMaps) as Hscan.
  destruct (scanCars _ seatMaps) as [found|].
  - destruct Hscan as (before & [seatMap seatItem] & after & Horder & Hok & Hdesc
                       & Hearlier).
    split.
    + intros seat [= <-].
      pose proof (proj2 (passes_iff _ _ _) Hok) as Hpass.
      unfold passes in Hpass.
      destruct Hdesc as (Hcar & Hnum & item & Hitem & Hid).
      rewrite Hitem, Hnum in Hpass.
      rewrite !andb_true_iff, negb_true_iff, bool_decide_eq_false in Hpass.
      destruct Hpass as [[Hsale Hclass] [Htruthy Hfree]].
      exists before, seatMap, seatItem, after, item.
      repeat split; try assumption.
      * exists item. split; [assumption | assumption].
      * intros Hempty. rewrite Hempty in Htruthy. discriminate.
    + split; [discriminate|]. intros Hnone. exfalso.
      apply (Hnone (seatMap, seatItem)); [|assumption].
      rewrite Horder. apply in_elt.
  - split; [discriminate|]. split; [intros _; exact Hscan | reflexivity].
Qed.

Lemma findFirstAvailableSeat_first_witness :
  exists seat,
    findFirstAvailableSeat [Sample.fullCar; Sample.openCar] ["ECONOMY"] = Some seat
    /\ SeatCandidate.seatNumber seat = "2B"
    /\ SeatCandidate.seatNumber seat <> ""
    /\ findFirstAvailableSeat [Sample.fullCar] ["ECONOMY"] = None.
Proof.
  destruct (findFirstAvailableSeat_first [Sample.fullCar; Sample.openCar] ["ECONOMY"])
    as [Hsome _].
  eexists. split; [reflexivity|]. split; [reflexivity|].
  destruct (Hsome _ eq_refl) as (_ & _ & _ & _ & _ & _ & _ & _ & _ & _ & _ & _ & Hne & _).
  split; [exact Hne | reflexivity].
Defined.

End SeatLocatorFacts.

(* ===================================================================== *)
(** * Properties of the client, the tracker and the controller            *)
(* ===================================================================== *)

Module AsyncFacts.

(** A function that ends without suspending, followed by another. *)
Lemma runSync_bind_sync {A B} (p : Prog A) (f : A -> Prog B) w w' a :
  runSync p w = (w', inl (Returned a)) ->
  runSync (p ≫= f) w = runSync (f a) w'.
Proof.
  change (p ≫= f) with (bind f p).
  revert w. induction p; intros w Hp; simpl in *; try discriminate; auto.
  injection Hp as <- <-. reflexivity.
Qed.

(** A function that ends without suspending awaits nothing when run alone. *)
Lemma execFrom_sync {A} server (p : Prog A) w w' r fetched done :
  runSync p w = (w', inl r) ->
  execFrom server p w fetched done
  = {| Run.final := w'; Run.outcome := r; Run.trace := rev done |}.
Proof.
  revert w. induction p; intros w Hp; simpl in *; try discriminate; auto.
  - injection Hp as <- <-. reflexivity.
  - injection Hp as <- <-. reflexivity.
Qed.

Lemma runSync_ui c w : runSync (ui c) w = (World.logUi c w, inl (Returned tt)).
Proof. reflexivity. Qed.

(** [stopSearch] ends without suspending and leaves the allocation alone. *)
Lemma stopSearch_sync w :
  exists w',
    runSync SearchManager.stopSearch w = (w', inl (Returned tt))
    /\ World.allocatedSeat w' = World.allocatedSeat w.
Proof.
  unfold SearchManager.stopSearch. simpl.
  destruct (World.isSearching w); simpl; [|eauto].
  destruct (World.searchInterval w); simpl; eauto.
Qed.

End AsyncFacts.

Module DelayClaims.

(** C8. A call of [checkAvailability] with [skipDelay = false] on a client
    that is not busy sleeps once, before its one network call, for
    [getRandomDelay(MIN_ANTI_BOT_DELAY, MAX_ANTI_BOT_DELAY)] milliseconds, an
    integer between the two bounds, both included, for every outcome of the
    random source; with [skipDelay = true] the call does not sleep.  The
    delay is computed as the code computes it, in double precision, every
    operation rounded: for the double nearest to 0.999 it is 7995.  For all
    integer bounds [min <= max] that doubles hold exactly, as their
    difference, [getRandomDelay(min, max)] lies between [min] and [max]. *)
Theorem checkAvailability_delay
        (server : Server) (params : SearchParams.t) (w : World.t)
        (Hidle : World.isLoading w = false)
        (Hrandom : (0 <= World.randomOutcomes w (World.randomDrawn w))%Q
                   /\ (World.randomOutcomes w (World.randomDrawn w) < 1)%Q) :
  let request :=
    AvailabilityRequest (SearchParams.departureStationId params)
                        (SearchParams.departureStationName params)
                        (SearchParams.arrivalStationId params)
                        (SearchParams.arrivalStationName params)
                        (SearchParams.departureDate params +:+ " 00:00:00") in
  let delay :=
    Utils.getRandomDelay Config.MIN_ANTI_BOT_DELAY Config.MAX_ANTI_BOT_DELAY
                         (World.randomOutcomes w (World.randomDrawn w)) in
  Run.trace (exec server (TrainAPI.checkAvailability params false) w)
  = [Slept delay; Fetched request]
  /\ Config.MIN_ANTI_BOT_DELAY <= delay <= Config.MAX_ANTI_BOT_DELAY
  /\ Run.trace (exec server (TrainAPI.checkAvailability params true) w)
     = [Fetched request]
  /\ Utils.getRandomDelay Config.MIN_ANTI_BOT_DELAY Config.MAX_ANTI_BOT_DELAY
                          (Double.round (999 # 1000)) = 7995
  /\ (forall min max r,
         Double.exact min -> Double.exact max -> Double.exact (max - min) ->
         min <= max -> (0 <= r)%Q -> (r < 1)%Q ->
         min <= Utils.getRandomDelay min max r <= max).
Proof.
  intros request delay.
  destruct UtilsFacts.delay_bounds_exact as (Hmin & Hmax & Hspan & Horder).
  split; [|split; [|split; [|split]]].
  - unfold exec, TrainAPI.checkAvailability. simpl. rewrite Hidle. simpl.
    destruct (server 0%nat _) as [e | response]; simpl; [reflexivity|].
    destruct (Response.ok response); simpl; [|reflexivity].
    destruct (Response.json response); reflexivity.
  - destruct Hrandom.
    apply UtilsFacts.getRandomDelay_range; assumption.
  - unfold exec, TrainAPI.checkAvailability. simpl. rewrite Hidle. simpl.
    destruct (server 0%nat _) as [e | response]; simpl; [reflexivity|].
    destruct (Response.ok response); simpl; [|reflexivity].
    destruct (Response.json response); reflexivity.
  - vm_compute. reflexivity.
  - intros min max r. apply UtilsFacts.getRandomDelay_range.
Qed.

Lemma checkAvailability_delay_witness :
  Run.trace (exec Sample.offline (TrainAPI.checkAvailability Sample.params false)
                  Sample.page)
  = [Slept 5500;
     Fetched (AvailabilityRequest 796 "KONYA" 98 "ANKARA GAR" "05-03-2025 00:00:00")]
  /\ 3000 <= 5500 <= 8000.
Proof.
  assert (Hrandom : (0 <= 1 # 2)%Q /\ (1 # 2 < 1)%Q) by (split; reflexivity || discriminate).
  destruct (checkAvailability_delay Sample.offline Sample.params Sample.page
                                    eq_refl Hrandom) as (Htrace & Hrange & _).
  split; [exact Htrace | exact Hrange].
Defined.

End DelayClaims.

Module ControllerClaims.

(** C7. [stopSearch] awaits nothing.  From a state in which a search is
    active it clears the search flag, cancels the interval timer whose
    handle it holds and forgets the handle, leaves every other timer armed
    and leaves the stored allocation as it is; when no search is active it
    changes nothing. *)
Theorem stopSearch_keeps_allocation (server : Server) (w : World.t) :
  let run := exec server SearchManager.stopSearch w in
  Run.trace run = []
  /\ Run.outcome run = Returned tt
  /\ (World.isSearching w = true ->
      World.isSearching (Run.final run) = false
      /\ World.searchInterval (Run.final run) = None
      /\ (forall handle, World.searchInterval w = Some handle ->
                         handle ∉ World.timers (Run.final run))
      /\ (forall timer, timer ∈ World.timers w ->
                        World.searchInterval w <> Some timer ->
                        timer ∈ World.timers (Run.final run))
      /\ World.allocatedSeat (Run.final run) = World.allocatedSeat w)
  /\ (World.isSearching w = false -> Run.final run = w).
Proof.
  unfold exec, SearchManager.stopSearch. simpl.
  destruct (World.isSearching w) eqn:Hs; simpl.
  - split; [destruct (World.searchInterval w); reflexivity|].
    split; [destruct (World.searchInterval w); reflexivity|].
    split; [intros _ | discriminate].
    destruct (World.searchInterval w) as [handle|] eqn:Hi; simpl.
    + split; [reflexivity|]. split; [reflexivity|].
      split; [|split; [|reflexivity]].
      * intros h Heq. assert (h = handle) as -> by congruence.
        rewrite elem_of_difference, elem_of_singleton. intros [_ Hne].
        apply Hne. reflexivity.
      * intros timer Hin Hne. apply elem_of_difference. split; [assumption|].
        intros Heq. apply elem_of_singleton in Heq. congruence.
    + split; [reflexivity|]. split; [exact Hi|].
      split; [discriminate|]. split; [|reflexivity].
      intros timer Hin _. assumption.
  - split; [reflexivity|]. split; [reflexivity|].
    split; [discriminate | reflexivity].
Qed.

Lemma stopSearch_keeps_allocation_witness :
  let run := exec Sample.offline SearchManager.stopSearch Sample.searching in
  World.isSearching Sample.searching = true
  /\ World.allocatedSeat (Run.final run) = Some Sample.held
  /\ World.searchInterval (Run.final run) = None
  /\ 5%positive ∉ World.timers (Run.final run).
Proof.
  intros run.
  destruct (stopSearch_keeps_allocation Sample.offline Sample.searching)
    as (_ & _ & Hactive & _).
  destruct (Hactive eq_refl) as (_ & Hhandle & Hcancel & _ & Halloc).
  split; [reflexivity|]. split; [exact Halloc|]. split; [exact Hhandle|].
  exact (Hcancel 5%positive eq_refl).
Defined.

End ControllerClaims.

Module TrackerClaims.
Import SeatAllocationManager.

(** [deallocateSeat] rethrows what went wrong with the request. *)
Lemma deallocateSeat_throws server data w o e :
  server 0%nat (DeallocateRequest (AllocationData.trainCarId data)
                                  (AllocationData.allocationId data)
                                  (AllocationData.seatNumber data)) = o ->
  transportFailure o e ->
  Run.outcome (exec server (TrainAPI.deallocateSeat data) w) = Thrown e
  /\ Run.final (exec server (TrainAPI.deallocateSeat data) w) = w.
Proof.
  intros Ho Hfail. unfold exec, TrainAPI.deallocateSeat. simpl. rewrite Ho.
  destruct Hfail as [-> | (response & -> & Hok & ->)]; simpl; [auto|].
  rewrite Hok. simpl. destruct (Response.json response); simpl; auto.
Qed.

(** C4, as the specification states it, fails: with an allocation held and
    a service that answers the release request with status 500,
    [deallocateSeat] throws, but [releaseSeat] does not: it returns a
    result object. *)
Lemma releaseSeat_does_not_throw :
  let run := exec Sample.failing releaseSeat Sample.holding in
  Run.outcome (exec Sample.failing
                    (TrainAPI.deallocateSeat
                       {| AllocationData.trainCarId := 31;
                          AllocationData.allocationId := 900;
                          AllocationData.seatNumber := "7C" |})
                    Sample.holding)
  = Thrown {| Error.message := "HTTP 500: Deallocation request failed" |}
  /\ Run.outcome run
     = Returned (failure "Hata: HTTP 500: Deallocation request failed")
  /\ ~ (exists e, Run.outcome run = Thrown e).
Proof.
  split; [reflexivity|]. split; [reflexivity|].
  intros [e He]. discriminate He.
Qed.

(** C4, amended. [releaseSeat] with no allocation held returns
    [success = false] without a network call.  With an allocation held it
    sends one release request; when that succeeds it clears the stored
    allocation and returns [success = true]; when it fails in transport,
    [deallocateSeat] throws the error to [releaseSeat], which catches it
    and returns [success = false] with the message "Hata: " followed by the
    message of the error (it does not throw), and the stored allocation is
    not cleared. *)
Theorem releaseSeat_cases (server : Server) (w : World.t) :
  let run := exec server releaseSeat w in
  (World.allocatedSeat w = None ->
   Run.outcome run = Returned (failure "Tutulmuş koltuk bulunamadı")
   /\ Run.trace run = []
   /\ Run.final run = w)
  /\ (forall held response,
         World.allocatedSeat w = Some held ->
         server 0%nat (releaseRequest held) = Resolved response ->
         Response.ok response = true ->
         Run.outcome run
         = Returned {| Outcome.success := true;
                       Outcome.message := "Koltuk başarıyla serbest bırakıldı";
                       Outcome.seatInfo := None |}
         /\ Run.trace run = [Fetched (releaseRequest held)]
         /\ World.allocatedSeat (Run.final run) = None)
  /\ (forall held e,
         World.allocatedSeat w = Some held ->
         transportFailure (server 0%nat (releaseRequest held)) e ->
         Run.outcome run = Returned (failure ("Hata: " +:+ Error.message e))
         /\ Run.trace run = [Fetched (releaseRequest held)]
         /\ World.allocatedSeat (Run.final run) = Some held
         /\ Run.final run = w).
Proof.
  unfold exec, releaseSeat, releaseRequest. simpl.
  split; [|split].
  - intros ->. simpl. auto.
  - intros held response -> Hserver Hok. simpl. rewrite Hserver. simpl.
    rewrite Hok. simpl. auto.
  - intros held e Hheld Hfail. rewrite Hheld. simpl.
    destruct Hfail as [-> | (response & -> & Hok & ->)]; simpl.
    + auto.
    + rewrite Hok. simpl. destruct (Response.json response); simpl; auto.
Qed.

Lemma releaseSeat_cases_witness :
  let run := exec Sample.failing releaseSeat Sample.holding in
  Run.outcome run
  = Returned (failure "Hata: HTTP 500: Deallocation request failed")
  /\ World.allocatedSeat (Run.final run) = Some Sample.held.
Proof.
  intros run.
  destruct (releaseSeat_cases Sample.failing Sample.holding) as (_ & _ & Hfail).
  destruct (Hfail Sample.held
                  (TrainAPI.httpError 500 "Deallocation request failed") eq_refl)
    as (Hout & _ & Hheld & _).
  - right. eexists. split; [reflexivity|]. split; reflexivity.
  - split; [exact Hout | exact Hheld].
Defined.

(** [checkAndAllocateFirstSeat] does not look at the stored allocation
    before it asks for the seat map. *)
Lemma checkAndAllocateFirstSeat_asks_first server trainInfo params w :
  exists rest,
    Run.trace (exec server (checkAndAllocateFirstSeat trainInfo params) w)
    = Fetched (SeatMapRequest (SearchParams.departureStationId params)
                              (SearchParams.arrivalStationId params)
                              (TrainInfo.trainId trainInfo) 0) :: rest.
Proof.
  unfold exec.
  set (p := checkAndAllocateFirstSeat trainInfo params).
  assert (Hshape : exists k,
             p = Fetch (SeatMapRequest (SearchParams.departureStationId params)
                                       (SearchParams.arrivalStationId params)
                                       (TrainInfo.trainId trainInfo) 0) k).
  { eexists. reflexivity. }
  destruct Hshape as [k ->]. simpl.
  generalize (k (server 0%nat
                   (SeatMapRequest (SearchParams.departureStationId params)
                                   (SearchParams.arrivalStationId params)
                                   (TrainInfo.trainId trainInfo) 0))).
  intros q.
  assert (Hgen : forall (q : Prog Outcome.t) w n done,
             exists rest, Run.trace (execFrom server q w n done) = rev done ++ rest).
  { clear. induction q; intros w n done; simpl; eauto.
    - exists []. rewrite app_nil_r. reflexivity.
    - exists []. rewrite app_nil_r. reflexivity.
    - destruct (IHq w n (Slept ms :: done)) as [rest Hrest].
      exists (Slept ms :: rest). rewrite Hrest. simpl.
      rewrite <- app_assoc. reflexivity.
    - destruct (H (server n req) w (S n) (Fetched req :: done)) as [rest Hrest].
      exists (Fetched req :: rest). rewrite Hrest. simpl.
      rewrite <- app_assoc. reflexivity. }
  destruct (Hgen q w 1%nat [Fetched (SeatMapRequest
                                       (SearchParams.departureStationId params)
                                       (SearchParams.arrivalStationId params)
                                       (TrainInfo.trainId trainInfo) 0)])
    as [rest Hrest].
  exists rest. exact Hrest.
Qed.

(** C2, as the specification states it, fails: called with an allocation
    held and a service that grants the request, [checkAndAllocateFirstSeat]
    makes two network calls, returns [success = true] and replaces the stored
    allocation. *)
Lemma checkAndAllocateFirstSeat_overwrites :
  let run := exec Sample.granting
                  (checkAndAllocateFirstSeat Sample.trainInfo Sample.params)
                  Sample.holding in
  World.allocatedSeat Sample.holding = Some Sample.held
  /\ (exists result, Run.outcome run = Returned result
                     /\ Outcome.success result = true)
  /\ Run.trace run
     = [Fetched (SeatMapRequest 796 98 4711 0);
        Fetched (AllocateRequest 32 796 98 "M" "2B" 0 1 0)]
  /\ World.allocatedSeat (Run.final run) <> Some Sample.held.
Proof.
  split; [reflexivity|]. split; [eexists; split; reflexivity|].
  split; [reflexivity|]. discriminate.
Qed.

(** C2, amended. The test for a held allocation is in the caller:
    [handleTicketsFound], run in a state in which an allocation is held,
    does not call [checkAndAllocateFirstSeat]; it awaits nothing, so it
    issues no network call, it leaves the stored allocation as it is, and
    when it found seats it logs the message that a seat is already held.
    [checkAndAllocateFirstSeat] itself does not test for a held allocation:
    whatever the state, it first requests the seat map. *)
Theorem handleTicketsFound_keeps_held
        (server : Server) (result : SearchResult.t) (params : SearchParams.t)
        (w : World.t) (held : Allocation.t)
        (Hheld : World.allocatedSeat w = Some held) :
  let run := exec server (SearchManager.handleTicketsFound result params) w in
  Run.trace run = []
  /\ Run.outcome run = Returned tt
  /\ World.allocatedSeat (Run.final run) = Some held
  /\ (0 < Filter.actualAvailableSeats result ->
      exists later,
        World.uiCalls (Run.final run)
        = DisplayResults (SearchResult.trains result)
            :: AddLog "ℹ️ Zaten tutulmuş bir koltuk var." :: PlayAlert :: later)
  /\ (forall trainInfo,
         exists rest,
           Run.trace (exec server (checkAndAllocateFirstSeat trainInfo params) w)
           = Fetched (SeatMapRequest (SearchParams.departureStationId params)
                                     (SearchParams.arrivalStationId params)
                                     (TrainInfo.trainId trainInfo) 0) :: rest).
Proof.
  intros run.
  assert (Hbranch :
            exists w1 later,
              runSync (if 0 <? Filter.actualAvailableSeats result
                       then SearchManager.announceAndAllocate
                              (Filter.actualAvailableSeats result) result params
                       else SearchManager.reportSoldOut result) w
              = (w1, inl (Returned tt))
              /\ World.allocatedSeat w1 = Some held
              /\ (0 < Filter.actualAvailableSeats result ->
                  World.uiCalls w1
                  = AddLog "ℹ️ Zaten tutulmuş bir koltuk var." :: PlayAlert :: later)).
  { destruct (0 <? Filter.actualAvailableSeats result) eqn:Hpos.
    - unfold SearchManager.announceAndAllocate.
      erewrite AsyncFacts.runSync_bind_sync by apply AsyncFacts.runSync_ui.
      erewrite AsyncFacts.runSync_bind_sync by reflexivity.
      match goal with
      | |- context [runSync (SearchManager.stopSearch ≫= _) ?w0] =>
          destruct (AsyncFacts.stopSearch_sync w0) as (w2 & Hstop & Hkeep)
      end.
      erewrite AsyncFacts.runSync_bind_sync by exact Hstop.
      erewrite AsyncFacts.runSync_bind_sync by apply AsyncFacts.runSync_ui.
      assert (Hheld2 : World.allocatedSeat (World.logUi PlayAlert w2) = Some held).
      { simpl. rewrite Hkeep. exact Hheld. }
      erewrite AsyncFacts.runSync_bind_sync
        by (unfold SeatAllocationManager.hasAllocatedSeat; cbn [runSync];
            rewrite Hheld2; reflexivity).
      cbn [negb]. rewrite AsyncFacts.runSync_ui.
      eexists. exists (World.uiCalls w2).
      split; [reflexivity|]. split; [exact Hheld2|]. intros _. reflexivity.
    - unfold SearchManager.reportSoldOut. cbv zeta.
      erewrite AsyncFacts.runSync_bind_sync by apply AsyncFacts.runSync_ui.
      cbn [runSync]. rewrite AsyncFacts.runSync_ui.
      eexists. exists []. split; [reflexivity|]. split; [exact Hheld|].
      intros Hlt. apply Z.ltb_lt in Hlt. congruence. }
  destruct Hbranch as (w1 & later & Hrun & Hkept & Hlog).
  assert (Hall : runSync (SearchManager.handleTicketsFound result params) w
                 = (World.logUi (DisplayResults (SearchResult.trains result)) w1,
                    inl (Returned tt))).
  { unfold SearchManager.handleTicketsFound. cbv zeta.
    erewrite AsyncFacts.runSync_bind_sync by exact Hrun.
    apply AsyncFacts.runSync_ui. }
  subst run. unfold exec.
  rewrite (AsyncFacts.execFrom_sync _ _ _ _ _ _ _ Hall).
  cbn [Run.trace Run.outcome Run.final rev].
  split; [reflexivity|]. split; [reflexivity|]. split; [exact Hkept|].
  split.
  - intros Hpos. exists later. cbn [World.uiCalls World.logUi].
    rewrite (Hlog Hpos). reflexivity.
  - intros trainInfo. apply checkAndAllocateFirstSeat_asks_first.
Qed.

Lemma handleTicketsFound_keeps_held_witness :
  let run := exec Sample.granting
                  (SearchManager.handleTicketsFound Sample.found Sample.params)
                  Sample.holding in
  Run.trace run = []
  /\ World.allocatedSeat (Run.final run) = Some Sample.held.
Proof.
  intros run.
  destruct (handleTicketsFound_keeps_held
              Sample.granting Sample.found Sample.params
              Sample.holding Sample.held eq_refl) as (Htrace & _ & Halloc & _).
  split; [exact Htrace | exact Halloc].
Defined.

End TrackerClaims.

(* ===================================================================== *)
(** * The in-flight flag under interleaved calls                          *)
(* ===================================================================== *)

Module ClientFacts.
Import Client.

Lemma keepsLoading_bind {A B} (p : Prog A) (f : A -> Prog B) :
  keepsLoading p -> (forall a, keepsLoading (f a)) -> keepsLoading (p ≫= f).
Proof.
  intros Hp Hf. change (keepsLoading (bind f p)).
  induction p; simpl in *; auto.
  destruct Hp as [Hflag Hp]. split; auto.
Qed.

Lemma keepsLoading_tryCatch {A} (p : Prog A) (handler : Error.t -> Prog A) :
  keepsLoading p -> (forall e, keepsLoading (handler e)) ->
  keepsLoading (tryCatch p handler).
Proof.
  intros Hp Hh. induction p; simpl in *; auto.
  destruct Hp as [Hflag Hp]. split; auto.
Qed.

Lemma keepsLoading_fetch req : keepsLoading (fetch req).
Proof. intros [e | r]; exact I. Qed.

Lemma keepsLoading_json response : keepsLoading (json response).
Proof. intros [b | e]; exact I. Qed.

Lemma keepsLoading_failWith {A} response what :
  keepsLoading (@TrainAPI.failWith A response what).
Proof.
  unfold TrainAPI.failWith. apply keepsLoading_bind; [|intros; exact I].
  apply keepsLoading_tryCatch; [|intros; exact I].
  apply keepsLoading_bind; [apply keepsLoading_json | intros; exact I].
Qed.

Lemma keepsLoading_checkSeatMap trainId fromStationId toStationId :
  keepsLoading (TrainAPI.checkSeatMap trainId fromStationId toStationId).
Proof.
  unfold TrainAPI.checkSeatMap.
  apply keepsLoading_tryCatch; [|intros; exact I].
  apply keepsLoading_bind; [apply keepsLoading_fetch|].
  intros response. destruct (negb (Response.ok response));
    [apply keepsLoading_failWith | apply keepsLoading_json].
Qed.

Lemma keepsLoading_allocateSeat seatData :
  keepsLoading (TrainAPI.allocateSeat seatData).
Proof.
  unfold TrainAPI.allocateSeat.
  apply keepsLoading_tryCatch; [|intros; exact I].
  apply keepsLoading_bind; [apply keepsLoading_fetch|].
  intros response. destruct (negb (Response.ok response));
    [apply keepsLoading_failWith | apply keepsLoading_json].
Qed.

Lemma keepsLoading_deallocateSeat allocationData :
  keepsLoading (TrainAPI.deallocateSeat allocationData).
Proof.
  unfold TrainAPI.deallocateSeat.
  apply keepsLoading_tryCatch; [|intros; exact I].
  apply keepsLoading_bind; [apply keepsLoading_fetch|].
  intros response. destruct (negb (Response.ok response));
    [apply keepsLoading_failWith | exact I].
Qed.

(** A function that leaves the flag alone does so up to its next
    [await], and goes on leaving it alone afterwards. *)
Lemma runSync_keeps {A} (p : Prog A) (w : World.t) :
  keepsLoading p ->
  World.isLoading (fst (runSync p w)) = World.isLoading w
  /\ match snd (runSync p w) with
     | inr pending => keepsLoadingP pending
     | inl _ => True
     end.
Proof.
  revert w. induction p; intros w Hp; simpl in *; auto.
  destruct Hp as [Hflag Hp]. destruct (IHp (f w) Hp) as [Hw Hk].
  rewrite Hw, Hflag. auto.
Qed.

(** Inside [try ... finally], the update runs when the function ends and
    not while it is suspended. *)
Lemma runSync_tryFinally {A} (p : Prog A) update (w : World.t) :
  runSync (tryFinally p update) w
  = match runSync p w with
    | (w', inl r) => (update w', inl r)
    | (w', inr pending) => (w', inr (guarded update pending))
    end.
Proof. revert w. induction p; intros w; simpl; auto. Qed.

Lemma resume_guarded {A} update (pending : Pending A) answer :
  resume (guarded update pending) answer
  = option_map (fun next => tryFinally next update) (resume pending answer).
Proof. destruct pending, answer; reflexivity. Qed.

Lemma resume_keeps {A} (pending : Pending A) answer next :
  keepsLoadingP pending -> resume pending answer = Some next -> keepsLoading next.
Proof.
  destruct pending, answer; simpl; intros Hk [= <-]; auto.
Qed.

(** ** Counting the availability calls in flight *)

Lemma count_app tasks t :
  length (List.filter isAvailability (tasks ++ [t]))
  = (length (List.filter isAvailability tasks) + weight t)%nat.
Proof.
  rewrite List.filter_app, length_app. unfold weight. simpl.
  destruct (isAvailability t); reflexivity.
Qed.

Lemma count_delete tasks i t :
  tasks !! i = Some t ->
  length (List.filter isAvailability tasks)
  = (length (List.filter isAvailability (delete i tasks)) + weight t)%nat.
Proof.
  intros Hi. rewrite <- (take_drop_middle tasks i t Hi) at 1.
  rewrite delete_take_drop, !List.filter_app, !length_app. unfold weight.
  simpl. destruct (isAvailability t); simpl; lia.
Qed.

Lemma wellFormed_delete tasks i :
  Forall wellFormed tasks -> Forall wellFormed (delete i tasks).
Proof.
  intros Hall. rewrite delete_take_drop. apply Forall_app.
  split; [apply Forall_take | apply Forall_drop]; assumption.
Qed.

(** ** The steps keep the invariant *)

Lemma keepsLoading_availabilityBody params skipDelay :
  keepsLoading (TrainAPI.availabilityBody params skipDelay).
Proof.
  unfold TrainAPI.availabilityBody.
  apply keepsLoading_bind.
  - destruct (negb skipDelay); [|exact I].
    intros w. split; [reflexivity | exact I].
  - intros _. apply keepsLoading_bind; [apply keepsLoading_fetch|].
    intros response. destruct (negb (Response.ok response)); [exact I|].
    apply keepsLoading_bind; [apply keepsLoading_json | intros; exact I].
Qed.

(** On a client that is not busy, [checkAvailability] sets the flag and
    runs its body inside [try ... finally]. *)
Lemma checkAvailability_idle params skipDelay w :
  World.isLoading w = false ->
  runSync (TrainAPI.checkAvailability params skipDelay) w
  = runSync (tryFinally
               (tryCatch (TrainAPI.availabilityBody params skipDelay)
                         (fun error => Throw error))
               (World.setLoading false))
            (World.setLoading true w).
Proof.
  intros Hidle. unfold TrainAPI.checkAvailability. cbn [runSync].
  rewrite Hidle. reflexivity.
Qed.

(** On a busy client it returns [null] at once and changes nothing. *)
Lemma checkAvailability_busy params skipDelay w :
  World.isLoading w = true ->
  runSync (TrainAPI.checkAvailability params skipDelay) w
  = (w, inl (Returned BNull)).
Proof.
  intros Hbusy. unfold TrainAPI.checkAvailability. cbn [runSync].
  rewrite Hbusy. reflexivity.
Qed.

(** A call that leaves the flag alone and is not an availability call. *)
Lemma advance_other {A} (task : Pending A -> Task) settled (p : Prog A) w others :
  (forall pending, isAvailability (task pending) = false) ->
  (forall pending, keepsLoadingP pending -> wellFormed (task pending)) ->
  keepsLoading p ->
  Forall wellFormed others ->
  flagMatches w (length (List.filter isAvailability others)) ->
  invariant (fst (advance task settled p w others)).
Proof.
  intros Hkind Hwf Hp Hothers Hflag. unfold advance.
  destruct (runSync_keeps p w Hp) as [Hw Hk].
  destruct (runSync p w) as [w' [r | pending]]; simpl in *.
  - split; [assumption|]. unfold flagMatches, availabilityCalls in *. simpl.
    rewrite Hw. assumption.
  - split.
    + simpl. apply Forall_app. split; [assumption|].
      constructor; [apply Hwf, Hk | constructor].
    + unfold flagMatches, availabilityCalls in *. simpl.
      rewrite count_app. unfold weight. rewrite Hkind, Hw.
      rewrite Nat.add_0_r. assumption.
Qed.

(** An availability call going on inside its [try ... finally], with the
    flag set and no other availability call in flight. *)
Lemma advance_guarded (p : Prog Body) w others :
  keepsLoading p ->
  World.isLoading w = true ->
  Forall wellFormed others ->
  length (List.filter isAvailability others) = 0%nat ->
  invariant (fst (advance TAvailability SettledBody
                          (tryFinally p (World.setLoading false)) w others)).
Proof.
  intros Hp Hbusy Hothers Hnone. unfold advance.
  rewrite runSync_tryFinally.
  destruct (runSync_keeps p w Hp) as [Hw Hk].
  destruct (runSync p w) as [w' [r | pending]]; simpl in *.
  - split; [assumption|]. left. split; [reflexivity | assumption].
  - split.
    + simpl. apply Forall_app. split; [assumption|].
      constructor; [|constructor]. exists pending. split; [reflexivity | assumption].
    + right. unfold availabilityCalls. simpl. rewrite count_app, Hnone.
      split; [congruence | reflexivity].
Qed.

Lemma invoke_invariant c cfg : invariant cfg -> invariant (fst (invoke c cfg)).
Proof.
  intros [Hwf Hflag]. destruct c; unfold invoke.
  - unfold advance.
    destruct (World.isLoading (world cfg)) eqn:Hbusy.
    + rewrite checkAvailability_busy by assumption. simpl.
      destruct cfg. split; assumption.
    + rewrite checkAvailability_idle by assumption.
      apply advance_guarded.
      * apply keepsLoading_tryCatch;
          [apply keepsLoading_availabilityBody | intros; exact I].
      * reflexivity.
      * assumption.
      * destruct Hflag as [[_ Hnone] | [Htrue _]]; [exact Hnone | congruence].
  - apply advance_other; auto using keepsLoading_checkSeatMap.
  - apply advance_other; auto using keepsLoading_allocateSeat.
  - apply advance_other; auto using keepsLoading_deallocateSeat.
Qed.

Lemma settle_invariant i answer cfg :
  invariant cfg -> invariant (fst (settle i answer cfg)).
Proof.
  intros [Hwf Hflag]. unfold settle.
  destruct (inFlight cfg !! i) as [t|] eqn:Hi; [|split; assumption].
  pose proof (count_delete _ _ _ Hi) as Hcount.
  pose proof (wellFormed_delete _ i Hwf) as Hothers.
  assert (Ht : wellFormed t).
  { exact (Forall_lookup_1 _ _ _ _ Hwf Hi). }
  unfold flagMatches, availabilityCalls in Hflag.
  destruct t as [p | p | p | p]; unfold settleTask; simpl in Ht;
    unfold weight in Hcount; simpl in Hcount.
  - destruct Ht as (inner & -> & Hinner). rewrite resume_guarded.
    destruct (resume inner answer) as [next|] eqn:Hnext; simpl;
      [|split; assumption].
    apply advance_guarded.
    + eapply resume_keeps; eassumption.
    + destruct Hflag as [[_ Hnone] | [Htrue _]]; [lia | exact Htrue].
    + assumption.
    + destruct Hflag as [[_ Hnone] | [_ Hone]]; lia.
  - destruct (resume p answer) as [next|] eqn:Hnext; [|split; assumption].
    apply advance_other; auto.
    + eapply resume_keeps; eassumption.
    + rewrite Nat.add_0_r in Hcount. rewrite <- Hcount. exact Hflag.
  - destruct (resume p answer) as [next|] eqn:Hnext; [|split; assumption].
    apply advance_other; auto.
    + eapply resume_keeps; eassumption.
    + rewrite Nat.add_0_r in Hcount. rewrite <- Hcount. exact Hflag.
  - destruct (resume p answer) as [next|] eqn:Hnext; [|split; assumption].
    apply advance_other; auto.
    + eapply resume_keeps; eassumption.
    + rewrite Nat.add_0_r in Hcount. rewrite <- Hcount. exact Hflag.
Qed.

Lemma step_invariant a cfg : invariant cfg -> invariant (fst (step a cfg)).
Proof.
  destruct a; [apply invoke_invariant | apply settle_invariant].
Qed.

Lemma run_invariant actions cfg : invariant cfg -> invariant (run actions cfg).
Proof.
  revert cfg. induction actions as [|a rest IH]; intros cfg Hinv; [exact Hinv|].
  simpl. apply IH, step_invariant, Hinv.
Qed.

Lemma fresh_invariant w : World.isLoading w = false -> invariant (fresh w).
Proof.
  intros Hidle. split; [constructor|]. left. split; [assumption | reflexivity].
Qed.

End ClientFacts.

Module ClientClaims.
Import Client ClientFacts.

(** C3, as the specification states it, fails: while a [checkAvailability]
    call awaits its [fetch], a [checkSeatMap] call is not answered with the
    busy sentinel; it runs, and two requests are in flight.  A
    [checkSeatMap] call on its own is in flight with the flag unset. *)
Lemma seatMap_call_overlaps :
  let first := step (Invoke (CallAvailability Sample.params true))
                    (fresh Sample.page) in
  let second := step (Invoke (CallSeatMap 4711 796 98)) (fst first) in
  let alone := step (Invoke (CallSeatMap 4711 796 98)) (fresh Sample.page) in
  snd first = None
  /\ snd second = None
  /\ (exists k1 k2,
         inFlight (fst second)
         = [TAvailability
              (PFetch (AvailabilityRequest 796 "KONYA" 98 "ANKARA GAR"
                                           "05-03-2025 00:00:00") k1);
            TSeatMap (PFetch (SeatMapRequest 796 98 4711 0) k2)])
  /\ length (inFlight (fst alone)) = 1%nat
  /\ World.isLoading (world (fst alone)) = false.
Proof.
  split; [reflexivity|]. split; [reflexivity|].
  split; [eexists; eexists; reflexivity|].
  split; reflexivity.
Qed.

(** C3, amended. The guard covers [checkAvailability] only.  Whatever calls
    of the four functions are made on a client that starts idle, and however
    the environment settles what they await: at most one [checkAvailability]
    call is in flight; the in-flight flag is true exactly while one is; a
    [checkAvailability] call made while the flag is true returns [null] at
    once and changes nothing; one made while it is false sets the flag and
    is suspended; and when the call in flight ends, by returning or by
    throwing, the flag is false again. *)
Theorem availability_calls_never_overlap
        (w : World.t) (actions : list Action)
        (Hidle : World.isLoading w = false) :
  let cfg := run actions (fresh w) in
  (availabilityCalls cfg <= 1)%nat
  /\ (World.isLoading (world cfg) = true <-> availabilityCalls cfg = 1%nat)
  /\ (World.isLoading (world cfg) = true ->
      forall params skipDelay,
        invoke (CallAvailability params skipDelay) cfg
        = (cfg, Some (SettledBody (Returned BNull))))
  /\ (World.isLoading (world cfg) = false ->
      forall params skipDelay,
        snd (invoke (CallAvailability params skipDelay) cfg) = None
        /\ World.isLoading
             (world (fst (invoke (CallAvailability params skipDelay) cfg)))
           = true)
  /\ (forall i p answer cfg' r,
         inFlight cfg !! i = Some (TAvailability p) ->
         step (Settle i answer) cfg = (cfg', Some r) ->
         World.isLoading (world cfg') = false).
Proof.
  intros cfg.
  assert (Hinv : invariant cfg) by (apply run_invariant, fresh_invariant, Hidle).
  destruct Hinv as [Hwf Hflag].
  split; [|split; [|split; [|split]]].
  - destruct Hflag as [[_ ->] | [_ ->]]; lia.
  - destruct Hflag as [[Hf Hc] | [Hf Hc]]; rewrite Hf, Hc; split; congruence.
  - intros Hbusy params skipDelay. simpl. unfold advance.
    rewrite checkAvailability_busy by assumption. destruct cfg. reflexivity.
  - intros Hfree params skipDelay. simpl. unfold advance.
    rewrite checkAvailability_idle by assumption.
    destruct skipDelay; simpl; split; reflexivity.
  - intros i p answer cfg' r Hi Hstep.
    pose proof (settle_invariant i answer cfg (conj Hwf Hflag)) as [_ Hafter].
    pose proof (count_delete _ _ _ Hi) as Hcount.
    unfold weight in Hcount. simpl in Hcount.
    simpl in Hstep. unfold settle in *. rewrite Hi in *.
    unfold settleTask, advance in *.
    destruct (resume p answer) as [next|]; [|discriminate Hstep].
    destruct (runSync next (world cfg)) as [w' [res | pending]];
      [|discriminate Hstep].
    injection Hstep as <- _. simpl in *.
    unfold flagMatches, availabilityCalls in *. simpl in *.
    destruct Hafter as [[Hf _] | [_ Hone]]; [exact Hf|].
    destruct Hflag as [[_ Hc] | [_ Hc]]; lia.
Qed.

Lemma availability_calls_never_overlap_witness :
  let cfg := run [Invoke (CallAvailability Sample.params true);
                  Invoke (CallSeatMap 4711 796 98)]
                 (fresh Sample.page) in
  availabilityCalls cfg = 1%nat
  /\ invoke (CallAvailability Sample.params false) cfg
     = (cfg, Some (SettledBody (Returned BNull)))
  /\ World.isLoading
       (world (run [Invoke (CallAvailability Sample.params true);
                    Settle 0 (FetchSettled (Sample.offline 0%nat
                                (SeatMapRequest 0 0 0 0)))]
                   (fresh Sample.page)))
     = false.
Proof.
  intros cfg.
  destruct (availability_calls_never_overlap
              Sample.page
              [Invoke (CallAvailability Sample.params true);
               Invoke (CallSeatMap 4711 796 98)] eq_refl)
    as (_ & Hiff & Hbusy & _).
  split; [apply Hiff; reflexivity|].
  split; [apply Hbusy; reflexivity | reflexivity].
Defined.

End ClientClaims.

(* ===================================================================== *)
(** * Further properties of api.js                                        *)
(* ===================================================================== *)

Module ApiFacts.
Import ApiSpec.

(** The error branch of the three functions always throws the HTTP error,
    whether the error body parses or not, and makes no request. *)
Lemma execFrom_failWith {A} server response what
      (handler : Error.t -> Prog A) w fetched done :
  execFrom server (tryCatch (TrainAPI.failWith response what) handler) w fetched done
  = execFrom server (handler (TrainAPI.httpError (Response.status response) what))
             w fetched done.
Proof.
  unfold TrainAPI.failWith. simpl. destruct (Response.json response); reflexivity.
Qed.

Lemma execFrom_checkSeatMap server trainId fromStationId toStationId w fetched done :
  execFrom server (TrainAPI.checkSeatMap trainId fromStationId toStationId)
           w fetched done
  = {| Run.final := w;
       Run.outcome :=
         Returned (bodyOrNull
                     (server fetched
                             (SeatMapRequest fromStationId toStationId trainId 0)));
       Run.trace :=
         rev done ++ [Fetched (SeatMapRequest fromStationId toStationId trainId 0)] |}.
Proof.
  unfold TrainAPI.checkSeatMap, bodyOrNull. simpl.
  destruct (server fetched _) as [e | response]; simpl; [reflexivity|].
  destruct (Response.ok response); simpl.
  - destruct (Response.json response); reflexivity.
  - destruct (Response.json response); reflexivity.
Qed.

Lemma execFrom_allocateSeat server seatData w fetched done :
  execFrom server (TrainAPI.allocateSeat seatData) w fetched done
  = {| Run.final := w;
       Run.outcome := Returned (bodyOrNull (server fetched (allocateRequest seatData)));
       Run.trace := rev done ++ [Fetched (allocateRequest seatData)] |}.
Proof.
  unfold TrainAPI.allocateSeat, bodyOrNull, allocateRequest. simpl.
  destruct (server fetched _) as [e | response]; simpl; [reflexivity|].
  destruct (Response.ok response); simpl.
  - destruct (Response.json response); reflexivity.
  - destruct (Response.json response); reflexivity.
Qed.

Lemma execFrom_deallocateSeat server data w fetched done :
  execFrom server (TrainAPI.deallocateSeat data) w fetched done
  = {| Run.final := w;
       Run.outcome :=
         releasedOrError
           (server fetched
                   (DeallocateRequest (AllocationData.trainCarId data)
                                      (AllocationData.allocationId data)
                                      (AllocationData.seatNumber data)));
       Run.trace :=
         rev done ++ [Fetched (DeallocateRequest (AllocationData.trainCarId data)
                                                 (AllocationData.allocationId data)
                                                 (AllocationData.seatNumber data))] |}.
Proof.
  unfold TrainAPI.deallocateSeat, releasedOrError. simpl.
  destruct (server fetched _) as [e | response]; simpl; [reflexivity|].
  destruct (Response.ok response); simpl; [reflexivity|].
  destruct (Response.json response); reflexivity.
Qed.

(** X1. [checkSeatMap] never throws and never touches the state of the page:
    it makes exactly one request and returns the parsed body when the
    response is a success whose body parses, and [null] in every other case
    (rejected request, error status, unreadable body). *)
Theorem checkSeatMap_never_throws
        (server : Server) (trainId fromStationId toStationId : Z) (w : World.t) :
  let run := exec server (TrainAPI.checkSeatMap trainId fromStationId toStationId) w in
  let request := SeatMapRequest fromStationId toStationId trainId 0 in
  Run.trace run = [Fetched request]
  /\ Run.final run = w
  /\ Run.outcome run = Returned (bodyOrNull (server 0%nat request))
  /\ (forall e, server 0%nat request = Rejected e -> Run.outcome run = Returned BNull)
  /\ (forall response,
         server 0%nat request = Resolved response ->
         Response.ok response = false ->
         Run.outcome run = Returned BNull).
Proof.
  intros run request. subst run. unfold exec.
  rewrite execFrom_checkSeatMap. simpl. fold request.
  repeat split.
  - intros e ->. reflexivity.
  - intros response -> Hok. simpl. rewrite Hok. reflexivity.
Qed.

(** X2. [allocateSeat] never throws and never touches the state of the page:
    it makes exactly one request, in which a missing or empty gender is "M",
    a missing or zero passenger count is 1 and a missing passenger type or
    fare family is 0, and returns the parsed body of a successful response and
    [null] in every other case. *)
Theorem allocateSeat_never_throws
        (server : Server) (seatData : SeatData.t) (w : World.t) :
  let run := exec server (TrainAPI.allocateSeat seatData) w in
  Run.trace run = [Fetched (allocateRequest seatData)]
  /\ Run.final run = w
  /\ Run.outcome run
     = Returned (bodyOrNull (server 0%nat (allocateRequest seatData)))
  /\ (forall trainCarId fromStationId toStationId seatNumber,
         allocateRequest {| SeatData.trainCarId := trainCarId;
                            SeatData.fromStationId := fromStationId;
                            SeatData.toStationId := toStationId;
                            SeatData.gender := None;
                            SeatData.seatNumber := seatNumber;
                            SeatData.passengerTypeId := None;
                            SeatData.totalPassengerCount := None;
                            SeatData.fareFamilyId := None |}
         = AllocateRequest trainCarId fromStationId toStationId "M" seatNumber 0 1 0).
Proof.
  intros run. subst run. unfold exec. rewrite execFrom_allocateSeat.
  repeat split.
Qed.

(** X3. [deallocateSeat] makes exactly one request and never touches the
    state of the page; it returns [{ success: true }] exactly when the request
    resolves with a success status, without reading the body; a rejected
    request throws its error and an error status throws "HTTP <status>:
    Deallocation request failed". *)
Theorem deallocateSeat_outcomes
        (server : Server) (data : AllocationData.t) (w : World.t) :
  let run := exec server (TrainAPI.deallocateSeat data) w in
  let request := DeallocateRequest (AllocationData.trainCarId data)
                                   (AllocationData.allocationId data)
                                   (AllocationData.seatNumber data) in
  Run.trace run = [Fetched request]
  /\ Run.final run = w
  /\ Run.outcome run = releasedOrError (server 0%nat request)
  /\ (Run.outcome run = Returned true
      <-> exists response, server 0%nat request = Resolved response
                           /\ Response.ok response = true)
  /\ (forall response,
         server 0%nat request = Resolved response ->
         Response.ok response = false ->
         Run.outcome run
         = Thrown {| Error.message :=
                       "HTTP " +:+ pretty (Response.status response)
                               +:+ ": Deallocation request failed" |}).
Proof.
  intros run request. subst run. unfold exec.
  rewrite execFrom_deallocateSeat. simpl. fold request.
  split; [reflexivity|]. split; [reflexivity|]. split; [reflexivity|]. split.
  - unfold releasedOrError. destruct (server 0%nat request) as [e | response].
    + split; [discriminate | intros (r & Hr & _); discriminate].
    + destruct (Response.ok response) eqn:Hok.
      * split; [eauto | reflexivity].
      * split; [discriminate|]. intros (r & Hr & Hrok). congruence.
  - intros response -> Hok. simpl. rewrite Hok. reflexivity.
Qed.

(** X4. A [checkAvailability] call on a client that is not busy makes
    exactly one request, after one sleep unless [skipDelay] is set, and the
    in-flight flag is false again when the call is over, however it ends.  It
    returns the parsed body of a successful response; it throws the error of a
    rejected request and of a body that does not parse, and "HTTP <status>:
    API request failed" for an error status.  Apart from the random outcome a
    delayed call consumes, the state of the page is as it was. *)
Theorem checkAvailability_outcomes
        (server : Server) (params : SearchParams.t) (skipDelay : bool) (w : World.t)
        (Hidle : World.isLoading w = false) :
  let run := exec server (TrainAPI.checkAvailability params skipDelay) w in
  Trace.requests (Run.trace run) = [availabilityRequest params]
  /\ length (Trace.sleeps (Run.trace run)) = (if skipDelay then 0 else 1)%nat
  /\ Run.outcome run = bodyOrError (server 0%nat (availabilityRequest params))
  /\ World.isLoading (Run.final run) = false
  /\ Run.final run = (if skipDelay then w else World.drawn w)
  /\ (forall response,
         server 0%nat (availabilityRequest params) = Resolved response ->
         Response.ok response = false ->
         Run.outcome run
         = Thrown {| Error.message :=
                       "HTTP " +:+ pretty (Response.status response)
                               +:+ ": API request failed" |}).
Proof.
  intros run.
  assert (Hrun : Trace.requests (Run.trace run) = [availabilityRequest params]
                 /\ length (Trace.sleeps (Run.trace run))
                    = (if skipDelay then 0 else 1)%nat
                 /\ Run.outcome run
                    = bodyOrError (server 0%nat (availabilityRequest params))
                 /\ Run.final run = (if skipDelay then w else World.drawn w)).
  { subst run. unfold exec, TrainAPI.checkAvailability, bodyOrError.
    simpl. rewrite Hidle.
    destruct w as [loading alloc interval searching first timers outcomes drawn now calls].
    simpl in Hidle. subst loading.
    destruct skipDelay; simpl;
      (destruct (server 0%nat _) as [e | response]; simpl; [auto|]);
      (destruct (Response.ok response); simpl; [|auto]);
      destruct (Response.json response); simpl; auto. }
  destruct Hrun as (Hreq & Hsleep & Hout & Hfinal).
  split; [exact Hreq|]. split; [exact Hsleep|]. split; [exact Hout|].
  split; [|split; [exact Hfinal|]].
  - rewrite Hfinal. destruct skipDelay; [exact Hidle | exact Hidle].
  - intros response Hserver Hok. rewrite Hout, Hserver. simpl.
    rewrite Hok. reflexivity.
Qed.

Lemma checkAvailability_outcomes_witness :
  let run := exec Sample.failing (TrainAPI.checkAvailability Sample.params true)
                  Sample.page in
  Run.outcome run = Thrown {| Error.message := "HTTP 500: API request failed" |}
  /\ World.isLoading (Run.final run) = false.
Proof.
  intros run.
  destruct (checkAvailability_outcomes Sample.failing Sample.params true
                                       Sample.page eq_refl)
    as (_ & _ & _ & Hflag & _ & Hstatus).
  split; [|exact Hflag].
  exact (Hstatus _ eq_refl eq_refl).
Defined.

End ApiFacts.

(* ===================================================================== *)
(** * Further properties of the allocation tracker                        *)
(* ===================================================================== *)

Module TrackerFacts.
Import TrackerSpec.

(** An allocation attempt run alone does what [attempt] says. *)
Lemma exec_checkAndAllocateFirstSeat server trainInfo params w :
  exec server (SeatAllocationManager.checkAndAllocateFirstSeat trainInfo params) w
  = attempt server trainInfo params w.
Proof.
  unfold exec, SeatAllocationManager.checkAndAllocateFirstSeat, attempt, granted,
    seatMapRequest, selectSeatRequest, ApiSpec.bodyOrNull.
  simpl.
  destruct (server 0%nat _) as [e | r0]; simpl; [reflexivity|].
  destruct (Response.ok r0); simpl;
    [|destruct (Response.json r0); reflexivity].
  destruct (Response.json r0) as [body | e]; simpl; [|reflexivity].
  destruct (SeatAllocationManager.seatMapsOf body) as [seatMaps|]; [|reflexivity].
  destruct (SeatLocator.findFirstAvailableSeat _ _) as [seat|]; [|reflexivity].
  simpl.
  destruct (server 1%nat _) as [e | r1]; simpl; [reflexivity|].
  destruct (Response.ok r1); simpl;
    [|destruct (Response.json r1); reflexivity].
  destruct (Response.json r1) as [body1 | e]; simpl; [|reflexivity].
  destruct (SeatAllocationManager.allocationOf body1) as [[allocationId lockFor]|];
    reflexivity.
Qed.

(** X5. [checkAndAllocateFirstSeat] never throws: it returns a result
    object after one or two requests.  A failure comes back with
    [success = false] and no seat information and leaves the state of the
    page exactly as it was; a success returns the allocation it has just
    stored. *)
Theorem checkAndAllocateFirstSeat_never_throws
        (server : Server) (trainInfo : TrainInfo.t) (params : SearchParams.t)
        (w : World.t) :
  let run := exec server
                  (SeatAllocationManager.checkAndAllocateFirstSeat trainInfo params)
                  w in
  exists result,
    Run.outcome run = Returned result
    /\ (Outcome.success result = false ->
        Run.final run = w /\ Outcome.seatInfo result = None)
    /\ (Outcome.success result = true ->
        Outcome.seatInfo result = World.allocatedSeat (Run.final run)
        /\ Outcome.seatInfo result <> None)
    /\ (1 <= Trace.fetchCount (Run.trace run) <= 2)%nat.
Proof.
  intros run. subst run. rewrite exec_checkAndAllocateFirstSeat. unfold attempt.
  assert (Hcount1 : (1 <= 1 <= 2)%nat) by lia.
  assert (Hcount2 : (1 <= 2 <= 2)%nat) by lia.
  destruct (SeatAllocationManager.seatMapsOf _) as [seatMaps|].
  2:{ eexists. split; [reflexivity|]. simpl.
      split; [intros _; auto|]. split; [discriminate | exact Hcount1]. }
  destruct (SeatLocator.findFirstAvailableSeat _ _) as [seat|].
  2:{ eexists. split; [reflexivity|]. simpl.
      split; [intros _; auto|]. split; [discriminate | exact Hcount1]. }
  destruct (granted server seat params) as [[allocationId lockFor]|].
  - eexists. split; [reflexivity|]. simpl.
    split; [discriminate|]. split; [|exact Hcount2].
    intros _. split; [reflexivity | discriminate].
  - eexists. split; [reflexivity|]. simpl.
    split; [intros _; auto|]. split; [discriminate | exact Hcount2].
Qed.

Lemma allocationOf_Some body allocationId lockFor :
  SeatAllocationManager.allocationOf body = Some (allocationId, lockFor) ->
  allocationId <> 0 /\ lockFor <> 0
  /\ exists d,
      body = BAllocation d
      /\ AllocationResult.allocationId d = Some allocationId
      /\ lockFor = Js.orNum (AllocationResult.lockFor d) 10.
Proof.
  unfold SeatAllocationManager.allocationOf.
  destruct body as [| | |d]; try discriminate.
  destruct (AllocationResult.allocationId d) as [i|] eqn:Hid; [|discriminate].
  unfold Js.truthyNum. destruct (i =? 0) eqn:Hz; simpl; [discriminate|].
  intros [= <- <-]. apply Z.eqb_neq in Hz.
  split; [exact Hz|]. split; [|exists d; auto].
  unfold Js.orNum, Js.truthyNum.
  destruct (AllocationResult.lockFor d) as [l|]; [|discriminate].
  destruct (l =? 0) eqn:Hl; simpl; [discriminate|]. apply Z.eqb_neq, Hl.
Qed.

(** X6. When [checkAndAllocateFirstSeat] succeeds, the seat it requested and
    stored is the seat the locator chose in the seat map the service answered
    with: a seat of that map that is saleable, of a selected class, numbered
    and not occupied.  The stored allocation carries the train of the search
    result, the allocation id the service granted, which is not zero, and a
    hold that is never zero: the one the service named, or 10 when it named
    none. *)
Theorem checkAndAllocateFirstSeat_success
        (server : Server) (trainInfo : TrainInfo.t) (params : SearchParams.t)
        (w : World.t) (result : Outcome.t)
        (Hrun : Run.outcome
                  (exec server
                        (SeatAllocationManager.checkAndAllocateFirstSeat
                           trainInfo params) w)
                = Returned result)
        (Hsuccess : Outcome.success result = true) :
  let run := exec server
                  (SeatAllocationManager.checkAndAllocateFirstSeat trainInfo params)
                  w in
  exists seatMaps seat seatMap seatItem allocationId lockFor granted,
    SeatAllocationManager.seatMapsOf
      (ApiSpec.bodyOrNull (server 0%nat (seatMapRequest trainInfo params)))
    = Some seatMaps
    /\ SeatLocator.findFirstAvailableSeat
         seatMaps (SearchParams.selectedCabinClasses params) = Some seat
    /\ In (seatMap, seatItem) (SeatLocator.seatsInOrder seatMaps)
    /\ SeatLocator.acceptable (SearchParams.selectedCabinClasses params)
                              (seatMap, seatItem)
    /\ SeatLocator.describes seat (seatMap, seatItem)
    /\ Trace.requests (Run.trace run)
       = [seatMapRequest trainInfo params; selectSeatRequest seat params]
    /\ ApiSpec.bodyOrNull (server 1%nat (selectSeatRequest seat params))
       = BAllocation granted
    /\ AllocationResult.allocationId granted = Some allocationId
    /\ lockFor = Js.orNum (AllocationResult.lockFor granted) 10
    /\ allocationId <> 0 /\ lockFor <> 0
    /\ World.allocatedSeat (Run.final run)
       = Some (stored trainInfo seat allocationId lockFor)
    /\ Outcome.seatInfo result = Some (stored trainInfo seat allocationId lockFor).
Proof.
  intros run. subst run. revert Hrun.
  rewrite exec_checkAndAllocateFirstSeat. unfold attempt.
  destruct (SeatAllocationManager.seatMapsOf _) as [seatMaps|] eqn:Hmaps;
    [|simpl; intros [= <-]; discriminate].
  destruct (SeatLocator.findFirstAvailableSeat _ _) as [seat|] eqn:Hseat;
    [|simpl; intros [= <-]; discriminate].
  destruct (granted server seat params) as [[allocationId lockFor]|] eqn:Hgranted;
    [|simpl; intros [= <-]; discriminate].
  simpl. intros [= <-].
  pose proof (SeatLocatorFacts.scanCars_first
                (SearchParams.selectedCabinClasses params) seatMaps) as Hfirst.
  unfold SeatLocator.findFirstAvailableSeat in Hseat. rewrite Hseat in Hfirst.
  destruct Hfirst as (before & [seatMap seatItem] & after & Horder & Hok & Hdesc & _).
  unfold granted in Hgranted.
  apply allocationOf_Some in Hgranted as (Hid & Hlock & d & Hbody & Hdid & Hdlock).
  exists seatMaps, seat, seatMap, seatItem, allocationId, lockFor, d.
  split; [reflexivity|]. split; [exact Hseat|].
  split; [rewrite Horder; apply in_elt|].
  repeat (split; [assumption || reflexivity|]). reflexivity.
Qed.

Lemma checkAndAllocateFirstSeat_success_witness :
  let run := exec Sample.granting
                  (SeatAllocationManager.checkAndAllocateFirstSeat
                     Sample.trainInfo Sample.params)
                  Sample.page in
  exists seat allocation,
    Trace.requests (Run.trace run)
    = [seatMapRequest Sample.trainInfo Sample.params;
       selectSeatRequest seat Sample.params]
    /\ SeatCandidate.seatNumber seat = "2B"
    /\ World.allocatedSeat (Run.final run) = Some allocation
    /\ Allocation.seatNumber allocation = "2B"
    /\ Allocation.allocationId allocation = 77
    /\ Allocation.lockFor allocation = 10.
Proof.
  intros run.
  destruct (checkAndAllocateFirstSeat_success
              Sample.granting Sample.trainInfo Sample.params Sample.page
              _ eq_refl eq_refl)
    as (seatMaps & seat & seatMap & seatItem & allocationId & lockFor & granted
        & Hmaps & Hseat & _ & _ & _ & Hreq & Hbody & Hid & Hlock & _ & _ & Hstored & _).
  exists seat, (stored Sample.trainInfo seat allocationId lockFor).
  simpl in Hmaps. injection Hmaps as <-.
  vm_compute in Hseat. injection Hseat as <-.
  vm_compute in Hbody. injection Hbody as <-.
  vm_compute in Hid. injection Hid as <-.
  vm_compute in Hlock. subst lockFor.
  split; [exact Hreq|]. split; [reflexivity|]. split; [exact Hstored|].
  split; [reflexivity|]. split; reflexivity.
Defined.

(** X7. [checkAndAllocateFirstSeat] asks the service to hold a seat only
    after the locator has chosen one: when the seat map is unavailable or has
    no free seat in the selected classes, the seat-map request is the only
    request and the failure message names the cause; when a seat was located,
    the second request asks for that seat, on the route of the search, for
    one passenger. *)
Theorem checkAndAllocateFirstSeat_requests
        (server : Server) (trainInfo : TrainInfo.t) (params : SearchParams.t)
        (w : World.t) :
  let run := exec server
                  (SeatAllocationManager.checkAndAllocateFirstSeat trainInfo params)
                  w in
  let answer := ApiSpec.bodyOrNull (server 0%nat (seatMapRequest trainInfo params)) in
  (SeatAllocationManager.seatMapsOf answer = None ->
   Trace.requests (Run.trace run) = [seatMapRequest trainInfo params]
   /\ Run.outcome run
      = Returned (SeatAllocationManager.failure "Koltuk haritası alınamadı"))
  /\ (forall seatMaps,
         SeatAllocationManager.seatMapsOf answer = Some seatMaps ->
         SeatLocator.findFirstAvailableSeat
           seatMaps (SearchParams.selectedCabinClasses params) = None ->
         Trace.requests (Run.trace run) = [seatMapRequest trainInfo params]
         /\ Run.outcome run
            = Returned (SeatAllocationManager.failure
                          "Seçilen kategorilerde boş koltuk bulunamadı"))
  /\ (forall seatMaps seat,
         SeatAllocationManager.seatMapsOf answer = Some seatMaps ->
         SeatLocator.findFirstAvailableSeat
           seatMaps (SearchParams.selectedCabinClasses params) = Some seat ->
         Trace.requests (Run.trace run)
         = [seatMapRequest trainInfo params;
            AllocateRequest (SeatCandidate.trainCarId seat)
                            (SearchParams.departureStationId params)
                            (SearchParams.arrivalStationId params)
                            "M" (SeatCandidate.seatNumber seat) 0 1 0]
         /\ (granted server seat params = None ->
             Run.outcome run
             = Returned (SeatAllocationManager.failure
                           "Koltuk tutma işlemi başarısız oldu"))).
Proof.
  intros run answer. subst run answer.
  rewrite exec_checkAndAllocateFirstSeat. unfold attempt.
  split; [|split].
  - intros ->. split; reflexivity.
  - intros seatMaps -> ->. split; reflexivity.
  - intros seatMaps seat -> ->.
    destruct (granted server seat params) as [[allocationId lockFor]|];
      (split; [reflexivity|]); [discriminate | reflexivity].
Qed.

(** X8. Allocate, then release: when an allocation attempt succeeded, a
    following [releaseSeat] sends exactly one release request, which names
    the car and the seat that were requested and the allocation id the
    service granted; when the service accepts it the tracker is empty again,
    and when it does not the allocation stays as stored. *)
Theorem allocate_then_release
        (server later : Server) (trainInfo : TrainInfo.t) (params : SearchParams.t)
        (w : World.t) (allocation : Allocation.t)
        (Hstored : World.allocatedSeat
                     (Run.final
                        (exec server
                              (SeatAllocationManager.checkAndAllocateFirstSeat
                                 trainInfo params) w))
                   = Some allocation)
        (Hempty : World.allocatedSeat w = None) :
  let attempted := exec server
                        (SeatAllocationManager.checkAndAllocateFirstSeat
                           trainInfo params) w in
  let released := exec later SeatAllocationManager.releaseSeat
                       (Run.final attempted) in
  exists seat allocationId,
    Trace.requests (Run.trace attempted)
    = [seatMapRequest trainInfo params; selectSeatRequest seat params]
    /\ Allocation.allocationId allocation = allocationId
    /\ Run.trace released
       = [Fetched (DeallocateRequest (SeatCandidate.trainCarId seat) allocationId
                                     (SeatCandidate.seatNumber seat))]
    /\ (ApiSpec.releasedOrError
          (later 0%nat (DeallocateRequest (SeatCandidate.trainCarId seat)
                                          allocationId
                                          (SeatCandidate.seatNumber seat)))
        = Returned true ->
        World.allocatedSeat (Run.final released) = None
        /\ Run.final released = w
        /\ exists result, Run.outcome released = Returned result
                          /\ Outcome.success result = true)
    /\ (forall e,
           ApiSpec.releasedOrError
             (later 0%nat (DeallocateRequest (SeatCandidate.trainCarId seat)
                                             allocationId
                                             (SeatCandidate.seatNumber seat)))
           = Thrown e ->
           World.allocatedSeat (Run.final released) = Some allocation
           /\ Run.outcome released
              = Returned (SeatAllocationManager.failure
                            ("Hata: " +:+ Error.message e))).
Proof.
  intros attempted released. subst released attempted. revert Hstored.
  rewrite exec_checkAndAllocateFirstSeat. unfold attempt.
  destruct (SeatAllocationManager.seatMapsOf _) as [seatMaps|];
    [|simpl; congruence].
  destruct (SeatLocator.findFirstAvailableSeat _ _) as [seat|];
    [|simpl; congruence].
  destruct (granted server seat params) as [[allocationId lockFor]|];
    [|simpl; congruence].
  simpl. intros [= <-].
  exists seat, allocationId.
  split; [reflexivity|]. split; [reflexivity|].
  unfold exec, SeatAllocationManager.releaseSeat, ApiSpec.releasedOrError. simpl.
  destruct (later 0%nat _) as [e | response]; simpl.
  - split; [reflexivity|]. split; [discriminate|].
    intros e' [= <-]. split; reflexivity.
  - destruct (Response.ok response); simpl.
    + split; [reflexivity|]. split; [|discriminate].
      intros _. split; [reflexivity|]. split; [|eexists; split; reflexivity].
      destruct w. simpl in *. subst. reflexivity.
    + destruct (Response.json response); simpl;
        (split; [reflexivity|]); (split; [discriminate|]);
        intros e' [= <-]; split; reflexivity.
Qed.

Lemma allocate_then_release_witness :
  let attempted := exec Sample.granting
                        (SeatAllocationManager.checkAndAllocateFirstSeat
                           Sample.trainInfo Sample.params) Sample.page in
  let released := exec Sample.granting SeatAllocationManager.releaseSeat
                       (Run.final attempted) in
  Trace.requests (Run.trace released) = [DeallocateRequest 32 77 "2B"]
  /\ World.allocatedSeat (Run.final released) = None.
Proof.
  intros attempted released. split; [reflexivity|].
  destruct (allocate_then_release
              Sample.granting Sample.granting Sample.trainInfo Sample.params
              Sample.page _ eq_refl eq_refl)
    as (seat & allocationId & _ & _ & _ & Hok & _).
  reflexivity.
Defined.

End TrackerFacts.

(* ===================================================================== *)
(** * Further properties of the result filter                             *)
(* ===================================================================== *)

Module FilterMore.
Import Filter FilterSpec.

Lemma fold_left_sum {A} (f : A -> Z) (l : list A) (start : Z) :
  fold_left (fun sum x => sum + f x) l start = start + sumOver f l.
Proof.
  revert start. induction l as [|x l IH]; intros start; simpl; [lia|].
  rewrite IH. lia.
Qed.

Lemma sumOver_cons {A} (f : A -> Z) (x : A) (l : list A) :
  sumOver f (x :: l) = f x + sumOver f l.
Proof. reflexivity. Qed.

Lemma sumOver_app {A} (f : A -> Z) (l1 l2 : list A) :
  sumOver f (l1 ++ l2) = sumOver f l1 + sumOver f l2.
Proof.
  induction l1 as [|x l1 IH]; [simpl; lia|].
  rewrite <- app_comm_cons, !sumOver_cons, IH. lia.
Qed.

Lemma omap_cons {A B} (f : A -> option B) (x : A) (l : list A) :
  omap f (x :: l)
  = match f x with Some y => y :: omap f l | None => omap f l end.
Proof. reflexivity. Qed.

Lemma sumOver_le {A} (f g : A -> Z) (l : list A) :
  (forall x, In x l -> f x <= g x) -> sumOver f l <= sumOver g l.
Proof.
  induction l as [|x l IH]; intros Hle; simpl; [lia|].
  pose proof (Hle x (or_introl eq_refl)).
  assert (sumOver f l <= sumOver g l) by (apply IH; intros; apply Hle; right; assumption).
  lia.
Qed.

Lemma sumOver_eq {A} (f g : A -> Z) (l : list A) :
  (forall x, In x l -> f x = g x) -> sumOver f l = sumOver g l.
Proof.
  induction l as [|x l IH]; intros Heq; simpl; [reflexivity|].
  rewrite (Heq x (or_introl eq_refl)), IH; [reflexivity|].
  intros; apply Heq; right; assumption.
Qed.

Lemma selectedSeats_sum info :
  selectedSeats info = sumOver selectedCount (TrainInfo.cabinClasses info).
Proof.
  unfold selectedSeats. rewrite fold_left_sum.
  induction (TrainInfo.cabinClasses info) as [|c cs IH]; simpl; [reflexivity|].
  unfold selectedCount at 1. destruct (Cabin.isSelected c); simpl in *; lia.
Qed.

Lemma recount_cabins_sum cabins total :
  fold_left
    (fun total cabin =>
       if Cabin.isSelected cabin && (0 <? Cabin.availability cabin)
       then total + Cabin.availability cabin else total)
    cabins total
  = total + sumOver availableCount cabins.
Proof.
  revert total. induction cabins as [|c cs IH]; intros total; simpl; [lia|].
  rewrite IH. unfold availableCount at 2.
  destruct (Cabin.isSelected c && (0 <? Cabin.availability c)); lia.
Qed.

Lemma recount_trains_sum trains total :
  fold_left
    (fun total train =>
       fold_left
         (fun total cabin =>
            if Cabin.isSelected cabin && (0 <? Cabin.availability cabin)
            then total + Cabin.availability cabin else total)
         (TrainInfo.cabinClasses train) total)
    trains total
  = total + sumOver (fun info => sumOver availableCount (TrainInfo.cabinClasses info))
                    trains.
Proof.
  revert total. induction trains as [|t ts IH]; intros total; simpl; [lia|].
  rewrite IH, recount_cabins_sum. lia.
Qed.

Lemma actualAvailableSeats_sum result :
  actualAvailableSeats result
  = sumOver (fun info => sumOver availableCount (TrainInfo.cabinClasses info))
            (SearchResult.trains result).
Proof. unfold actualAvailableSeats. rewrite recount_trains_sum. lia. Qed.

Section WithClock.
Variable formatTime : Z -> string.
Variables timeStart timeEnd : string.
Variable selected : list string.

(** The running total after a run of trains. *)
Lemma fold_visit_total trains acc :
  SearchResult.totalSeats
    (fold_left (visitTrain formatTime timeStart timeEnd selected) trains acc)
  = SearchResult.totalSeats acc
    + sumOver selectedSeats (omap (kept formatTime timeStart timeEnd selected) trains).
Proof.
  revert acc. induction trains as [|t ts IH]; intros acc; [simpl; lia|].
  cbn [fold_left]. rewrite IH.
  assert (Hstep : SearchResult.totalSeats
                    (visitTrain formatTime timeStart timeEnd selected acc t)
                  = SearchResult.totalSeats acc
                    + match kept formatTime timeStart timeEnd selected t with
                      | Some info => selectedSeats info
                      | None => 0
                      end).
  { unfold visitTrain, kept.
    destruct (processTrainAvailability _ _ _ _ _) as [info|]; simpl; [|lia].
    destruct (hasAvailableSeatsInSelectedClasses info); simpl; lia. }
  rewrite Hstep, omap_cons.
  destruct (kept formatTime timeStart timeEnd selected t);
    rewrite ?sumOver_cons; lia.
Qed.

Lemma fold_groups_total groups acc :
  SearchResult.totalSeats
    (fold_left (visitGroup formatTime timeStart timeEnd selected) groups acc)
  = SearchResult.totalSeats acc
    + sumOver selectedSeats
              (omap (kept formatTime timeStart timeEnd selected)
                    (flat_map trainsOfGroup groups)).
Proof.
  revert acc. induction groups as [|g gs IH]; intros acc; [simpl; lia|].
  cbn [fold_left flat_map]. rewrite IH, omap_app, sumOver_app.
  assert (Hstep : SearchResult.totalSeats
                    (visitGroup formatTime timeStart timeEnd selected acc g)
                  = SearchResult.totalSeats acc
                    + sumOver selectedSeats
                              (omap (kept formatTime timeStart timeEnd selected)
                                    (trainsOfGroup g))).
  { destruct g as [[[ts|]]|]; simpl; try lia. apply fold_visit_total. }
  rewrite Hstep. lia.
Qed.

Lemma processTrainData_total data :
  let result := processTrainData formatTime data timeStart timeEnd selected in
  SearchResult.totalSeats result = sumOver selectedSeats (SearchResult.trains result).
Proof.
  intros result. subst result.
  rewrite FilterFacts.processTrainData_trains.
  unfold processTrainData, rawTrains.
  destruct (allTrainAvailabilities data) as [groups|]; [|reflexivity].
  rewrite fold_groups_total. reflexivity.
Qed.

End WithClock.

(** X9. The [totalSeats] of a result is the sum, over the returned trains,
    of the availability of their selected classes; it is 0 when nothing is
    found.  It never exceeds the count [handleTicketsFound] announces, which
    adds up only the selected classes with seats, and the two agree when no
    availability of a returned selected class is negative. *)
Theorem totalSeats_is_selected_sum
        (formatTime : Z -> string) (data : Availability.t)
        (timeStart timeEnd : string) (selected : list string) :
  let result := processTrainData formatTime data timeStart timeEnd selected in
  SearchResult.totalSeats result
  = sumOver (fun info => sumOver selectedCount (TrainInfo.cabinClasses info))
            (SearchResult.trains result)
  /\ (SearchResult.found result = false -> SearchResult.totalSeats result = 0)
  /\ SearchResult.totalSeats result <= actualAvailableSeats result
  /\ ((forall info cabin,
          In info (SearchResult.trains result) ->
          In cabin (TrainInfo.cabinClasses info) ->
          Cabin.isSelected cabin = true ->
          0 <= Cabin.availability cabin) ->
      SearchResult.totalSeats result = actualAvailableSeats result).
Proof.
  intros result.
  assert (Htotal : SearchResult.totalSeats result
                   = sumOver (fun info => sumOver selectedCount
                                                  (TrainInfo.cabinClasses info))
                             (SearchResult.trains result)).
  { subst result. rewrite processTrainData_total.
    apply sumOver_eq. intros info _. apply selectedSeats_sum. }
  split; [exact Htotal|]. split; [|split].
  - intros Hnot. rewrite Htotal.
    pose proof (FilterFacts.processTrainData_found
                  formatTime timeStart timeEnd selected data) as Hfound.
    fold result in Hfound. rewrite Hnot in Hfound.
    destruct (SearchResult.trains result); [reflexivity | discriminate].
  - rewrite Htotal, actualAvailableSeats_sum.
    apply sumOver_le. intros info _. apply sumOver_le. intros cabin _.
    unfold selectedCount, availableCount.
    destruct (Cabin.isSelected cabin); simpl; [|lia].
    destruct (0 <? Cabin.availability cabin) eqn:Hpos; [lia|].
    apply Z.ltb_ge in Hpos. lia.
  - intros Hnonneg. rewrite Htotal, actualAvailableSeats_sum.
    apply sumOver_eq. intros info Hin. apply sumOver_eq. intros cabin Hc.
    unfold selectedCount, availableCount.
    destruct (Cabin.isSelected cabin) eqn:Hsel; simpl; [|reflexivity].
    specialize (Hnonneg info cabin Hin Hc Hsel).
    destruct (0 <? Cabin.availability cabin) eqn:Hpos; [reflexivity|].
    apply Z.ltb_ge in Hpos. lia.
Qed.

(** ** The catalog *)

(** The catalog has one entry per identifier, so the entry found by
    identifier and the key found by identifier belong together. *)
Lemma findById_key i class :
  Config.findById i = Some class ->
  In i knownClassIds
  /\ Config.id class = i
  /\ exists key, Config.keyOfId i = Some key /\ Config.lookupKey key = Some class.
Proof.
  unfold Config.findById, Config.CABIN_CLASSES. cbn -[Z.eqb].
  repeat match goal with
         | |- context [?k =? i] =>
             let E := fresh "E" in
             destruct (k =? i) eqn:E;
             [apply Z.eqb_eq in E; subst i; intros [= <-];
              split; [simpl; tauto|]; split; [reflexivity|];
              eexists; split; reflexivity
             |]
         end.
  discriminate.
Qed.

Lemma findById_known i :
  In i knownClassIds -> exists class, Config.findById i = Some class.
Proof.
  simpl. intros [<- | [<- | [<- | [<- | [<- | [<- | []]]]]]]; eexists; reflexivity.
Qed.

Lemma includesKey_iff selected key :
  includesKey selected (Some key) = true <-> In key selected.
Proof.
  simpl. rewrite existsb_exists. split.
  - intros (k & Hin & Heq). apply String.eqb_eq in Heq. subst. exact Hin.
  - intros Hin. exists key. split; [exact Hin | apply String.eqb_refl].
Qed.

(** What an entry of [cabinClasses] says. *)
Lemma cabinEntry_Some selected classAvail cabin :
  cabinEntry selected classAvail = Some cabin ->
  exists i key class,
    ClassAvail.cabinClass classAvail = Some i
    /\ In i knownClassIds
    /\ Config.lookupKey key = Some class
    /\ Config.id class = i
    /\ Cabin.classKey cabin = Some key
    /\ Cabin.className cabin = Config.displayName class
    /\ Cabin.availability cabin
       = Js.orNum (ClassAvail.availabilityCount classAvail) 0
    /\ (Cabin.isSelected cabin = true <-> In key selected).
Proof.
  unfold cabinEntry.
  destruct (ClassAvail.cabinClass classAvail) as [i|]; [|discriminate].
  destruct (Config.findById i) as [class|] eqn:Hfind; [|discriminate].
  destruct (findById_key i class Hfind) as (Hknown & Hid & key & Hkey & Hlook).
  rewrite Hkey. intros [= <-]. simpl.
  exists i, key, class. repeat split; try assumption; try reflexivity.
  - intros H. apply (proj1 (includesKey_iff selected key)). exact H.
  - intros H. apply (proj2 (includesKey_iff selected key)). exact H.
Qed.

Lemma cabinEntry_None selected classAvail :
  cabinEntry selected classAvail = None
  <-> ClassAvail.cabinClass classAvail = None
      \/ exists i, ClassAvail.cabinClass classAvail = Some i
                   /\ ~ In i knownClassIds.
Proof.
  unfold cabinEntry.
  destruct (ClassAvail.cabinClass classAvail) as [i|]; [|tauto].
  destruct (Config.findById i) as [class|] eqn:Hfind.
  - split; [discriminate|]. intros [H | (j & [= <-] & Hno)]; [discriminate|].
    exfalso. apply Hno. apply (findById_key i class Hfind).
  - split; [|reflexivity]. intros _. right. exists i. split; [reflexivity|].
    intros Hknown. destruct (findById_known i Hknown) as [c Hc]. congruence.
Qed.

(** X10. The cabin classes of a train info are the class entries of the
    train, in order, whose class is one of the six of the catalog; entries
    without a class or with an unknown class id are dropped.  Each one carries
    the key and the display name of its class in the catalog and the
    availability count of the entry (0 when the count is missing), and it is
    marked selected exactly when its key is among the selected keys. *)
Theorem cabinClasses_from_catalog
        (formatTime : Z -> string) (train : Train.t)
        (timeStart timeEnd : string) (selected : list string) (info : TrainInfo.t)
        (Hinfo : processTrainAvailability formatTime train timeStart timeEnd selected
                 = Some info) :
  exists avails,
    Train.cabinClassAvailabilities train = Some avails
    /\ TrainInfo.cabinClasses info = omap (cabinEntry selected) avails
    /\ TrainInfo.cabinClasses info <> []
    /\ TrainInfo.trainId info = Train.id train
    /\ (forall classAvail,
           In classAvail avails ->
           (cabinEntry selected classAvail = None
            <-> ClassAvail.cabinClass classAvail = None
                \/ exists i, ClassAvail.cabinClass classAvail = Some i
                             /\ ~ In i knownClassIds))
    /\ (forall cabin,
           In cabin (TrainInfo.cabinClasses info) ->
           exists classAvail i key class,
             In classAvail avails
             /\ ClassAvail.cabinClass classAvail = Some i
             /\ In i knownClassIds
             /\ Config.lookupKey key = Some class
             /\ Config.id class = i
             /\ Cabin.classKey cabin = Some key
             /\ Cabin.className cabin = Config.displayName class
             /\ Cabin.availability cabin
                = Js.orNum (ClassAvail.availabilityCount classAvail) 0
             /\ (Cabin.isSelected cabin = true <-> In key selected)).
Proof.
  revert Hinfo. unfold processTrainAvailability.
  destruct (Train.segments train) as [[|first rest]|]; try discriminate.
  cbv zeta. destruct (Utils.isInTimeRange _ _ _ _); simpl; [|discriminate].
  destruct (Train.cabinClassAvailabilities train) as [avails|]; [|discriminate].
  destruct (omap (cabinEntry selected) avails) as [|c cs] eqn:Hcabins;
    [discriminate|].
  intros [= <-]. cbn [TrainInfo.cabinClasses TrainInfo.trainId]. exists avails.
  split; [reflexivity|]. split; [symmetry; exact Hcabins|]. split; [discriminate|].
  split; [reflexivity|]. split.
  - intros classAvail _. apply cabinEntry_None.
  - intros cabin Hin. rewrite <- Hcabins in Hin.
    apply list_elem_of_In, list_elem_of_omap in Hin as (classAvail & Hca & Hentry).
    apply list_elem_of_In in Hca.
    destruct (cabinEntry_Some _ _ _ Hentry)
      as (i & key & class & H1 & H2 & H3 & H4 & H5 & H6 & H7 & H8).
    exists classAvail, i, key, class. repeat (split; [assumption|]). exact H8.
Qed.

Lemma cabinClasses_from_catalog_witness :
  exists info,
    processTrainAvailability
      Sample.clock
      (Sample.train Sample.at0915
                    [Sample.classAvail 2 0; Sample.classAvail 99 4;
                     Sample.classAvail 1 5])
      "08:00" "12:00" ["ECONOMY"] = Some info
    /\ List.map Cabin.classKey (TrainInfo.cabinClasses info)
       = [Some "ECONOMY"; Some "BUSINESS"]
    /\ List.map Cabin.isSelected (TrainInfo.cabinClasses info) = [true; false]
    /\ TrainInfo.cabinClasses info <> [].
Proof.
  eexists. split; [reflexivity|]. split; [reflexivity|]. split; [reflexivity|].
  destruct (cabinClasses_from_catalog
              Sample.clock
              (Sample.train Sample.at0915
                            [Sample.classAvail 2 0; Sample.classAvail 99 4;
                             Sample.classAvail 1 5])
              "08:00" "12:00" ["ECONOMY"] _ eq_refl)
    as (avails & _ & _ & Hne & _).
  exact Hne.
Defined.

(** ** Order *)

Lemma processTrainAvailability_id formatTime train timeStart timeEnd selected info :
  processTrainAvailability formatTime train timeStart timeEnd selected = Some info ->
  TrainInfo.trainId info = Train.id train.
Proof.
  unfold processTrainAvailability.
  destruct (Train.segments train) as [[|first rest]|]; try discriminate.
  cbv zeta. destruct (Utils.isInTimeRange _ _ _ _); simpl; [|discriminate].
  destruct (Train.cabinClassAvailabilities train) as [avails|]; [|discriminate].
  destruct (omap (cabinEntry selected) avails); [discriminate|].
  intros [= <-]. reflexivity.
Qed.

Lemma kept_id formatTime timeStart timeEnd selected train info :
  kept formatTime timeStart timeEnd selected train = Some info ->
  TrainInfo.trainId info = Train.id train.
Proof.
  unfold kept.
  destruct (processTrainAvailability _ _ _ _ _) as [i|] eqn:Hp; [|discriminate].
  destruct (hasAvailableSeatsInSelectedClasses i); [|discriminate].
  intros [= <-]. eapply processTrainAvailability_id, Hp.
Qed.

Lemma omap_sublist {A B C} (f : A -> option B) (g : B -> C) (h : A -> C) l :
  (forall x y, f x = Some y -> g y = h x) ->
  sublist (List.map g (omap f l)) (List.map h l).
Proof.
  intros Hgh. induction l as [|x l IH]; [constructor|].
  rewrite omap_cons. destruct (f x) as [y|] eqn:Hfx; simpl.
  - rewrite (Hgh x y Hfx). apply sublist_skip, IH.
  - apply sublist_cons, IH.
Qed.

(** X11. The filter neither reorders nor duplicates: the train ids of the
    returned list, in order, form a subsequence of the train ids of the
    first leg of the response, so the first returned train is the earliest
    train of the response that qualifies. *)
Theorem candidates_keep_response_order
        (formatTime : Z -> string) (data : Availability.t)
        (timeStart timeEnd : string) (selected : list string) :
  let result := processTrainData formatTime data timeStart timeEnd selected in
  sublist (List.map TrainInfo.trainId (SearchResult.trains result))
          (List.map Train.id (rawTrains data))
  /\ (length (SearchResult.trains result) <= length (rawTrains data))%nat
  /\ (forall target others,
         SearchResult.trains result = target :: others ->
         exists before train after,
           rawTrains data = before ++ train :: after
           /\ kept formatTime timeStart timeEnd selected train = Some target
           /\ forall earlier, In earlier before ->
                              kept formatTime timeStart timeEnd selected earlier
                              = None).
Proof.
  intros result. subst result.
  rewrite FilterFacts.processTrainData_trains.
  split; [|split].
  - apply omap_sublist. intros train info. apply kept_id.
  - induction (rawTrains data) as [|t ts IH]; [simpl; lia|].
    rewrite omap_cons. destruct (kept _ _ _ _ t); simpl; lia.
  - induction (rawTrains data) as [|t ts IH]; [discriminate|].
    intros target others. rewrite omap_cons.
    destruct (kept formatTime timeStart timeEnd selected t) as [info|] eqn:Hk.
    + intros [= <- <-]. exists [], t, ts.
      split; [reflexivity|]. split; [exact Hk|]. intros ? [].
    + intros Hrest.
      destruct (IH target others Hrest) as (before & train & after & -> & Hkept & Hnone).
      exists (t :: before), train, after.
      split; [reflexivity|]. split; [exact Hkept|].
      intros earlier [<- | Hin]; [exact Hk | apply Hnone, Hin].
Qed.

(** ** The order on strings *)

Lemma compare_not_Gt_trans a b c :
  String.compare a b <> Gt -> String.compare b c <> Gt -> String.compare a c <> Gt.
Proof.
  revert b c. induction a as [|x a IH]; intros b c Hab Hbc.
  - destruct c; discriminate.
  - destruct b as [|y b]; [simpl in Hab; congruence|].
    destruct c as [|z c]; [simpl in Hbc; congruence|].
    simpl in *. unfold Ascii.compare in *.
    destruct (N.compare_spec (N_of_ascii x) (N_of_ascii y)) as [Exy | Lxy | Gxy];
      [| |congruence].
    + rewrite Exy.
      destruct (N.compare_spec (N_of_ascii y) (N_of_ascii z)) as [Eyz | Lyz | Gyz];
        [eapply IH; eassumption | discriminate | congruence].
    + destruct (N.compare_spec (N_of_ascii y) (N_of_ascii z)) as [Eyz | Lyz | Gyz];
        [| |congruence].
      * rewrite <- Eyz, (proj2 (N.compare_lt_iff _ _) Lxy). discriminate.
      * rewrite (proj2 (N.compare_lt_iff _ _) (N.lt_trans _ _ _ Lxy Lyz)).
        discriminate.
Qed.

Lemma leb_trans a b c :
  String.leb a b = true -> String.leb b c = true -> String.leb a c = true.
Proof.
  unfold String.leb. intros Hab Hbc.
  assert (Hac : String.compare a c <> Gt).
  { apply (compare_not_Gt_trans a b c).
    - destruct (String.compare a b); discriminate.
    - destruct (String.compare b c); discriminate. }
  destruct (String.compare a c); [reflexivity | reflexivity | congruence].
Qed.

Lemma ltb_not_leb a b : String.ltb a b = true -> String.leb b a = false.
Proof.
  unfold String.ltb, String.leb. rewrite (String.compare_antisym a b).
  destruct (String.compare b a); simpl; congruence.
Qed.

(** X12. A window whose start is after its end (in the order on strings)
    contains no time: [isInTimeRange] is false for every train time, and the
    filter finds nothing in any response. *)
Theorem empty_window_finds_nothing
        (formatTime : Z -> string) (timeStart timeEnd : string)
        (Hempty : String.ltb timeEnd timeStart = true) :
  (forall trainTime,
      Utils.isInTimeRange formatTime trainTime timeStart timeEnd = false)
  /\ (forall train selected,
         processTrainAvailability formatTime train timeStart timeEnd selected = None)
  /\ (forall data selected,
         processTrainData formatTime data timeStart timeEnd selected = nothing).
Proof.
  assert (Hrange : forall trainTime,
             Utils.isInTimeRange formatTime trainTime timeStart timeEnd = false).
  { intros trainTime. unfold Utils.isInTimeRange. cbv zeta.
    destruct (String.leb timeStart (formatTime trainTime)) eqn:H1; [|reflexivity].
    destruct (String.leb (formatTime trainTime) timeEnd) eqn:H2; [|reflexivity].
    pose proof (leb_trans _ _ _ H1 H2) as H12.
    rewrite (ltb_not_leb _ _ Hempty) in H12. discriminate. }
  assert (Hprocess : forall train selected,
             processTrainAvailability formatTime train timeStart timeEnd selected
             = None).
  { intros train selected. unfold processTrainAvailability.
    destruct (Train.segments train) as [[|first rest]|]; try reflexivity.
    cbv zeta. rewrite Hrange. reflexivity. }
  split; [exact Hrange|]. split; [exact Hprocess|].
  intros data selected.
  pose proof (FilterFacts.processTrainData_trains
                formatTime timeStart timeEnd selected data) as Htrains.
  pose proof (FilterFacts.processTrainData_found
                formatTime timeStart timeEnd selected data) as Hfound.
  pose proof (processTrainData_total formatTime timeStart timeEnd selected data)
    as Htotal.
  cbv zeta in Htotal.
  assert (Hnil : forall trains,
             omap (kept formatTime timeStart timeEnd selected) trains = []).
  { induction trains as [|t ts IH]; [reflexivity|].
    rewrite omap_cons. unfold kept at 1. rewrite Hprocess. exact IH. }
  rewrite Hnil in Htrains. rewrite Htrains in Hfound, Htotal.
  destruct (processTrainData formatTime data timeStart timeEnd selected).
  simpl in *. subst. reflexivity.
Qed.

Lemma empty_window_finds_nothing_witness :
  processTrainData Sample.clock Sample.oneTrain "12:00" "08:00" ["ECONOMY"]
  = nothing.
Proof.
  apply (empty_window_finds_nothing Sample.clock "12:00" "08:00" eq_refl).
Defined.

(** ** What the filter reads of a response *)

Lemma result_eq (r1 r2 : SearchResult.t) :
  SearchResult.found r1 = SearchResult.found r2 ->
  SearchResult.trains r1 = SearchResult.trains r2 ->
  SearchResult.totalSeats r1 = SearchResult.totalSeats r2 ->
  r1 = r2.
Proof. destruct r1, r2. simpl. intros -> -> ->. reflexivity. Qed.

(** X13. The filter reads only the trains of the first leg of a response:
    two responses with the same trains there, in the same order, get the same
    result, whatever their other legs and however the trains are grouped;
    and a response in which a level on the way is missing ([trainLegs]
    missing or empty, a first leg that is [null] or has no
    [trainAvailabilities]) yields no candidate and no error. *)
Theorem filter_reads_first_leg
        (formatTime : Z -> string) (timeStart timeEnd : string)
        (selected : list string) :
  (forall data data',
      rawTrains data = rawTrains data' ->
      processTrainData formatTime data timeStart timeEnd selected
      = processTrainData formatTime data' timeStart timeEnd selected)
  /\ (forall leg others others',
         processTrainData formatTime
                          {| Availability.trainLegs := Some (leg :: others) |}
                          timeStart timeEnd selected
         = processTrainData formatTime
                            {| Availability.trainLegs := Some (leg :: others') |}
                            timeStart timeEnd selected)
  /\ (forall data,
         Availability.trainLegs data = None
         \/ Availability.trainLegs data = Some []
         \/ (exists others, Availability.trainLegs data = Some (None :: others))
         \/ (exists leg others,
                Availability.trainLegs data = Some (Some leg :: others)
                /\ TrainLeg.trainAvailabilities leg = None) ->
         processTrainData formatTime data timeStart timeEnd selected = nothing).
Proof.
  assert (Hsame : forall data data',
             rawTrains data = rawTrains data' ->
             processTrainData formatTime data timeStart timeEnd selected
             = processTrainData formatTime data' timeStart timeEnd selected).
  { intros data data' Hraw. apply result_eq.
    - rewrite !FilterFacts.processTrainData_found,
        !FilterFacts.processTrainData_trains, Hraw. reflexivity.
    - rewrite !FilterFacts.processTrainData_trains, Hraw. reflexivity.
    - pose proof (processTrainData_total formatTime timeStart timeEnd selected data)
        as H1.
      pose proof (processTrainData_total formatTime timeStart timeEnd selected data')
        as H2.
      cbv zeta in H1, H2.
      rewrite H1, H2, !FilterFacts.processTrainData_trains, Hraw. reflexivity. }
  split; [exact Hsame|]. split.
  - intros leg others others'. apply Hsame. destruct leg; reflexivity.
  - intros data Hmissing. unfold processTrainData, allTrainAvailabilities.
    destruct Hmissing as [-> | [-> | [(others & ->) | (leg & others & -> & ->)]]];
      reflexivity.
Qed.

(** ** Changing the selection *)

Lemma includesKey_incl selected selected' key :
  incl selected selected' ->
  includesKey selected key = true -> includesKey selected' key = true.
Proof.
  intros Hincl. destruct key as [k|]; [|discriminate].
  rewrite !includesKey_iff. apply Hincl.
Qed.

Lemma cabinEntry_incl selected selected' classAvail cabin :
  incl selected selected' ->
  cabinEntry selected classAvail = Some cabin ->
  exists cabin',
    cabinEntry selected' classAvail = Some cabin'
    /\ Cabin.availability cabin' = Cabin.availability cabin
    /\ (Cabin.isSelected cabin = true -> Cabin.isSelected cabin' = true).
Proof.
  intros Hincl. unfold cabinEntry.
  destruct (ClassAvail.cabinClass classAvail) as [i|]; [|discriminate].
  destruct (Config.findById i) as [class|]; [|discriminate].
  intros [= <-]. eexists. split; [reflexivity|]. simpl.
  split; [reflexivity|]. apply includesKey_incl, Hincl.
Qed.

Lemma cabins_incl selected selected' avails :
  incl selected selected' ->
  (omap (cabinEntry selected) avails <> [] ->
   omap (cabinEntry selected') avails <> [])
  /\ (existsb (fun cabin => (0 <? Cabin.availability cabin) && Cabin.isSelected cabin)
              (omap (cabinEntry selected) avails) = true ->
      existsb (fun cabin => (0 <? Cabin.availability cabin) && Cabin.isSelected cabin)
              (omap (cabinEntry selected') avails) = true).
Proof.
  intros Hincl. induction avails as [|ca rest [IHne IHex]]; [split; auto|].
  rewrite !omap_cons.
  destruct (cabinEntry selected ca) as [cabin|] eqn:Hentry.
  - destruct (cabinEntry_incl _ _ _ _ Hincl Hentry) as (cabin' & -> & Hav & Hsel).
    split; [discriminate|]. simpl. rewrite Hav.
    intros Hex. apply orb_prop in Hex as [Hhere | Hlater].
    + apply andb_prop in Hhere as [Hpos Hs]. rewrite Hpos, (Hsel Hs). reflexivity.
    + rewrite (IHex Hlater). apply orb_true_r.
  - destruct (cabinEntry selected' ca) as [cabin'|].
    + split; [discriminate|]. intros Hex. simpl. rewrite (IHex Hex).
      apply orb_true_r.
    + split; assumption.
Qed.

Lemma kept_incl formatTime timeStart timeEnd selected selected' train info :
  incl selected selected' ->
  kept formatTime timeStart timeEnd selected train = Some info ->
  exists info',
    kept formatTime timeStart timeEnd selected' train = Some info'
    /\ TrainInfo.trainId info' = TrainInfo.trainId info.
Proof.
  intros Hincl. unfold kept, processTrainAvailability,
                  hasAvailableSeatsInSelectedClasses.
  destruct (Train.segments train) as [[|first rest]|]; try discriminate.
  cbv zeta. destruct (Utils.isInTimeRange _ _ _ _); simpl; [|discriminate].
  destruct (Train.cabinClassAvailabilities train) as [avails|]; [|discriminate].
  destruct (cabins_incl selected selected' avails Hincl) as [Hne Hex].
  destruct (omap (cabinEntry selected) avails) as [|c cs] eqn:Hold; [discriminate|].
  destruct (omap (cabinEntry selected') avails) as [|c' cs'] eqn:Hnew;
    [exfalso; apply Hne; [discriminate | reflexivity]|].
  cbn [TrainInfo.cabinClasses].
  destruct (existsb _ (c :: cs)) eqn:Hhas; [|discriminate].
  rewrite (Hex eq_refl). intros [= <-]. eexists. split; reflexivity.
Qed.

Lemma omap_sublist_between {A B C} (f f' : A -> option B) (g : B -> C) l :
  (forall x y, f x = Some y -> exists y', f' x = Some y' /\ g y' = g y) ->
  sublist (List.map g (omap f l)) (List.map g (omap f' l)).
Proof.
  intros Hff. induction l as [|x l IH]; [constructor|].
  rewrite !omap_cons. destruct (f x) as [y|] eqn:Hfx.
  - destruct (Hff x y Hfx) as (y' & -> & Hg). simpl. rewrite Hg.
    apply sublist_skip, IH.
  - destruct (f' x); simpl; [apply sublist_cons, IH | exact IH].
Qed.

Lemma cabins_unknown selected avails :
  (forall key, In key selected -> Config.lookupKey key = None) ->
  existsb (fun cabin => (0 <? Cabin.availability cabin) && Cabin.isSelected cabin)
          (omap (cabinEntry selected) avails) = false.
Proof.
  intros Hunknown. induction avails as [|ca rest IH]; [reflexivity|].
  rewrite omap_cons. destruct (cabinEntry selected ca) as [cabin|] eqn:Hentry;
    [|exact IH].
  simpl. rewrite IH, orb_false_r.
  destruct (Cabin.isSelected cabin) eqn:Hsel; [|apply andb_false_r].
  destruct (cabinEntry_Some _ _ _ Hentry)
    as (i & key & class & _ & _ & Hlook & _ & _ & _ & _ & Hiff).
  apply Hiff in Hsel. rewrite (Hunknown key Hsel) in Hlook. discriminate.
Qed.

Lemma kept_unknown formatTime timeStart timeEnd selected train :
  (forall key, In key selected -> Config.lookupKey key = None) ->
  kept formatTime timeStart timeEnd selected train = None.
Proof.
  intros Hunknown. unfold kept, processTrainAvailability,
                     hasAvailableSeatsInSelectedClasses.
  destruct (Train.segments train) as [[|first rest]|]; try reflexivity.
  cbv zeta. destruct (Utils.isInTimeRange _ _ _ _); simpl; [|reflexivity].
  destruct (Train.cabinClassAvailabilities train) as [avails|]; [|reflexivity].
  pose proof (cabins_unknown selected avails Hunknown) as Hnone.
  destruct (omap (cabinEntry selected) avails) as [|c cs]; [reflexivity|].
  cbn [TrainInfo.cabinClasses]. rewrite Hnone. reflexivity.
Qed.

(** X14. Selecting more classes never loses a candidate: when every selected
    key is also in a larger selection, the trains found with the smaller one
    are found with the larger one, in the same order, and [found] stays true.
    A selection without any key of the catalog (the empty selection among
    them) finds nothing. *)
Theorem selection_is_monotone
        (formatTime : Z -> string) (data : Availability.t)
        (timeStart timeEnd : string) (selected selected' : list string) :
  (incl selected selected' ->
   sublist
     (List.map TrainInfo.trainId
               (SearchResult.trains
                  (processTrainData formatTime data timeStart timeEnd selected)))
     (List.map TrainInfo.trainId
               (SearchResult.trains
                  (processTrainData formatTime data timeStart timeEnd selected')))
   /\ (SearchResult.found
         (processTrainData formatTime data timeStart timeEnd selected) = true ->
       SearchResult.found
         (processTrainData formatTime data timeStart timeEnd selected') = true))
  /\ ((forall key, In key selected -> Config.lookupKey key = None) ->
      processTrainData formatTime data timeStart timeEnd selected = nothing).
Proof.
  split.
  - intros Hincl.
    assert (Hsub : sublist
                     (List.map TrainInfo.trainId
                        (SearchResult.trains
                           (processTrainData formatTime data timeStart timeEnd
                                             selected)))
                     (List.map TrainInfo.trainId
                        (SearchResult.trains
                           (processTrainData formatTime data timeStart timeEnd
                                             selected')))).
    { rewrite !FilterFacts.processTrainData_trains.
      apply omap_sublist_between. intros train info. apply kept_incl, Hincl. }
    split; [exact Hsub|].
    rewrite !FilterFacts.processTrainData_found.
    destruct (SearchResult.trains
                (processTrainData formatTime data timeStart timeEnd selected));
      [discriminate|].
    intros _.
    destruct (SearchResult.trains
                (processTrainData formatTime data timeStart timeEnd selected'));
      [|reflexivity].
    simpl in Hsub. inversion Hsub.
  - intros Hunknown.
    assert (Hnone : forall train,
               kept formatTime timeStart timeEnd selected train = None)
      by (intros train; apply kept_unknown, Hunknown).
    apply result_eq.
    + rewrite FilterFacts.processTrainData_found,
        FilterFacts.processTrainData_trains.
      induction (rawTrains data) as [|t ts IH]; [reflexivity|].
      rewrite omap_cons, Hnone. exact IH.
    + rewrite FilterFacts.processTrainData_trains.
      induction (rawTrains data) as [|t ts IH]; [reflexivity|].
      rewrite omap_cons, Hnone. exact IH.
    + pose proof (processTrainData_total formatTime timeStart timeEnd selected data)
        as Htotal.
      cbv zeta in Htotal. rewrite Htotal, FilterFacts.processTrainData_trains.
      induction (rawTrains data) as [|t ts IH]; [reflexivity|].
      rewrite omap_cons, Hnone. exact IH.
Qed.

End FilterMore.
(* ===================================================================== *)
(** * Further properties of the seat locator                              *)
(* ===================================================================== *)

Module LocatorMore.
Import SeatLocator LocatorSpec.

(** ** Cars are scanned independently *)

Lemma scanCars_app ids front back :
  scanCars ids (front ++ back) = orElse (scanCars ids front) (scanCars ids back).
Proof.
  induction front as [|seatMap rest IH]; [reflexivity|].
  rewrite <- app_comm_cons. cbn [scanCars].
  destruct (SeatMap.seatMapTemplate seatMap) as [template|]; [|exact IH].
  destruct (Template.seatMaps template) as [items|]; [|exact IH].
  destruct (scanItems ids (occupiedSeats seatMap) seatMap template items);
    [reflexivity | exact IH].
Qed.

Lemma scanCars_hasItems ids seatMaps :
  scanCars ids (List.filter hasItems seatMaps) = scanCars ids seatMaps.
Proof.
  induction seatMaps as [|seatMap rest IH]; [reflexivity|].
  cbn [List.filter]. unfold hasItems at 1. cbn [scanCars].
  destruct (SeatMap.seatMapTemplate seatMap) as [template|] eqn:Htpl; [|exact IH].
  destruct (Template.seatMaps template) as [items|] eqn:Hitems; [|exact IH].
  cbn [scanCars]. rewrite Htpl, Hitems, IH. reflexivity.
Qed.

(** X15. The locator treats the cars one after the other and
    independently: over two lists of cars put end to end it returns the pick
    in the first list when there is one and the pick in the second list
    otherwise, so the allocation list of a car never hides a seat of another
    car; and the cars without a template or without a list of seat items can
    be dropped from the response without changing the pick. *)
Theorem findFirstAvailableSeat_car_by_car
        (front back : list SeatMap.t) (selectedCabinClasses : list string) :
  findFirstAvailableSeat (front ++ back) selectedCabinClasses
  = orElse (findFirstAvailableSeat front selectedCabinClasses)
           (findFirstAvailableSeat back selectedCabinClasses)
  /\ findFirstAvailableSeat (List.filter hasItems (front ++ back))
                            selectedCabinClasses
     = findFirstAvailableSeat (front ++ back) selectedCabinClasses.
Proof.
  unfold findFirstAvailableSeat. split;
    [apply scanCars_app | apply scanCars_hasItems].
Qed.

(** ** What the returned object is built from *)

Lemma scanItems_origin ids occupied seatMap template items seat :
  scanItems ids occupied seatMap template items = Some seat ->
  exists seatItem,
    In seatItem items
    /\ passes ids occupied seatItem = true
    /\ candidate seatMap template seatItem = Some seat.
Proof.
  induction items as [|seatItem rest IH]; [discriminate|].
  cbn [scanItems]. destruct (passes ids occupied seatItem) eqn:Hpass.
  - intros Hcand. exists seatItem. split; [left; reflexivity | auto].
  - intros Hrest. destruct (IH Hrest) as (x & Hin & Hp & Hc).
    exists x. split; [right; exact Hin | auto].
Qed.

Lemma scanCars_origin ids seatMaps seat :
  scanCars ids seatMaps = Some seat ->
  exists seatMap template items seatItem,
    In seatMap seatMaps
    /\ SeatMap.seatMapTemplate seatMap = Some template
    /\ Template.seatMaps template = Some items
    /\ In seatItem items
    /\ passes ids (occupiedSeats seatMap) seatItem = true
    /\ candidate seatMap template seatItem = Some seat.
Proof.
  induction seatMaps as [|seatMap rest IH]; [discriminate|].
  cbn [scanCars].
  assert (Hlater : scanCars ids rest = Some seat ->
                   exists seatMap' template items seatItem,
                     In seatMap' (seatMap :: rest)
                     /\ SeatMap.seatMapTemplate seatMap' = Some template
                     /\ Template.seatMaps template = Some items
                     /\ In seatItem items
                     /\ passes ids (occupiedSeats seatMap') seatItem = true
                     /\ candidate seatMap' template seatItem = Some seat).
  { intros Hrest. destruct (IH Hrest) as (m & t & items & item & Hin & H).
    exists m, t, items, item. split; [right; exact Hin | exact H]. }
  destruct (SeatMap.seatMapTemplate seatMap) as [template|] eqn:Htpl; [|exact Hlater].
  destruct (Template.seatMaps template) as [items|] eqn:Hitems; [|exact Hlater].
  destruct (scanItems ids (occupiedSeats seatMap) seatMap template items)
    as [found|] eqn:Hscan; [|exact Hlater].
  intros [= <-].
  destruct (scanItems_origin _ _ _ _ _ _ Hscan) as (seatItem & Hin & Hp & Hc).
  exists seatMap, template, items, seatItem.
  split; [left; reflexivity|]. auto.
Qed.

(** The digits the pattern captures: a run of digits that is not empty. *)
Lemma digitRun_digits s : allDigits (fst (WagonText.digitRun s)) = true.
Proof.
  induction s as [|c rest IH]; [reflexivity|].
  cbn [WagonText.digitRun]. destruct (Js.isDigit c) eqn:Hdigit; [|reflexivity].
  destruct (WagonText.digitRun rest) as [run tail]. cbn [fst allDigits] in *.
  rewrite Hdigit, IH. reflexivity.
Qed.

Lemma matchHere_digits s run :
  WagonText.matchHere s = Some run -> run <> "" /\ allDigits run = true.
Proof.
  unfold WagonText.matchHere. pose proof (digitRun_digits s) as Hdigits.
  destruct (WagonText.digitRun s) as [digits tail]. cbn [fst] in Hdigits.
  destruct (Js.truthyStr digits) eqn:Htruthy; [|discriminate].
  destruct (WagonText.startsWith "VAGON" (WagonText.skipGap tail)); [|discriminate].
  intros [= <-]. split; [|exact Hdigits].
  destruct digits; [discriminate Htruthy | discriminate].
Qed.

Lemma firstMatch_digits s run :
  WagonText.firstMatch s = Some run -> run <> "" /\ allDigits run = true.
Proof.
  induction s as [|c rest IH]; cbn [WagonText.firstMatch].
  - destruct (WagonText.matchHere "") eqn:Hhere; [|discriminate].
    intros [= <-]. exact (matchHere_digits _ _ Hhere).
  - destruct (WagonText.matchHere (String c rest)) eqn:Hhere.
    + intros [= <-]. exact (matchHere_digits _ _ Hhere).
    + exact IH.
Qed.

Lemma wagonNumberOf_shape template :
  wagonNumberOf template = "?"
  \/ (wagonNumberOf template <> ""
      /\ allDigits (wagonNumberOf template) = true).
Proof.
  unfold wagonNumberOf.
  destruct (WagonText.firstMatch _) as [run|] eqn:Hmatch; [|left; reflexivity].
  right. exact (firstMatch_digits _ _ Hmatch).
Qed.

(** A key of the catalog names the class that is found by its id, and the
    class has a display name. *)
Lemma lookupKey_findById key class :
  Config.lookupKey key = Some class ->
  Config.findById (Config.id class) = Some class
  /\ Js.truthyStr (Config.displayName class) = true
  /\ Config.displayName class <> "Bilinmeyen".
Proof.
  unfold Config.lookupKey.
  destruct (List.find _ Config.CABIN_CLASSES) as [[k c]|] eqn:Hfind; [|discriminate].
  intros [= <-]. apply find_some in Hfind as [Hin _].
  unfold Config.CABIN_CLASSES in Hin. cbn [In] in Hin.
  repeat (destruct Hin as [[= <- <-] | Hin];
          [split; [reflexivity | split; [reflexivity | discriminate]]|]).
  destruct Hin.
Qed.

(** X16. The object [findFirstAvailableSeat] returns is labelled from the
    response and the catalog: its car is one of the cars of the response and
    its seat number is the non-empty number of a saleable item of that car;
    its class name is the display name of one of the selected classes, never
    the fallback text "Bilinmeyen"; and its wagon number is either "?" or a
    non-empty string of decimal digits read off the car's text. *)
Theorem returned_seat_labels
        (seatMaps : list SeatMap.t) (selectedCabinClasses : list string)
        (seat : SeatCandidate.t)
        (Hfound : findFirstAvailableSeat seatMaps selectedCabinClasses = Some seat) :
  (exists seatMap template,
      In seatMap seatMaps
      /\ SeatMap.seatMapTemplate seatMap = Some template
      /\ SeatCandidate.trainCarId seat = SeatMap.trainCarId seatMap
      /\ SeatCandidate.carName seat = carNameOf template
      /\ SeatCandidate.wagonNumber seat = wagonNumberOf template)
  /\ SeatCandidate.seatNumber seat <> ""
  /\ (exists key class,
         In key selectedCabinClasses
         /\ Config.lookupKey key = Some class
         /\ SeatCandidate.cabinClassName seat = Config.displayName class)
  /\ SeatCandidate.cabinClassName seat <> "Bilinmeyen"
  /\ (SeatCandidate.wagonNumber seat = "?"
      \/ (SeatCandidate.wagonNumber seat <> ""
          /\ allDigits (SeatCandidate.wagonNumber seat) = true)).
Proof.
  unfold findFirstAvailableSeat in Hfound.
  destruct (scanCars_origin _ _ _ Hfound)
    as (seatMap & template & items & seatItem & Hin & Htpl & Hitems & Hitem
        & Hpass & Hcand).
  unfold passes in Hpass. unfold candidate in Hcand.
  destruct (SeatItem.item_ seatItem) as [item|]; [|discriminate].
  destruct (SeatItem.seatNumber seatItem) as [number|];
    [|rewrite andb_false_r in Hpass; discriminate].
  injection Hcand as <-. cbn [SeatCandidate.trainCarId SeatCandidate.carName
                               SeatCandidate.wagonNumber SeatCandidate.seatNumber
                               SeatCandidate.cabinClassName].
  apply andb_prop in Hpass as [Hpass Hnumber].
  apply andb_prop in Hpass as [_ Hclass].
  apply andb_prop in Hnumber as [Htruthy _].
  apply SeatLocatorFacts.includesId_iff in Hclass
    as (key & class & i & Hkey & Hlook & Hid & Hcid).
  destruct (lookupKey_findById key class Hlook) as (Hfind & Hname & Hfallback).
  assert (Hlabel : cabinClassNameOf (SeatItem.cabinClassId item)
                   = Config.displayName class).
  { unfold cabinClassNameOf. rewrite Hcid, <- Hid, Hfind, Hname. reflexivity. }
  split; [exists seatMap, template; auto|].
  split; [destruct number; [discriminate Htruthy | discriminate]|].
  split; [exists key, class; auto|].
  split; [rewrite Hlabel; exact Hfallback|].
  apply wagonNumberOf_shape.
Qed.

Lemma returned_seat_labels_witness :
  exists seat,
    findFirstAvailableSeat [Sample.fullCar; Sample.openCar] ["ECONOMY"] = Some seat
    /\ SeatCandidate.seatNumber seat = "2B"
    /\ SeatCandidate.wagonNumber seat = "2"
    /\ SeatCandidate.cabinClassName seat <> "Bilinmeyen".
Proof.
  eexists. split; [reflexivity|]. split; [reflexivity|]. split; [reflexivity|].
  exact (proj1 (proj2 (proj2 (proj2
           (returned_seat_labels [Sample.fullCar; Sample.openCar] ["ECONOMY"]
                                 _ eq_refl))))).
Defined.

(** ** Changing the selection *)

Lemma includesId_same selected selected' cid :
  (forall key class, Config.lookupKey key = Some class ->
                     (In key selected <-> In key selected')) ->
  includesId (selectedCabinClassIds selected) cid
  = includesId (selectedCabinClassIds selected') cid.
Proof.
  intros Hsame. apply eq_true_iff_eq.
  rewrite !SeatLocatorFacts.includesId_iff.
  split; intros (key & class & i & Hkey & Hlook & Hrest);
    exists key, class, i; (split; [apply (Hsame key class Hlook), Hkey | auto]).
Qed.

Lemma scanCars_same selected selected' seatMaps :
  (forall key class, Config.lookupKey key = Some class ->
                     (In key selected <-> In key selected')) ->
  scanCars (selectedCabinClassIds selected) seatMaps
  = scanCars (selectedCabinClassIds selected') seatMaps.
Proof.
  intros Hsame.
  assert (Hpasses : forall occupied seatItem,
             passes (selectedCabinClassIds selected) occupied seatItem
             = passes (selectedCabinClassIds selected') occupied seatItem).
  { intros occupied seatItem. unfold passes.
    destruct (SeatItem.item_ seatItem) as [item|]; [|reflexivity].
    rewrite (includesId_same selected selected' _ Hsame). reflexivity. }
  assert (Hitems : forall occupied seatMap template items,
             scanItems (selectedCabinClassIds selected) occupied seatMap template items
             = scanItems (selectedCabinClassIds selected') occupied seatMap
                         template items).
  { intros occupied seatMap template items.
    induction items as [|seatItem rest IH]; [reflexivity|].
    cbn [scanItems]. rewrite Hpasses, IH. reflexivity. }
  induction seatMaps as [|seatMap rest IH]; [reflexivity|].
  cbn [scanCars]. rewrite IH.
  destruct (SeatMap.seatMapTemplate seatMap) as [template|]; [|reflexivity].
  destruct (Template.seatMaps template) as [items|]; [|reflexivity].
  rewrite Hitems. reflexivity.
Qed.

Lemma acceptable_incl selected selected' s :
  incl selected selected' -> acceptable selected s -> acceptable selected' s.
Proof.
  intros Hincl. destruct s as [seatMap seatItem]. unfold acceptable.
  intros (item & number & Hitem & Hsale & (key & class & i & Hkey & Hrest) & H).
  exists item, number. split; [exact Hitem|]. split; [exact Hsale|].
  split; [|exact H]. exists key, class, i. split; [apply Hincl, Hkey | exact Hrest].
Qed.

(** X17. The pick depends on the selection only through the set of catalog
    classes it names: two selections that hold the same catalog keys, in
    whatever order, with whatever repetitions and whatever unknown keys
    beside them, give the same pick.  A selection without a key of the
    catalog finds no seat, and a selection that is enlarged still finds a
    seat where the smaller one did. *)
Theorem pick_depends_on_selected_set
        (seatMaps : list SeatMap.t) (selected selected' : list string) :
  ((forall key class, Config.lookupKey key = Some class ->
                      (In key selected <-> In key selected')) ->
   findFirstAvailableSeat seatMaps selected
   = findFirstAvailableSeat seatMaps selected')
  /\ ((forall key, In key selected -> Config.lookupKey key = None) ->
      findFirstAvailableSeat seatMaps selected = None)
  /\ (incl selected selected' ->
      findFirstAvailableSeat seatMaps selected <> None ->
      findFirstAvailableSeat seatMaps selected' <> None).
Proof.
  unfold findFirstAvailableSeat. split; [apply scanCars_same|]. split.
  - intros Hunknown.
    rewrite (scanCars_same selected [] seatMaps).
    + induction seatMaps as [|seatMap rest IH]; [reflexivity|].
      cbn [scanCars]. rewrite IH.
      destruct (SeatMap.seatMapTemplate seatMap) as [template|]; [|reflexivity].
      destruct (Template.seatMaps template) as [items|]; [|reflexivity].
      replace (scanItems (selectedCabinClassIds []) (occupiedSeats seatMap)
                         seatMap template items) with (@None SeatCandidate.t);
        [reflexivity|].
      induction items as [|seatItem more IHi]; [reflexivity|].
      cbn [scanItems]. rewrite <- IHi. unfold passes.
      destruct (SeatItem.item_ seatItem) as [item|]; [|reflexivity].
      unfold selectedCabinClassIds, includesId. cbn [omap].
      destruct (SeatItem.cabinClassId item); cbn [existsb];
        rewrite andb_false_r; reflexivity.
    + intros key class Hlook. split; [|intros []].
      intros Hin. rewrite (Hunknown key Hin) in Hlook. discriminate.
  - intros Hincl Hsome Hnone.
    pose proof (SeatLocatorFacts.scanCars_first selected seatMaps) as Hfirst.
    pose proof (SeatLocatorFacts.scanCars_first selected' seatMaps) as Hfirst'.
    rewrite Hnone in Hfirst'.
    destruct (scanCars (selectedCabinClassIds selected) seatMaps) as [seat|];
      [|apply Hsome; reflexivity].
    destruct Hfirst as (before & chosen & after & Horder & Hok & _).
    apply (Hfirst' chosen).
    + rewrite Horder. apply in_or_app. right. left. reflexivity.
    + apply (acceptable_incl _ _ _ Hincl Hok).
Qed.

End LocatorMore.
(* ===================================================================== *)
(** * Further properties of utils.js                                      *)
(* ===================================================================== *)

Module UtilsMore.

(** ** The random delay *)

Lemma span_nonneg (min max : Z) :
  min <= max -> (0 <= Double.sub (inject_Z max) (inject_Z min))%Q.
Proof.
  intros Hmm. unfold Double.sub.
  apply Qle_trans with (Double.round (inject_Z 0)).
  - rewrite (DoubleFacts.round_integer 0) by (vm_compute; discriminate).
    apply Qle_refl.
  - apply DoubleFacts.round_monotone. change (inject_Z 0) with 0%Q.
    rewrite Zle_Qle in Hmm. lra.
Qed.

(** A larger outcome of the random source never gives a shorter delay. *)
Lemma getRandomDelay_monotone (min max : Z) (r r' : Q) :
  min <= max -> (r <= r')%Q ->
  Utils.getRandomDelay min max r <= Utils.getRandomDelay min max r'.
Proof.
  intros Hmm Hrr. unfold Utils.getRandomDelay, Double.add, Double.mul.
  apply Qfloor_resp_le, DoubleFacts.round_monotone, Qplus_le_r,
    DoubleFacts.round_monotone, Qmult_le_compat_r;
    [exact Hrr | apply span_nonneg, Hmm].
Qed.

Lemma getRandomDelay_equal_bounds (min : Z) (r : Q) :
  Double.exact min -> Utils.getRandomDelay min min r = min.
Proof.
  intros Hmin. unfold Utils.getRandomDelay, Double.add, Double.mul, Double.sub.
  assert (Hzero : (Double.round 0 == 0)%Q)
    by (apply (DoubleFacts.round_integer 0); vm_compute; discriminate).
  rewrite (DoubleFacts.round_comp (inject_Z min - inject_Z min) 0) by ring.
  rewrite (DoubleFacts.round_comp (r * Double.round 0) 0)
    by (rewrite Hzero; ring).
  rewrite (DoubleFacts.round_comp (inject_Z min + Double.round 0) (inject_Z min))
    by (rewrite Hzero; ring).
  transitivity (Qfloor (inject_Z min)); [|apply Qfloor_Z].
  apply Qfloor_comp, DoubleFacts.round_integer, Hmin.
Qed.

(** X18. [getRandomDelay] computes in double precision.  For integer bounds
    [min <= max] that doubles hold exactly, as their difference, and any
    outcome of [Math.random()] in [0, 1), it returns an integer from [min] to
    [max], both included, and a larger outcome never gives a smaller result.
    The upper bound is returned: [getRandomDelay(1, 2)] is 2 for the outcome
    [1 - 2 ^ -53], the largest double below 1, because the sum rounds up.
    With the configured bounds 3000 and 8000 the result is at most 7999 for
    every outcome that is a double below 1, and it is 7995 for the double
    nearest to 0.999, where the exact value of the expression is below 7995.
    With equal bounds the result is [min] whatever the outcome. *)
Theorem getRandomDelay_in_doubles
        (min max : Z) (r : Q)
        (Hmin : Double.exact min) (Hmax : Double.exact max)
        (Hspan : Double.exact (max - min))
        (Hbounds : min <= max) (Hr0 : (0 <= r)%Q) (Hr1 : (r < 1)%Q) :
  min <= Utils.getRandomDelay min max r <= max
  /\ (forall r', (r <= r')%Q ->
                 Utils.getRandomDelay min max r <= Utils.getRandomDelay min max r')
  /\ (Double.representable (1 - (1 # 2) ^ 53)
      /\ Utils.getRandomDelay 1 2 (1 - (1 # 2) ^ 53) = 2)
  /\ (forall outcome,
         (0 <= outcome)%Q -> (outcome <= 1 - (1 # 2) ^ 53)%Q ->
         3000 <= Utils.getRandomDelay 3000 8000 outcome <= 7999)
  /\ (Utils.getRandomDelay 3000 8000 (Double.round (999 # 1000)) = 7995
      /\ (inject_Z 3000 + Double.round (999 # 1000) * inject_Z 5000
          < inject_Z 7995)%Q)
  /\ (forall r', Utils.getRandomDelay min min r' = min).
Proof.
  split; [apply UtilsFacts.getRandomDelay_range; assumption|].
  split; [intros r'; apply getRandomDelay_monotone, Hbounds|].
  split.
  { split; [|vm_compute; reflexivity].
    exists (2 ^ 53 - 1), (-53). split; [vm_compute; discriminate|].
    split; [discriminate | vm_compute; reflexivity]. }
  split.
  { intros outcome Hlow Hhigh. split.
    - apply (UtilsFacts.getRandomDelay_range 3000 8000 outcome);
        try (vm_compute; discriminate); [exact Hlow|].
      eapply Qle_lt_trans; [exact Hhigh|]. vm_compute. reflexivity.
    - apply Z.le_trans
        with (Utils.getRandomDelay 3000 8000 (1 - (1 # 2) ^ 53)).
      + apply getRandomDelay_monotone; [discriminate | exact Hhigh].
      + vm_compute. discriminate. }
  split; [split; vm_compute; reflexivity|].
  intros r'. apply getRandomDelay_equal_bounds, Hmin.
Qed.

Lemma getRandomDelay_in_doubles_witness :
  3000 <= Utils.getRandomDelay Config.MIN_ANTI_BOT_DELAY
                               Config.MAX_ANTI_BOT_DELAY
                               (Double.round (999 # 1000)) <= 8000.
Proof.
  refine (proj1 (getRandomDelay_in_doubles
                   Config.MIN_ANTI_BOT_DELAY Config.MAX_ANTI_BOT_DELAY
                   (Double.round (999 # 1000)) _ _ _ _ _ _));
    vm_compute; first [discriminate | reflexivity].
Defined.

(** ** The two date conversions *)

(** X19. [convertDateToAPI] and [convertDateFromAPI] are one and the same
    function: they agree on every input.  On three dash-free fields joined
    by dashes, whatever the fields hold, each swaps the first field with the
    third, so each is its own inverse there. *)
Theorem convertDate_same_function (s y m d : string) :
  Utils.convertDateToAPI s = Utils.convertDateFromAPI s
  /\ (Js.lacks "-" y = true -> Js.lacks "-" m = true -> Js.lacks "-" d = true ->
      Utils.convertDateToAPI (y +:+ "-" +:+ m +:+ "-" +:+ d)
      = d +:+ "-" +:+ m +:+ "-" +:+ y
      /\ Utils.convertDateToAPI
           (Utils.convertDateToAPI (y +:+ "-" +:+ m +:+ "-" +:+ d))
         = y +:+ "-" +:+ m +:+ "-" +:+ d
      /\ Utils.convertDateFromAPI
           (Utils.convertDateFromAPI (y +:+ "-" +:+ m +:+ "-" +:+ d))
         = y +:+ "-" +:+ m +:+ "-" +:+ d).
Proof.
  split; [reflexivity|]. intros Hy Hm Hd.
  assert (Hto : Utils.convertDateToAPI (y +:+ "-" +:+ m +:+ "-" +:+ d)
                = d +:+ "-" +:+ m +:+ "-" +:+ y)
    by (apply UtilsFacts.convertDateToAPI_fields; assumption).
  split; [exact Hto|]. split.
  - rewrite Hto. apply UtilsFacts.convertDateToAPI_fields; assumption.
  - change Utils.convertDateFromAPI with Utils.convertDateToAPI.
    rewrite Hto. apply UtilsFacts.convertDateToAPI_fields; assumption.
Qed.

Lemma truthy_field a b : Js.truthyStr (a +:+ String "-" b) = true.
Proof. destruct a; reflexivity. Qed.

(** X20. On input that is not three fields the conversion does not fail:
    a non-empty text without a dash yields "undefined-undefined-" followed
    by the text, a text with one dash yields "undefined-", the second field
    and the first, and of more than three fields only the first three
    count, so that converting back does not restore such input. *)
Theorem convertDate_malformed (a b c rest : string)
        (Ha : Js.lacks "-" a = true) (Hb : Js.lacks "-" b = true)
        (Hc : Js.lacks "-" c = true) :
  (a <> "" -> Utils.convertDateToAPI a = "undefined-undefined-" +:+ a)
  /\ Utils.convertDateToAPI (a +:+ "-" +:+ b)
     = "undefined-" +:+ b +:+ "-" +:+ a
  /\ Utils.convertDateToAPI (a +:+ "-" +:+ b +:+ "-" +:+ c +:+ "-" +:+ rest)
     = c +:+ "-" +:+ b +:+ "-" +:+ a
  /\ Utils.convertDateFromAPI
       (Utils.convertDateToAPI (a +:+ "-" +:+ b +:+ "-" +:+ c +:+ "-" +:+ rest))
     = a +:+ "-" +:+ b +:+ "-" +:+ c.
Proof.
  assert (Hfour : Utils.convertDateToAPI
                    (a +:+ "-" +:+ b +:+ "-" +:+ c +:+ "-" +:+ rest)
                  = c +:+ "-" +:+ b +:+ "-" +:+ a).
  { unfold Utils.convertDateToAPI.
    change ("-" +:+ b +:+ "-" +:+ c +:+ "-" +:+ rest)
      with (String "-" (b +:+ String "-" (c +:+ String "-" rest))).
    rewrite truthy_field. cbn [negb]. cbv zeta.
    rewrite (UtilsFacts.split_field _ _ _ Ha), (UtilsFacts.split_field _ _ _ Hb),
      (UtilsFacts.split_field _ _ _ Hc).
    reflexivity. }
  split; [|split; [|split]].
  - intros Hne. unfold Utils.convertDateToAPI.
    destruct a as [|ch a']; [congruence|]. cbn [Js.truthyStr negb]. cbv zeta.
    rewrite (UtilsFacts.split_single _ _ Ha). reflexivity.
  - unfold Utils.convertDateToAPI.
    change ("-" +:+ b) with (String "-" b).
    rewrite truthy_field. cbn [negb]. cbv zeta.
    rewrite (UtilsFacts.split_field _ _ _ Ha), (UtilsFacts.split_single _ _ Hb).
    reflexivity.
  - exact Hfour.
  - rewrite Hfour. apply UtilsFacts.convertDateFromAPI_fields; assumption.
Qed.

Lemma convertDate_malformed_witness :
  Utils.convertDateToAPI "2025" = "undefined-undefined-2025"
  /\ Utils.convertDateToAPI "2025-03" = "undefined-03-2025"
  /\ Utils.convertDateToAPI "2025-03-05-extra" = "05-03-2025".
Proof.
  destruct (convertDate_malformed "2025" "03" "05" "extra" eq_refl eq_refl eq_refl)
    as (Hnone & Hone & Hfour & _).
  split; [apply Hnone; discriminate|]. split; [exact Hone | exact Hfour].
Defined.

End UtilsMore.
(* ===================================================================== *)
(** * Runs of composed functions                                          *)
(* ===================================================================== *)

Module RunFacts.
Import RunSpec.

(** A function followed by another: the second starts where the first
    ended, unless the first threw. *)
Lemma execFrom_bind {A B} server (p : Prog A) (f : A -> Prog B) w n done :
  execFrom server (p ≫= f) w n done
  = match Run.outcome (execFrom server p w n done) with
    | Returned a =>
        execFrom server (f a) (Run.final (execFrom server p w n done))
                 (requestsMade server p w n)
                 (rev (Run.trace (execFrom server p w n done)))
    | Thrown e =>
        {| Run.final := Run.final (execFrom server p w n done);
           Run.outcome := Thrown e;
           Run.trace := Run.trace (execFrom server p w n done) |}
    end.
Proof.
  change (p ≫= f) with (bind f p).
  revert w n done. induction p; intros w n done; simpl; auto.
  rewrite rev_involutive. reflexivity.
Qed.

(** A function inside [try]: the handler starts where the function threw. *)
Lemma execFrom_tryCatch {A} server (p : Prog A) handler w n done :
  execFrom server (tryCatch p handler) w n done
  = match Run.outcome (execFrom server p w n done) with
    | Returned a =>
        {| Run.final := Run.final (execFrom server p w n done);
           Run.outcome := Returned a;
           Run.trace := Run.trace (execFrom server p w n done) |}
    | Thrown e =>
        execFrom server (handler e) (Run.final (execFrom server p w n done))
                 (requestsMade server p w n)
                 (rev (Run.trace (execFrom server p w n done)))
    end.
Proof.
  revert w n done. induction p; intros w n done; simpl; auto.
  rewrite rev_involutive. reflexivity.
Qed.

Lemma requestsMade_sync {A} server (p : Prog A) w w' r n :
  runSync p w = (w', inl r) -> requestsMade server p w n = n.
Proof.
  revert w. induction p; intros w Hp; simpl in *; try discriminate; auto.
Qed.

Lemma execFrom_shift_gen {A} server (p : Prog A) w n m before done :
  execFrom server p w (n + m) (done ++ before)
  = after (rev before) (execFrom (shift n server) p w m done).
Proof.
  revert w m done. induction p; intros w m done; simpl; auto.
  - unfold after. simpl. rewrite rev_app_distr. reflexivity.
  - unfold after. simpl. rewrite rev_app_distr. reflexivity.
  - rewrite app_comm_cons. apply IHp.
  - rewrite app_comm_cons, <- Nat.add_succ_r. unfold shift at 2. apply H.
Qed.

(** A run that starts after [n] requests is a run from the start against
    the service shifted by [n]. *)
Lemma execFrom_shift {A} server (p : Prog A) w n done :
  execFrom server p w n done = after (rev done) (exec (shift n server) p w).
Proof.
  unfold exec. rewrite <- (Nat.add_0_r n) at 1.
  apply (execFrom_shift_gen server p w n 0 done []).
Qed.

Lemma requestsMade_ge {A} server (p : Prog A) w n :
  (n <= requestsMade server p w n)%nat.
Proof.
  revert w n. induction p; intros w n; simpl; auto.
  etransitivity; [|apply H]. auto.
Qed.

End RunFacts.

(* ===================================================================== *)
(** * Properties of the form validation                                   *)
(* ===================================================================== *)

Module FormFacts.
Import ControllerSpec.

Lemma ticked_none form :
  (length (UiManager.tickedClasses form) =? 0)%nat
  = negb (Form.cabinEconomy form || Form.cabinBusiness form
          || Form.cabinSleeper form || Form.cabinCouchette form
          || Form.cabinLoca form || Form.cabinDisabled form).
Proof.
  unfold UiManager.tickedClasses, UiManager.pushIf.
  destruct (Form.cabinEconomy form), (Form.cabinBusiness form),
    (Form.cabinSleeper form), (Form.cabinCouchette form),
    (Form.cabinLoca form), (Form.cabinDisabled form); reflexivity.
Qed.

(** [getSearchParams] awaits nothing: it either shows the message of the
    first validation that fails and returns [null], or returns the
    parameters and shows nothing. *)
Lemma getSearchParams_run isPast form w :
  runSync (UiManager.getSearchParams isPast form) w
  = match problem isPast form with
    | Some message =>
        (World.logUi (UpdateStatus message "error") w, inl (Returned None))
    | None => (w, inl (Returned (paramsOf form)))
    end.
Proof.
  unfold UiManager.getSearchParams, problem, paramsOf.
  destruct (Form.departureStation form) as [departure|]; [|reflexivity].
  destruct (Form.arrivalStation form) as [arrival|]; [|reflexivity].
  cbv zeta. rewrite ticked_none.
  destruct (Station.id departure =? Station.id arrival); [reflexivity|].
  destruct (negb (Js.truthyStr (Form.departureDate form))); [reflexivity|].
  destruct (isPast (Form.departureDate form)); [reflexivity|].
  destruct (negb (Js.truthyStr (Form.timeStart form))
            || negb (Js.truthyStr (Form.timeEnd form))); [reflexivity|].
  destruct (String.ltb (Form.timeEnd form) (Form.timeStart form)); [reflexivity|].
  destruct (negb _); reflexivity.
Qed.

Lemma ticked_known form key :
  In key (UiManager.tickedClasses form) -> Config.lookupKey key <> None.
Proof.
  unfold UiManager.tickedClasses, UiManager.pushIf.
  destruct (Form.cabinEconomy form), (Form.cabinBusiness form),
    (Form.cabinSleeper form), (Form.cabinCouchette form),
    (Form.cabinLoca form), (Form.cabinDisabled form); cbn [app In];
    intros Hin;
    repeat (destruct Hin as [<- | Hin]; [discriminate|]); destruct Hin.
Qed.

Lemma ticked_NoDup form : List.NoDup (UiManager.tickedClasses form).
Proof.
  unfold UiManager.tickedClasses, UiManager.pushIf.
  destruct (Form.cabinEconomy form), (Form.cabinBusiness form),
    (Form.cabinSleeper form), (Form.cabinCouchette form),
    (Form.cabinLoca form), (Form.cabinDisabled form); cbn [app];
    repeat (constructor; [cbn [In]; intuition discriminate|]); constructor.
Qed.

Lemma ltb_false_leb a b : String.ltb b a = false -> String.leb a b = true.
Proof.
  unfold String.ltb, String.leb. rewrite (String.compare_antisym b a).
  destruct (String.compare a b); simpl; congruence.
Qed.

(** X21. [getSearchParams] awaits nothing and never throws.  When it
    returns parameters it shows nothing, and the parameters are sound: the
    two stations differ, the date is the form's date, not empty, with its
    fields swapped for the service, the time window is not empty
    ([timeStart <= timeEnd], both set), and the selected classes are the
    ticked boxes in catalog order, at least one, without repetition, each a
    key of the catalog.  When it returns [null] the only thing it does is
    to show one message of type "error". *)
Theorem getSearchParams_validates
        (isPast : string -> bool) (form : Form.t) (w : World.t) :
  exists w' result,
    runSync (UiManager.getSearchParams isPast form) w = (w', inl (Returned result))
    /\ match result with
       | Some params =>
           w' = w
           /\ problem isPast form = None
           /\ SearchParams.departureStationId params
              <> SearchParams.arrivalStationId params
           /\ Form.departureDate form <> ""
           /\ isPast (Form.departureDate form) = false
           /\ SearchParams.departureDate params
              = Utils.convertDateToAPI (Form.departureDate form)
           /\ SearchParams.timeStart params <> ""
           /\ SearchParams.timeEnd params <> ""
           /\ String.leb (SearchParams.timeStart params)
                         (SearchParams.timeEnd params) = true
           /\ SearchParams.selectedCabinClasses params <> []
           /\ List.NoDup (SearchParams.selectedCabinClasses params)
           /\ (forall key, In key (SearchParams.selectedCabinClasses params) ->
                           Config.lookupKey key <> None)
           /\ sublist (SearchParams.selectedCabinClasses params)
                      (List.map fst Config.CABIN_CLASSES)
       | None =>
           exists message,
             problem isPast form = Some message
             /\ w' = World.logUi (UpdateStatus message "error") w
       end.
Proof.
  rewrite getSearchParams_run.
  destruct (problem isPast form) as [message|] eqn:Hproblem.
  - exists (World.logUi (UpdateStatus message "error") w), None.
    split; [reflexivity|]. exists message. split; reflexivity.
  - exists w, (paramsOf form). split; [reflexivity|].
    unfold problem in Hproblem. unfold paramsOf.
    destruct (Form.departureStation form) as [departure|]; [|discriminate].
    destruct (Form.arrivalStation form) as [arrival|]; [|discriminate].
    destruct (Station.id departure =? Station.id arrival) eqn:Hsame; [discriminate|].
    destruct (Js.truthyStr (Form.departureDate form)) eqn:Hdate; [|discriminate].
    destruct (isPast (Form.departureDate form)) eqn:Hpast; [discriminate|].
    destruct (Js.truthyStr (Form.timeStart form)) eqn:Hstart; [|discriminate].
    destruct (Js.truthyStr (Form.timeEnd form)) eqn:Hend; [|discriminate].
    cbn [negb orb] in Hproblem.
    destruct (String.ltb (Form.timeEnd form) (Form.timeStart form)) eqn:Horder;
      [discriminate|].
    rewrite <- ticked_none in Hproblem.
    destruct (length (UiManager.tickedClasses form) =? 0)%nat eqn:Hticked;
      [discriminate|].
    cbn [SearchParams.departureStationId SearchParams.arrivalStationId
         SearchParams.departureDate SearchParams.timeStart SearchParams.timeEnd
         SearchParams.selectedCabinClasses].
    split; [reflexivity|]. split; [reflexivity|].
    split; [apply Z.eqb_neq, Hsame|].
    split; [intros Hempty; rewrite Hempty in Hdate; discriminate|].
    split; [reflexivity|]. split; [reflexivity|].
    split; [intros Hempty; rewrite Hempty in Hstart; discriminate|].
    split; [intros Hempty; rewrite Hempty in Hend; discriminate|].
    split; [apply ltb_false_leb, Horder|].
    split; [intros Hnil; rewrite Hnil in Hticked; discriminate|].
    split; [apply ticked_NoDup|].
    split; [intros key; apply ticked_known|].
    unfold UiManager.tickedClasses, UiManager.pushIf.
    destruct (Form.cabinEconomy form), (Form.cabinBusiness form),
      (Form.cabinSleeper form), (Form.cabinCouchette form),
      (Form.cabinLoca form), (Form.cabinDisabled form); cbn [app];
      repeat first [apply sublist_skip | apply sublist_cons | apply sublist_nil].
Qed.

End FormFacts.
(* ===================================================================== *)
(** * Properties of one round of the search loop                          *)
(* ===================================================================== *)

Module RoundFacts.
Import RunSpec ControllerSpec.

(** A step that awaits nothing, followed by the rest. *)
Lemma execFrom_sync_then {A B} server (p : Prog A) (f : A -> Prog B)
      w w' a n done :
  runSync p w = (w', inl (Returned a)) ->
  execFrom server (p ≫= f) w n done = execFrom server (f a) w' n done.
Proof.
  intros Hp. rewrite RunFacts.execFrom_bind.
  rewrite (AsyncFacts.execFrom_sync server p w w' (Returned a) n done Hp).
  rewrite (RunFacts.requestsMade_sync server p w w' (Returned a) n Hp).
  cbn [Run.outcome Run.final Run.trace]. rewrite rev_involutive. reflexivity.
Qed.

Lemma stopSearch_run w :
  runSync SearchManager.stopSearch w = (stopped w, inl (Returned tt)).
Proof.
  unfold SearchManager.stopSearch, stopped. cbn [runSync].
  destruct (World.isSearching w); [|reflexivity]. simpl.
  destruct (World.searchInterval w); reflexivity.
Qed.

Lemma stopped_frame w :
  World.isSearching (stopped w) = false
  /\ World.isLoading (stopped w) = World.isLoading w
  /\ World.isFirstRequest (stopped w) = World.isFirstRequest w
  /\ World.allocatedSeat (stopped w) = World.allocatedSeat w
  /\ World.randomDrawn (stopped w) = World.randomDrawn w
  /\ exists shown, World.uiCalls (stopped w) = shown ++ World.uiCalls w.
Proof.
  unfold stopped. destruct (World.isSearching w) eqn:Hs; simpl.
  - destruct (World.searchInterval w); simpl;
      repeat (split; [reflexivity|]);
      exists [UpdateStatus "Arama durduruldu." "waiting"; StopMusic;
              SetSearchingState false]; reflexivity.
  - repeat (split; [first [exact Hs | reflexivity]|]). exists []. reflexivity.
Qed.

(** The [catch] block awaits nothing. *)
Lemma reportError_run error w :
  runSync (Controller.reportError error) w
  = (World.logUi
       (AddLog ("⚠️ Hata: " +:+ Error.message error +:+ " ("
                  +:+ World.currentTime w +:+ ")"))
       (World.logUi (UpdateStatus ("❌ Hata: " +:+ Error.message error) "error") w),
     inl (Returned tt)).
Proof. reflexivity. Qed.

(** [checkAvailability] run on a client that is not busy. *)
Lemma execFrom_checkAvailability server params skipDelay w n done :
  World.isLoading w = false ->
  execFrom server (TrainAPI.checkAvailability params skipDelay) w n done
  = {| Run.final := if skipDelay then w else World.drawn w;
       Run.outcome :=
         ApiSpec.bodyOrError (server n (ApiSpec.availabilityRequest params));
       Run.trace :=
         rev done
         ++ (if skipDelay then []
             else [Slept (Utils.getRandomDelay
                            Config.MIN_ANTI_BOT_DELAY Config.MAX_ANTI_BOT_DELAY
                            (World.randomOutcomes w (World.randomDrawn w)))])
         ++ [Fetched (ApiSpec.availabilityRequest params)] |}
  /\ requestsMade server (TrainAPI.checkAvailability params skipDelay) w n = S n.
Proof.
  intros Hidle.
  unfold TrainAPI.checkAvailability, ApiSpec.bodyOrError,
    ApiSpec.availabilityRequest.
  simpl. rewrite Hidle.
  destruct w as [loading alloc interval searching first timers outcomes drawn now calls].
  simpl in Hidle. subst loading.
  destruct skipDelay; simpl;
    (destruct (server n _) as [e | response]; simpl;
     [rewrite <- ?app_assoc; split; reflexivity|]);
    (destruct (Response.ok response); simpl;
     [|rewrite <- ?app_assoc; split; reflexivity]);
    destruct (Response.json response); simpl; rewrite <- ?app_assoc;
    split; reflexivity.
Qed.

(** What an allocation attempt leaves alone, and what it awaits. *)
Lemma attempt_frame server trainInfo params w :
  let r := TrackerSpec.attempt server trainInfo params w in
  (exists result, Run.outcome r = Returned result)
  /\ World.isSearching (Run.final r) = World.isSearching w
  /\ World.isLoading (Run.final r) = World.isLoading w
  /\ World.isFirstRequest (Run.final r) = World.isFirstRequest w
  /\ World.uiCalls (Run.final r) = World.uiCalls w
  /\ exists rest,
      Run.trace r = Fetched (TrackerSpec.seatMapRequest trainInfo params) :: rest.
Proof.
  unfold TrackerSpec.attempt.
  destruct (SeatAllocationManager.seatMapsOf _) as [seatMaps|];
    [|cbn; eauto 10].
  destruct (SeatLocator.findFirstAvailableSeat _ _) as [seat|]; [|cbn; eauto 10].
  destruct (TrackerSpec.granted server seat params) as [[allocationId lockFor]|];
    cbn; eauto 10.
Qed.

Lemma attempt_world server trainInfo params w w' :
  Run.trace (TrackerSpec.attempt server trainInfo params w)
  = Run.trace (TrackerSpec.attempt server trainInfo params w')
  /\ (World.allocatedSeat w = World.allocatedSeat w' ->
      World.allocatedSeat (Run.final (TrackerSpec.attempt server trainInfo params w))
      = World.allocatedSeat
          (Run.final (TrackerSpec.attempt server trainInfo params w'))).
Proof.
  unfold TrackerSpec.attempt.
  destruct (SeatAllocationManager.seatMapsOf _) as [seatMaps|]; [|cbn; auto].
  destruct (SeatLocator.findFirstAvailableSeat _ _) as [seat|]; [|cbn; auto].
  destruct (TrackerSpec.granted server seat params) as [[allocationId lockFor]|];
    cbn; auto.
Qed.

(** The run of [handleTicketsFound] on a result with seats: it returns,
    the search is stopped, the alert is played and the trains are displayed
    last; it awaits something only when no seat is held, and then what an
    allocation attempt on the first train of the result awaits. *)
Lemma handleTicketsFound_run server result params w k done :
  0 < Filter.actualAvailableSeats result ->
  let r := execFrom server (SearchManager.handleTicketsFound result params)
                    w k done in
  Run.outcome r = Returned tt
  /\ World.isSearching (Run.final r) = false
  /\ World.isLoading (Run.final r) = World.isLoading w
  /\ World.isFirstRequest (Run.final r) = World.isFirstRequest w
  /\ (exists shown,
         World.uiCalls (Run.final r)
         = DisplayResults (SearchResult.trains result) :: shown ++ World.uiCalls w
         /\ In PlayAlert shown
         /\ In (UpdateStatus
                  ("✅ YER BULUNDU! "
                     +:+ pretty (Filter.actualAvailableSeats result)
                     +:+ " yer mevcut") "found") shown)
  /\ (exists awaited,
         Run.trace r = rev done ++ awaited
         /\ (World.allocatedSeat w <> None ->
             awaited = []
             /\ World.allocatedSeat (Run.final r) = World.allocatedSeat w)
         /\ (World.allocatedSeat w = None ->
             forall first rest,
               SearchResult.trains result = first :: rest ->
               awaited
               = Run.trace (TrackerSpec.attempt (shift k server) first params w)
               /\ World.allocatedSeat (Run.final r)
                  = World.allocatedSeat
                      (Run.final
                         (TrackerSpec.attempt (shift k server) first params w)))).
Proof.
  intros Hseats r. subst r.
  unfold SearchManager.handleTicketsFound. cbv zeta.
  apply Z.ltb_lt in Hseats. rewrite Hseats.
  set (count := Filter.actualAvailableSeats result).
  set (found := UpdateStatus ("✅ YER BULUNDU! " +:+ pretty count +:+ " yer mevcut")
                             "found").
  set (logged := AddLog ("🎉 KOLTUK BULUNDU: " +:+ pretty count
                           +:+ " yer (" +:+ World.currentTime w +:+ ")")).
  set (w0 := stopped (World.logUi logged (World.logUi found w))).
  set (w1 := World.logUi PlayAlert w0).
  destruct (stopped_frame (World.logUi logged (World.logUi found w)))
    as (Hsearching & Hloading & Hfirst & Hheld & _ & shown0 & Hshown0).
  fold w0 in Hsearching, Hloading, Hfirst, Hheld, Hshown0.
  cbn [World.logUi World.isLoading World.isFirstRequest World.allocatedSeat
       World.uiCalls] in Hloading, Hfirst, Hheld, Hshown0.
  rewrite RunFacts.execFrom_bind.
  assert (Hannounce :
    exists final awaited shown,
      execFrom server
               (SearchManager.announceAndAllocate count result params) w k done
      = {| Run.final := final; Run.outcome := Returned tt;
           Run.trace := rev done ++ awaited |}
      /\ World.isSearching final = false
      /\ World.isLoading final = World.isLoading w
      /\ World.isFirstRequest final = World.isFirstRequest w
      /\ World.uiCalls final = shown ++ World.uiCalls w
      /\ In PlayAlert shown /\ In found shown
      /\ (World.allocatedSeat w <> None ->
          awaited = [] /\ World.allocatedSeat final = World.allocatedSeat w)
      /\ (World.allocatedSeat w = None ->
          forall first rest,
            SearchResult.trains result = first :: rest ->
            awaited
            = Run.trace (TrackerSpec.attempt (shift k server) first params w)
            /\ World.allocatedSeat final
               = World.allocatedSeat
                   (Run.final
                      (TrackerSpec.attempt (shift k server) first params w)))).
  { unfold SearchManager.announceAndAllocate.
    rewrite (execFrom_sync_then server (ui found) _ w (World.logUi found w) tt k done
                                eq_refl).
    rewrite (execFrom_sync_then
               server
               (GetW (fun w' =>
                  ui (AddLog ("🎉 KOLTUK BULUNDU: " +:+ pretty count
                                +:+ " yer (" +:+ World.currentTime w' +:+ ")"))))
               _ (World.logUi found w)
               (World.logUi logged (World.logUi found w)) tt k done eq_refl).
    rewrite (execFrom_sync_then server SearchManager.stopSearch _ _ w0 tt k done
                                (stopSearch_run _)).
    rewrite (execFrom_sync_then server (ui PlayAlert) _ w0 w1 tt k done eq_refl).
    rewrite (execFrom_sync_then
               server SeatAllocationManager.hasAllocatedSeat _ w1 w1
               (match World.allocatedSeat w1 with Some _ => true | None => false end)
               k done eq_refl).
    assert (Hshown1 : World.uiCalls w1
                      = (PlayAlert :: shown0 ++ [logged; found]) ++ World.uiCalls w).
    { subst w1. cbn [World.logUi World.uiCalls]. rewrite Hshown0.
      rewrite <- app_comm_cons, <- app_assoc. reflexivity. }
    assert (Halert : In PlayAlert (PlayAlert :: shown0 ++ [logged; found]))
      by (left; reflexivity).
    assert (Hfound : In found (PlayAlert :: shown0 ++ [logged; found])).
    { right. apply in_or_app. right. right. left. reflexivity. }
    change (World.allocatedSeat w1) with (World.allocatedSeat w0).
    rewrite Hheld.
    destruct (World.allocatedSeat w) as [held|] eqn:Hw; cbn [negb].
    - (* a seat is held: one more log line *)
      exists (World.logUi (AddLog "ℹ️ Zaten tutulmuş bir koltuk var.") w1), [],
             (AddLog "ℹ️ Zaten tutulmuş bir koltuk var."
                     :: PlayAlert :: shown0 ++ [logged; found]).
      split; [rewrite app_nil_r; reflexivity|].
      split; [exact Hsearching|]. split; [exact Hloading|]. split; [exact Hfirst|].
      split; [cbn [World.logUi World.uiCalls]; rewrite Hshown1; reflexivity|].
      split; [right; exact Halert|]. split; [right; exact Hfound|].
      split; [intros _; split; [reflexivity | exact Hheld] | discriminate].
    - destruct (SearchResult.trains result) as [|target others] eqn:Htrains.
      + exists w1, [], (PlayAlert :: shown0 ++ [logged; found]).
        split; [rewrite app_nil_r; reflexivity|].
        split; [exact Hsearching|]. split; [exact Hloading|]. split; [exact Hfirst|].
        split; [exact Hshown1|]. split; [exact Halert|]. split; [exact Hfound|].
        split; [congruence | intros _ first rest; discriminate].
      + set (trying := AddLog ("🎫 Otomatik koltuk tutuluyor... ("
                                 +:+ SearchManager.shown (TrainInfo.name target)
                                 +:+ ")")).
        set (w2 := World.logUi trying w1).
        rewrite (execFrom_sync_then server (ui trying) _ w1 w2 tt k done eq_refl).
        rewrite RunFacts.execFrom_bind.
        rewrite (RunFacts.execFrom_shift
                   server
                   (SeatAllocationManager.checkAndAllocateFirstSeat target params)
                   w2 k done).
        rewrite TrackerFacts.exec_checkAndAllocateFirstSeat.
        destruct (attempt_frame (shift k server) target params w2)
          as ((outcome & Houtcome) & Hs2 & Hl2 & Hf2 & Hu2 & _).
        destruct (attempt_world (shift k server) target params w2 w)
          as (Htrace & Hallocated).
        set (tried := TrackerSpec.attempt (shift k server) target params w2) in *.
        unfold after. cbn [Run.outcome Run.final Run.trace].
        rewrite Houtcome.
        assert (Htail : forall n,
          exists final shown,
            execFrom server
              (if Outcome.success outcome
               then ui (AddLog ("✅ BAŞARILI: " +:+ Outcome.message outcome));;
                    ui (ShowAllocatedSeat (Outcome.seatInfo outcome))
               else ui (AddLog ("⚠️ Koltuk tutulamadı: "
                                  +:+ Outcome.message outcome)))
              (Run.final tried) n (rev (rev done ++ Run.trace tried))
            = {| Run.final := final; Run.outcome := Returned tt;
                 Run.trace := rev done ++ Run.trace tried |}
            /\ World.isSearching final = World.isSearching (Run.final tried)
            /\ World.isLoading final = World.isLoading (Run.final tried)
            /\ World.isFirstRequest final = World.isFirstRequest (Run.final tried)
            /\ World.allocatedSeat final = World.allocatedSeat (Run.final tried)
            /\ World.uiCalls final = shown ++ World.uiCalls (Run.final tried)).
        { intros n. destruct (Outcome.success outcome).
          - eexists _, [_; _]. cbn [execFrom bind mbind prog_bind ui modify].
            rewrite rev_involutive. repeat (split; [reflexivity|]). reflexivity.
          - eexists _, [_]. cbn [execFrom bind mbind prog_bind ui modify].
            rewrite rev_involutive. repeat (split; [reflexivity|]). reflexivity. }
        destruct (Htail (requestsMade
                           server
                           (SeatAllocationManager.checkAndAllocateFirstSeat
                              target params) w2 k))
          as (final & shown & -> & Hs3 & Hl3 & Hf3 & Ha3 & Hu3).
        exists final, (Run.trace tried),
               (shown ++ trying :: PlayAlert :: shown0 ++ [logged; found]).
        split; [reflexivity|].
        split; [rewrite Hs3, Hs2; exact Hsearching|].
        split; [rewrite Hl3, Hl2; exact Hloading|].
        split; [rewrite Hf3, Hf2; exact Hfirst|].
        split.
        { rewrite Hu3, Hu2. subst w2. cbn [World.logUi World.uiCalls].
          rewrite Hshown1, <- app_assoc. reflexivity. }
        split; [apply in_or_app; right; right; exact Halert|].
        split; [apply in_or_app; right; right; exact Hfound|].
        split; [congruence|].
        intros _ first rest [= <- <-].
        split; [exact Htrace|]. rewrite Ha3. apply Hallocated.
        subst w2. cbn [World.logUi World.allocatedSeat].
        change (World.allocatedSeat w1) with (World.allocatedSeat w0).
        rewrite Hheld. symmetry. exact Hw. }
  destruct Hannounce
    as (final & awaited & shown & -> & Hs & Hl & Hf & Hu & Halert & Hfound
        & Hheld' & Hfree).
  cbn [Run.outcome Run.final Run.trace].
  rewrite (AsyncFacts.execFrom_sync
             server (ui (DisplayResults (SearchResult.trains result))) final
             (World.logUi (DisplayResults (SearchResult.trains result)) final)
             (Returned tt) _ _ eq_refl).
  cbn [Run.outcome Run.final Run.trace World.logUi World.isSearching
       World.isLoading World.isFirstRequest World.uiCalls World.allocatedSeat].
  rewrite rev_involutive.
  split; [reflexivity|]. split; [exact Hs|]. split; [exact Hl|].
  split; [exact Hf|].
  split; [exists shown; rewrite Hu; auto|].
  exists awaited. split; [reflexivity|]. split; [exact Hheld' | exact Hfree].
Qed.

(** A step inside [try] that awaits nothing and returns. *)
Lemma tryCatch_sync_then {A B} server (p : Prog A) (f : A -> Prog B) handler
      w w' a n done :
  runSync p w = (w', inl (Returned a)) ->
  execFrom server (tryCatch (p ≫= f) handler) w n done
  = execFrom server (tryCatch (f a) handler) w' n done.
Proof.
  change (p ≫= f) with (bind f p).
  revert w. induction p; intros w Hp; simpl in *; try discriminate; auto.
  injection Hp as <- <-. reflexivity.
Qed.

(** A result the filter reports as found has seats to announce. *)
Lemma found_positive formatTime data timeStart timeEnd selected :
  SearchResult.found
    (Filter.processTrainData formatTime data timeStart timeEnd selected) = true ->
  0 < Filter.actualAvailableSeats
        (Filter.processTrainData formatTime data timeStart timeEnd selected)
  /\ SearchResult.trains
       (Filter.processTrainData formatTime data timeStart timeEnd selected) <> [].
Proof.
  intros Hfound. rewrite FilterFacts.processTrainData_found in Hfound.
  destruct (SearchResult.trains
              (Filter.processTrainData formatTime data timeStart timeEnd selected))
    as [|info rest] eqn:Htrains; [discriminate|].
  split; [|discriminate].
  assert (Hin : In info (SearchResult.trains
                           (Filter.processTrainData formatTime data timeStart
                                                    timeEnd selected)))
    by (rewrite Htrains; left; reflexivity).
  apply FilterFacts.in_trains in Hin as (train & _ & _ & Hhas).
  apply FilterFacts.hasAvailable_iff in Hhas as (cabin & Hcabin & Hcounts).
  apply SumFacts.actualAvailableSeats_pos.
  exists info, cabin. rewrite Htrains. split; [left; reflexivity|]. auto.
Qed.

(** The round of a client that is not busy, for a form that passes the
    validation: up to the answer of the service. *)
Lemma round_start formatTime isPast server form params w :
  World.isLoading w = false ->
  problem isPast form = None ->
  paramsOf form = Some params ->
  exec server (Controller.performCheck formatTime isPast form) w
  = execFrom server
      (tryCatch
         (TrainAPI.checkAvailability params (World.isFirstRequest w)
            ≫= Controller.handleData formatTime params)
         Controller.reportError)
      (Controller.setFirstRequest
         false (World.logUi (UpdateStatus "Kontrol ediliyor..." "searching") w))
      0 [].
Proof.
  intros Hidle Hproblem Hparams. unfold exec, Controller.performCheck.
  rewrite (execFrom_sync_then server TrainAPI.isRequestInProgress _ w w
                              (World.isLoading w) 0 [] eq_refl).
  rewrite Hidle. unfold Controller.checkBody.
  assert (Hform : runSync (UiManager.getSearchParams isPast form) w
                  = (w, inl (Returned (Some params)))).
  { rewrite FormFacts.getSearchParams_run, Hproblem, Hparams. reflexivity. }
  rewrite (tryCatch_sync_then server _ _ _ w w (Some params) 0 [] Hform).
  reflexivity.
Qed.

(** The same round, up to what follows the answer. *)
Lemma round_run formatTime isPast server form params w :
  World.isLoading w = false ->
  problem isPast form = None ->
  paramsOf form = Some params ->
  let w1 := Controller.setFirstRequest
              false (World.logUi (UpdateStatus "Kontrol ediliyor..." "searching") w) in
  let w2 := if World.isFirstRequest w then w1 else World.drawn w1 in
  let before := delayOf w ++ [Fetched (ApiSpec.availabilityRequest params)] in
  exec server (Controller.performCheck formatTime isPast form) w
  = match ApiSpec.bodyOrError (server 0%nat (ApiSpec.availabilityRequest params)) with
    | Thrown e =>
        {| Run.final := fst (runSync (Controller.reportError e) w2);
           Run.outcome := Returned tt;
           Run.trace := before |}
    | Returned data =>
        let r := execFrom server (Controller.handleData formatTime params data)
                          w2 1 (rev before) in
        match Run.outcome r with
        | Returned a =>
            {| Run.final := Run.final r; Run.outcome := Returned a;
               Run.trace := Run.trace r |}
        | Thrown e =>
            {| Run.final := fst (runSync (Controller.reportError e) (Run.final r));
               Run.outcome := Returned tt;
               Run.trace := Run.trace r |}
        end
    end.
Proof.
  intros Hidle Hproblem Hparams w1 w2 before.
  rewrite (round_start formatTime isPast server form params w Hidle Hproblem Hparams).
  fold w1.
  assert (Hidle1 : World.isLoading w1 = false) by exact Hidle.
  destruct (execFrom_checkAvailability server params (World.isFirstRequest w)
                                       w1 0 [] Hidle1) as [Hrun Hmade].
  rewrite RunFacts.execFrom_tryCatch, RunFacts.execFrom_bind, Hrun, Hmade.
  cbn [Run.outcome Run.final Run.trace rev app].
  change (if World.isFirstRequest w then w1 else World.drawn w1) with w2.
  change ((if World.isFirstRequest w
           then []
           else [Slept (Utils.getRandomDelay
                          Config.MIN_ANTI_BOT_DELAY Config.MAX_ANTI_BOT_DELAY
                          (World.randomOutcomes w1 (World.randomDrawn w1)))])
          ++ [Fetched (ApiSpec.availabilityRequest params)]) with before.
  destruct (ApiSpec.bodyOrError _) as [data | e].
  - cbv zeta.
    destruct (Run.outcome (execFrom server
                                    (Controller.handleData formatTime params data)
                                    w2 1 (rev before))) as [a | e]; [reflexivity|].
    rewrite (AsyncFacts.execFrom_sync server (Controller.reportError e) _ _ _ _ _
                                      (reportError_run e _)).
    rewrite rev_involutive. reflexivity.
  - cbn [Run.outcome Run.final Run.trace].
    rewrite (AsyncFacts.execFrom_sync server (Controller.reportError e) _ _ _ _ _
                                      (reportError_run e _)).
    rewrite rev_involutive. reflexivity.
Qed.

(** What follows the answer when nothing is found. *)
Lemma handleData_nothing formatTime server params data w n done :
  SearchResult.found (resultOf formatTime params data) = false ->
  execFrom server (Controller.handleData formatTime params data) w n done
  = {| Run.final :=
         match data with
         | BNull => w
         | _ =>
             World.logUi
               (DisplayResults [])
               (World.logUi
                  (UpdateStatus "Belirtilen saat aralığında boş koltuk bulunamadı. Arama devam ediyor..." "searching") w)
         end;
       Run.outcome := Returned tt;
       Run.trace := rev done |}.
Proof.
  unfold resultOf, Controller.handleData. intros Hnone.
  destruct data; [reflexivity|..]; cbv zeta; rewrite Hnone; reflexivity.
Qed.

(** What follows the answer when seats are found. *)
Lemma handleData_found formatTime server params data w n done :
  SearchResult.found (resultOf formatTime params data) = true ->
  execFrom server (Controller.handleData formatTime params data) w n done
  = execFrom server
             (Controller.detached
                (SearchManager.handleTicketsFound (resultOf formatTime params data)
                                                  params))
             w n done.
Proof.
  unfold resultOf, Controller.handleData. intros Hfound.
  destruct data; [discriminate Hfound|..]; cbv zeta; rewrite Hfound; reflexivity.
Qed.

End RoundFacts.
(* ===================================================================== *)
(** * One round of the search loop: [performCheck]                        *)
(* ===================================================================== *)

Module PerformCheck.
Import RunSpec ControllerSpec RoundFacts.

Lemma valid_params isPast form :
  problem isPast form = None -> exists params, paramsOf form = Some params.
Proof.
  unfold problem, paramsOf.
  destruct (Form.departureStation form); [|discriminate].
  destruct (Form.arrivalStation form); [|discriminate]. eauto.
Qed.

(** The round of a client that is not busy for a form that fails the
    validation. *)
Lemma invalid_run formatTime isPast server form message w :
  World.isLoading w = false ->
  problem isPast form = Some message ->
  exec server (Controller.performCheck formatTime isPast form) w
  = {| Run.final := stopped (World.logUi (UpdateStatus message "error") w);
       Run.outcome := Returned tt;
       Run.trace := [] |}.
Proof.
  intros Hidle Hproblem. unfold exec, Controller.performCheck.
  rewrite (execFrom_sync_then server TrainAPI.isRequestInProgress _ w w
                              (World.isLoading w) 0 [] eq_refl).
  rewrite Hidle. unfold Controller.checkBody.
  assert (Hform : runSync (UiManager.getSearchParams isPast form) w
                  = (World.logUi (UpdateStatus message "error") w,
                     inl (Returned None))).
  { rewrite FormFacts.getSearchParams_run, Hproblem. reflexivity. }
  rewrite (tryCatch_sync_then server _ _ _ w _ None 0 [] Hform).
  rewrite RunFacts.execFrom_tryCatch.
  rewrite (AsyncFacts.execFrom_sync server SearchManager.stopSearch _ _ _ 0%nat []
                                    (stopSearch_run _)).
  reflexivity.
Qed.

(** X22. A round that starts while a [checkAvailability] call is in
    flight does nothing at all: it does not read the form, shows nothing,
    makes no request and leaves the page as it is, even when the form would
    fail the validation. *)
Theorem performCheck_skips_when_busy
        (formatTime : Z -> string) (isPast : string -> bool) (server : Server)
        (form : Form.t) (w : World.t)
        (Hbusy : World.isLoading w = true) :
  exec server (Controller.performCheck formatTime isPast form) w
  = {| Run.final := w; Run.outcome := Returned tt; Run.trace := [] |}.
Proof.
  unfold exec, Controller.performCheck.
  rewrite (execFrom_sync_then server TrainAPI.isRequestInProgress _ w w
                              (World.isLoading w) 0 [] eq_refl).
  rewrite Hbusy. reflexivity.
Qed.

Lemma performCheck_skips_when_busy_witness :
  Run.final (exec Sample.offline
                  (Controller.performCheck Sample.clock Rounds.early Rounds.noClass)
                  (World.setLoading true Sample.searching))
  = World.setLoading true Sample.searching.
Proof.
  rewrite (performCheck_skips_when_busy
             Sample.clock Rounds.early Sample.offline Rounds.noClass
             (World.setLoading true Sample.searching) eq_refl).
  reflexivity.
Defined.

(** X23. A round on a client that is not busy, for a form that fails the
    validation, makes no request and stops the search: it shows the message
    of the failed validation, then does what [stopSearch] does.  When a
    search was running, the status shown last is therefore "Arama
    durduruldu." and not the validation message; the flag of the first
    request is left as it was. *)
Theorem performCheck_invalid_form_stops
        (formatTime : Z -> string) (isPast : string -> bool) (server : Server)
        (form : Form.t) (message : string) (w : World.t)
        (Hidle : World.isLoading w = false)
        (Hproblem : problem isPast form = Some message) :
  let run := exec server (Controller.performCheck formatTime isPast form) w in
  Run.trace run = []
  /\ Run.outcome run = Returned tt
  /\ Run.final run = stopped (World.logUi (UpdateStatus message "error") w)
  /\ World.isSearching (Run.final run) = false
  /\ World.isFirstRequest (Run.final run) = World.isFirstRequest w
  /\ World.allocatedSeat (Run.final run) = World.allocatedSeat w
  /\ (World.isSearching w = true ->
      World.searchInterval (Run.final run) = None
      /\ exists earlier,
          World.uiCalls (Run.final run)
          = UpdateStatus "Arama durduruldu." "waiting" :: earlier
          /\ In (UpdateStatus message "error") earlier)
  /\ (World.isSearching w = false ->
      World.uiCalls (Run.final run)
      = UpdateStatus message "error" :: World.uiCalls w).
Proof.
  intros run. subst run.
  rewrite (invalid_run formatTime isPast server form message w Hidle Hproblem).
  cbn [Run.trace Run.outcome Run.final].
  destruct (stopped_frame (World.logUi (UpdateStatus message "error") w))
    as (Hs & _ & Hf & Ha & _ & _).
  split; [reflexivity|]. split; [reflexivity|]. split; [reflexivity|].
  split; [exact Hs|]. split; [exact Hf|]. split; [exact Ha|].
  unfold stopped. cbn [World.logUi World.isSearching].
  split; intros Hsearching; rewrite Hsearching; cbn [negb].
  - destruct (World.searchInterval w) as [handle|] eqn:Hinterval;
      cbn [World.logUi World.setSearching World.searchInterval
           World.setSearchInterval World.clearInterval World.uiCalls];
      rewrite ?Hinterval;
      cbn [World.logUi World.setSearching World.searchInterval
           World.setSearchInterval World.clearInterval World.uiCalls].
    + split; [reflexivity|]. eexists. split; [reflexivity|].
      right. right. left. reflexivity.
    + split; [exact Hinterval|]. eexists. split; [reflexivity|].
      right. right. left. reflexivity.
  - reflexivity.
Qed.

Lemma performCheck_invalid_form_stops_witness :
  let run := exec Sample.offline
                  (Controller.performCheck Sample.clock Rounds.early Rounds.noClass)
                  Sample.searching in
  Run.trace run = [] /\ World.isSearching (Run.final run) = false.
Proof.
  intros run.
  destruct (performCheck_invalid_form_stops
              Sample.clock Rounds.early Sample.offline Rounds.noClass
              "⚠️ En az bir sınıf seçmelisiniz" Sample.searching eq_refl eq_refl)
    as (Htrace & _ & _ & Hstopped & _).
  split; [exact Htrace | exact Hstopped].
Defined.

(** An allocation attempt sleeps never and makes one or two requests. *)
Lemma attempt_trace server trainInfo params w :
  Trace.sleeps (Run.trace (TrackerSpec.attempt server trainInfo params w)) = []
  /\ (Trace.fetchCount
        (Run.trace (TrackerSpec.attempt server trainInfo params w)) <= 2)%nat.
Proof.
  unfold TrackerSpec.attempt.
  destruct (SeatAllocationManager.seatMapsOf _) as [seatMaps|];
    [|split; [reflexivity | cbn; lia]].
  destruct (SeatLocator.findFirstAvailableSeat _ _) as [seat|];
    [|split; [reflexivity | cbn; lia]].
  destruct (TrackerSpec.granted server seat params) as [[allocationId lockFor]|];
    split; first [reflexivity | cbn; lia].
Qed.

(** What every round of a client that is not busy has in common when the
    form passes the validation. *)
Lemma round_summary formatTime isPast server form params w :
  World.isLoading w = false ->
  problem isPast form = None ->
  paramsOf form = Some params ->
  let run := exec server (Controller.performCheck formatTime isPast form) w in
  Run.outcome run = Returned tt
  /\ World.isLoading (Run.final run) = false
  /\ World.isFirstRequest (Run.final run) = false
  /\ (exists shown, World.uiCalls (Run.final run) = shown ++ World.uiCalls w)
  /\ exists awaited,
      Run.trace run
      = delayOf w ++ Fetched (ApiSpec.availabilityRequest params) :: awaited
      /\ Trace.sleeps awaited = []
      /\ (Trace.fetchCount awaited <= 2)%nat.
Proof.
  intros Hidle Hproblem Hparams run. subst run.
  rewrite (round_run formatTime isPast server form params w Hidle Hproblem Hparams).
  cbv zeta.
  set (w1 := Controller.setFirstRequest
               false (World.logUi (UpdateStatus "Kontrol ediliyor..." "searching") w)).
  set (w2 := if World.isFirstRequest w then w1 else World.drawn w1).
  set (request := ApiSpec.availabilityRequest params).
  assert (Hw2 : World.isLoading w2 = false
                /\ World.isFirstRequest w2 = false
                /\ World.uiCalls w2
                   = UpdateStatus "Kontrol ediliyor..." "searching"
                                  :: World.uiCalls w).
  { subst w2 w1. destruct (World.isFirstRequest w);
      (split; [exact Hidle | split; reflexivity]). }
  destruct Hw2 as (Hloading2 & Hfirst2 & Hcalls2).
  destruct (ApiSpec.bodyOrError (server 0%nat request)) as [data | e].
  - destruct (SearchResult.found (resultOf formatTime params data)) eqn:Hfound.
    + rewrite (handleData_found formatTime server params data _ _ _ Hfound).
      unfold Controller.detached. rewrite RunFacts.execFrom_tryCatch.
      destruct (found_positive formatTime _ _ _ _ Hfound) as [Hseats _].
      fold (resultOf formatTime params data) in Hseats.
      destruct (handleTicketsFound_run
                  server (resultOf formatTime params data) params w2 1
                  (rev (delayOf w ++ [Fetched request])) Hseats)
        as (Hout & _ & Hl & Hf & (shown & Hshown & _) & awaited & Htrace
            & Hheld & Hfree).
      rewrite Hout. cbn [Run.outcome Run.final Run.trace].
      split; [reflexivity|]. split; [rewrite Hl; exact Hloading2|].
      split; [rewrite Hf; exact Hfirst2|].
      split.
      { exists (DisplayResults
                  (SearchResult.trains (resultOf formatTime params data))
                  :: shown ++ [UpdateStatus "Kontrol ediliyor..." "searching"]).
        rewrite Hshown, Hcalls2, <- app_comm_cons, <- app_assoc. reflexivity. }
      exists awaited. rewrite Htrace, rev_involutive, <- app_assoc.
      split; [reflexivity|].
      destruct (World.allocatedSeat w2) as [held|] eqn:Hseat.
      * destruct Hheld as [-> _]; [congruence|]. split; [reflexivity | cbn; lia].
      * destruct (SearchResult.trains (resultOf formatTime params data))
          as [|first rest] eqn:Htrains.
        { destruct (found_positive formatTime _ _ _ _ Hfound) as [_ Hne].
          fold (resultOf formatTime params data) in Hne. congruence. }
        destruct (Hfree eq_refl first rest eq_refl) as [-> _].
        apply attempt_trace.
    + rewrite (handleData_nothing formatTime server params data _ _ _ Hfound).
      cbn [Run.outcome Run.final Run.trace]. rewrite rev_involutive.
      split; [reflexivity|].
      split; [destruct data; exact Hloading2|].
      split; [destruct data; exact Hfirst2|].
      split.
      { destruct data; cbn [World.logUi World.uiCalls]; rewrite Hcalls2;
          [exists [UpdateStatus "Kontrol ediliyor..." "searching"]; reflexivity|..];
          eexists [_; _; _]; reflexivity. }
      exists []. split; [reflexivity|]. split; [reflexivity | cbn; lia].
  - cbn [Run.outcome Run.final Run.trace].
    rewrite reportError_run. cbn [fst World.logUi World.isLoading
                                  World.isFirstRequest World.uiCalls].
    split; [reflexivity|]. split; [exact Hloading2|]. split; [exact Hfirst2|].
    split; [rewrite Hcalls2; eexists [_; _; _]; reflexivity|].
    exists []. split; [reflexivity|]. split; [reflexivity | cbn; lia].
Qed.

(** X24. [performCheck] never throws, whatever the form holds, whatever
    the service answers and whatever the state of the page: it returns after
    at most three requests, the in-flight flag is afterwards what it was
    before, and nothing that was shown before the round is taken back from
    the list of calls on the presentation layer. *)
Theorem performCheck_never_throws
        (formatTime : Z -> string) (isPast : string -> bool) (server : Server)
        (form : Form.t) (w : World.t) :
  let run := exec server (Controller.performCheck formatTime isPast form) w in
  Run.outcome run = Returned tt
  /\ World.isLoading (Run.final run) = World.isLoading w
  /\ (exists shown, World.uiCalls (Run.final run) = shown ++ World.uiCalls w)
  /\ (Trace.fetchCount (Run.trace run) <= 3)%nat
  /\ (length (Trace.sleeps (Run.trace run)) <= 1)%nat.
Proof.
  intros run. subst run.
  destruct (World.isLoading w) eqn:Hloading.
  - unfold exec, Controller.performCheck.
    rewrite (execFrom_sync_then server TrainAPI.isRequestInProgress _ w w
                                (World.isLoading w) 0 [] eq_refl).
    rewrite Hloading. cbn [execFrom Run.outcome Run.final Run.trace rev].
    split; [reflexivity|]. split; [exact Hloading|].
    split; [exists []; reflexivity|]. split; cbn; lia.
  - destruct (problem isPast form) as [message|] eqn:Hproblem.
    + rewrite (invalid_run formatTime isPast server form message w
                           Hloading Hproblem).
      cbn [Run.outcome Run.final Run.trace].
      destruct (stopped_frame (World.logUi (UpdateStatus message "error") w))
        as (_ & Hl & _ & _ & _ & shown & Hshown).
      split; [reflexivity|]. split; [rewrite Hl; exact Hloading|].
      split.
      { exists (shown ++ [UpdateStatus message "error"]).
        rewrite Hshown, <- app_assoc. reflexivity. }
      split; cbn; lia.
    + destruct (valid_params isPast form Hproblem) as [params Hparams].
      destruct (round_summary formatTime isPast server form params w
                              Hloading Hproblem Hparams)
        as (Hout & Hl & _ & Hshown & awaited & Htrace & Hsleeps & Hcount).
      split; [exact Hout|]. split; [exact Hl|]. split; [exact Hshown|].
      rewrite Htrace. unfold Trace.fetchCount, Trace.requests, Trace.sleeps in *.
      rewrite !omap_app, !length_app.
      unfold delayOf. destruct (World.isFirstRequest w);
        rewrite ?FilterMore.omap_cons, ?Hsleeps; cbn [length app];
        change (omap (fun io : Io => match io with
                                     | Slept _ => None
                                     | Fetched req => Some req
                                     end) []) with (@nil Request);
        change (omap (fun io : Io => match io with
                                     | Slept ms => Some ms
                                     | Fetched _ => None
                                     end) []) with (@nil Z);
        cbn [length]; split; lia.
Qed.

(** X25. On a client that is not busy and for a form that passes the
    validation, a round starts with the availability request for the
    parameters of the form: immediately when the flag of the first request
    is set, and after one sleep of a random delay otherwise.  The round
    clears the flag, so the next round sleeps; and no round sleeps more
    than this once. *)
Theorem performCheck_delays_after_first
        (formatTime : Z -> string) (isPast : string -> bool) (server : Server)
        (form : Form.t) (params : SearchParams.t) (w : World.t)
        (Hidle : World.isLoading w = false)
        (Hproblem : problem isPast form = None)
        (Hparams : paramsOf form = Some params) :
  let run := exec server (Controller.performCheck formatTime isPast form) w in
  (exists awaited,
      Run.trace run
      = delayOf w ++ Fetched (ApiSpec.availabilityRequest params) :: awaited
      /\ Trace.sleeps awaited = [])
  /\ Trace.sleeps (Run.trace run)
     = (if World.isFirstRequest w then []
        else [Utils.getRandomDelay
                Config.MIN_ANTI_BOT_DELAY Config.MAX_ANTI_BOT_DELAY
                (World.randomOutcomes w (World.randomDrawn w))])
  /\ World.isFirstRequest (Run.final run) = false
  /\ delayOf (Run.final run) <> [].
Proof.
  intros run.
  destruct (round_summary formatTime isPast server form params w
                          Hidle Hproblem Hparams)
    as (_ & _ & Hfirst & _ & awaited & Htrace & Hsleeps & _).
  fold run in Hfirst, Htrace.
  split; [exists awaited; auto|].
  split.
  - rewrite Htrace. unfold Trace.sleeps in *. rewrite omap_app.
    unfold delayOf. destruct (World.isFirstRequest w);
      rewrite !FilterMore.omap_cons, Hsleeps; reflexivity.
  - split; [exact Hfirst|]. unfold delayOf. rewrite Hfirst. discriminate.
Qed.

Lemma performCheck_delays_after_first_witness :
  let run := exec Sample.offline
                  (Controller.performCheck Sample.clock Rounds.early Rounds.form)
                  Sample.searching in
  Trace.sleeps (Run.trace run) = [5500]
  /\ World.isFirstRequest (Run.final run) = false.
Proof.
  intros run.
  destruct (performCheck_delays_after_first
              Sample.clock Rounds.early Sample.offline Rounds.form Sample.params
              Sample.searching eq_refl eq_refl eq_refl)
    as (_ & Hsleeps & Hfirst & _).
  split; [exact Hsleeps | exact Hfirst].
Defined.

(** X26. When the availability request of a round fails (the request is
    rejected, the status is an error or the body does not parse), the
    error is shown and logged and nothing else happens: no further request,
    and the search goes on, with its flag, its timer and the stored
    allocation untouched and the in-flight flag cleared for the next
    round. *)
Theorem performCheck_error_keeps_searching
        (formatTime : Z -> string) (isPast : string -> bool) (server : Server)
        (form : Form.t) (params : SearchParams.t) (error : Error.t) (w : World.t)
        (Hidle : World.isLoading w = false)
        (Hproblem : problem isPast form = None)
        (Hparams : paramsOf form = Some params)
        (Herror : ApiSpec.bodyOrError
                    (server 0%nat (ApiSpec.availabilityRequest params))
                  = Thrown error) :
  let run := exec server (Controller.performCheck formatTime isPast form) w in
  Run.outcome run = Returned tt
  /\ Run.trace run = delayOf w ++ [Fetched (ApiSpec.availabilityRequest params)]
  /\ World.uiCalls (Run.final run)
     = [ AddLog ("⚠️ Hata: " +:+ Error.message error +:+ " ("
                   +:+ World.currentTime w +:+ ")");
         UpdateStatus ("❌ Hata: " +:+ Error.message error) "error";
         UpdateStatus "Kontrol ediliyor..." "searching" ] ++ World.uiCalls w
  /\ World.isSearching (Run.final run) = World.isSearching w
  /\ World.searchInterval (Run.final run) = World.searchInterval w
  /\ World.timers (Run.final run) = World.timers w
  /\ World.allocatedSeat (Run.final run) = World.allocatedSeat w
  /\ World.isLoading (Run.final run) = false.
Proof.
  intros run. subst run.
  rewrite (round_run formatTime isPast server form params w Hidle Hproblem Hparams).
  cbv zeta. rewrite Herror, reportError_run.
  cbn [Run.outcome Run.final Run.trace fst].
  destruct (World.isFirstRequest w);
    (split; [reflexivity|]); (split; [reflexivity|]); (split; [reflexivity|]);
    (split; [reflexivity|]); (split; [reflexivity|]); (split; [reflexivity|]);
    (split; [reflexivity | exact Hidle]).
Qed.

Lemma performCheck_error_keeps_searching_witness :
  let run := exec Sample.offline
                  (Controller.performCheck Sample.clock Rounds.early Rounds.form)
                  Sample.searching in
  World.isSearching (Run.final run) = true
  /\ World.searchInterval (Run.final run) = Some 5%positive.
Proof.
  intros run.
  destruct (performCheck_error_keeps_searching
              Sample.clock Rounds.early Sample.offline Rounds.form Sample.params
              {| Error.message := "Failed to fetch" |} Sample.searching
              eq_refl eq_refl eq_refl eq_refl)
    as (_ & _ & _ & Hsearching & Hinterval & _).
  split; [exact Hsearching | exact Hinterval].
Defined.

(** X27. When the service answers a round and the filter finds nothing,
    the search goes on: no further request is made, the flag, the timer and
    the stored allocation are untouched, and the round shows the status
    "... boş koltuk bulunamadı. Arama devam ediyor..." and an empty result
    list; for the body [null] it shows nothing beyond "Kontrol
    ediliyor...". *)
Theorem performCheck_nothing_found
        (formatTime : Z -> string) (isPast : string -> bool) (server : Server)
        (form : Form.t) (params : SearchParams.t) (data : Body) (w : World.t)
        (Hidle : World.isLoading w = false)
        (Hproblem : problem isPast form = None)
        (Hparams : paramsOf form = Some params)
        (Hdata : ApiSpec.bodyOrError
                   (server 0%nat (ApiSpec.availabilityRequest params))
                 = Returned data)
        (Hnone : SearchResult.found (resultOf formatTime params data) = false) :
  let run := exec server (Controller.performCheck formatTime isPast form) w in
  Run.outcome run = Returned tt
  /\ Run.trace run = delayOf w ++ [Fetched (ApiSpec.availabilityRequest params)]
  /\ World.uiCalls (Run.final run)
     = match data with
       | BNull => []
       | _ => [ DisplayResults [];
                UpdateStatus "Belirtilen saat aralığında boş koltuk bulunamadı. Arama devam ediyor..." "searching" ]
       end ++ UpdateStatus "Kontrol ediliyor..." "searching" :: World.uiCalls w
  /\ World.isSearching (Run.final run) = World.isSearching w
  /\ World.searchInterval (Run.final run) = World.searchInterval w
  /\ World.timers (Run.final run) = World.timers w
  /\ World.allocatedSeat (Run.final run) = World.allocatedSeat w
  /\ World.isLoading (Run.final run) = false.
Proof.
  intros run. subst run.
  rewrite (round_run formatTime isPast server form params w Hidle Hproblem Hparams).
  cbv zeta. rewrite Hdata.
  rewrite (handleData_nothing formatTime server params data _ _ _ Hnone).
  cbn [Run.outcome Run.final Run.trace]. rewrite rev_involutive.
  destruct (World.isFirstRequest w); destruct data;
    (split; [reflexivity|]); (split; [reflexivity|]); (split; [reflexivity|]);
    (split; [reflexivity|]); (split; [reflexivity|]); (split; [reflexivity|]);
    (split; [reflexivity | exact Hidle]).
Qed.

Lemma performCheck_nothing_found_witness :
  let run := exec (Rounds.answering Sample.soldOut)
                  (Controller.performCheck Sample.clock Rounds.early Rounds.form)
                  Sample.searching in
  World.isSearching (Run.final run) = true
  /\ Trace.fetchCount (Run.trace run) = 1%nat.
Proof.
  intros run.
  destruct (performCheck_nothing_found
              Sample.clock Rounds.early (Rounds.answering Sample.soldOut)
              Rounds.form Sample.params (BAvailability Sample.soldOut)
              Sample.searching eq_refl eq_refl eq_refl eq_refl eq_refl)
    as (_ & Htrace & _ & Hsearching & _).
  split; [exact Hsearching|]. fold run in Htrace. rewrite Htrace. reflexivity.
Defined.

(** X28. When the service answers a round and the filter finds seats, the
    round announces the number of seats [handleTicketsFound] counts, which
    is positive, stops the search, plays the alert and displays the found
    trains last; the branch for a sold-out result is never taken.  When a
    seat is already held it makes no further request and keeps that seat;
    otherwise it goes on with an allocation attempt on the first train of
    the filtered list, whose first request is the seat map of that train. *)
Theorem performCheck_found_stops_and_allocates
        (formatTime : Z -> string) (isPast : string -> bool) (server : Server)
        (form : Form.t) (params : SearchParams.t) (data : Body) (w : World.t)
        (Hidle : World.isLoading w = false)
        (Hproblem : problem isPast form = None)
        (Hparams : paramsOf form = Some params)
        (Hdata : ApiSpec.bodyOrError
                   (server 0%nat (ApiSpec.availabilityRequest params))
                 = Returned data)
        (Hfound : SearchResult.found (resultOf formatTime params data) = true) :
  let run := exec server (Controller.performCheck formatTime isPast form) w in
  let result := resultOf formatTime params data in
  Run.outcome run = Returned tt
  /\ 0 < Filter.actualAvailableSeats result
  /\ World.isSearching (Run.final run) = false
  /\ World.isLoading (Run.final run) = false
  /\ (exists shown,
         World.uiCalls (Run.final run)
         = DisplayResults (SearchResult.trains result)
             :: shown ++ UpdateStatus "Kontrol ediliyor..." "searching"
             :: World.uiCalls w
         /\ In PlayAlert shown
         /\ In (UpdateStatus
                  ("✅ YER BULUNDU! "
                     +:+ pretty (Filter.actualAvailableSeats result)
                     +:+ " yer mevcut") "found") shown)
  /\ (World.allocatedSeat w <> None ->
      Run.trace run = delayOf w ++ [Fetched (ApiSpec.availabilityRequest params)]
      /\ World.allocatedSeat (Run.final run) = World.allocatedSeat w)
  /\ (World.allocatedSeat w = None ->
      exists first rest later,
        SearchResult.trains result = first :: rest
        /\ Run.trace run
           = delayOf w
               ++ Fetched (ApiSpec.availabilityRequest params)
               :: Fetched (TrackerSpec.seatMapRequest first params) :: later
        /\ Run.trace run
           = delayOf w
               ++ Fetched (ApiSpec.availabilityRequest params)
               :: Run.trace (TrackerSpec.attempt (shift 1 server) first params w)
        /\ World.allocatedSeat (Run.final run)
           = World.allocatedSeat
               (Run.final (TrackerSpec.attempt (shift 1 server) first params w))).
Proof.
  intros run result. subst run.
  rewrite (round_run formatTime isPast server form params w Hidle Hproblem Hparams).
  cbv zeta. rewrite Hdata.
  rewrite (handleData_found formatTime server params data _ _ _ Hfound).
  unfold Controller.detached. rewrite RunFacts.execFrom_tryCatch.
  destruct (found_positive formatTime _ _ _ _ Hfound) as [Hseats Hne].
  fold (resultOf formatTime params data) in Hseats, Hne. fold result in Hseats, Hne.
  fold result.
  set (w1 := Controller.setFirstRequest
               false (World.logUi (UpdateStatus "Kontrol ediliyor..." "searching") w)).
  set (w2 := if World.isFirstRequest w then w1 else World.drawn w1).
  assert (Hw2 : World.isLoading w2 = false
                /\ World.allocatedSeat w2 = World.allocatedSeat w
                /\ World.uiCalls w2
                   = UpdateStatus "Kontrol ediliyor..." "searching"
                                  :: World.uiCalls w).
  { subst w2 w1. destruct (World.isFirstRequest w);
      (split; [exact Hidle | split; reflexivity]). }
  destruct Hw2 as (Hloading2 & Hseat2 & Hcalls2).
  destruct (handleTicketsFound_run
              server result params w2 1
              (rev (delayOf w ++ [Fetched (ApiSpec.availabilityRequest params)]))
              Hseats)
    as (Hout & Hstopped & Hl & _ & (shown & Hshown & Halert & Hmessage)
        & awaited & Htrace & Hheld & Hfree).
  rewrite Hout. cbn [Run.outcome Run.final Run.trace].
  rewrite rev_involutive, <- app_assoc in Htrace. cbn [app] in Htrace.
  split; [reflexivity|]. split; [exact Hseats|]. split; [exact Hstopped|].
  split; [rewrite Hl; exact Hloading2|].
  split; [exists shown; rewrite Hshown, Hcalls2; auto|].
  split.
  - intros Hsome. rewrite <- Hseat2 in Hsome.
    destruct (Hheld Hsome) as [-> Hkept]. rewrite Htrace, Hkept.
    split; [reflexivity | exact Hseat2].
  - intros Hnone. rewrite <- Hseat2 in Hnone.
    destruct (SearchResult.trains result) as [|first rest] eqn:Htrains;
      [congruence|].
    destruct (Hfree Hnone first rest eq_refl) as [-> Hallocated].
    destruct (attempt_frame (shift 1 server) first params w2)
      as (_ & _ & _ & _ & _ & later & Hlater).
    destruct (attempt_world (shift 1 server) first params w2 w)
      as [Hsame Hseat].
    exists first, rest, later. split; [reflexivity|].
    split; [rewrite Htrace, Hlater; reflexivity|].
    split; [rewrite Htrace, Hsame; reflexivity|].
    rewrite Hallocated. apply Hseat. exact Hseat2.
Qed.

Lemma performCheck_found_stops_and_allocates_witness :
  let run := exec (Rounds.answering Sample.oneTrain)
                  (Controller.performCheck Sample.clock Rounds.early Rounds.form)
                  Rounds.searching in
  World.isSearching (Run.final run) = false
  /\ World.isLoading (Run.final run) = false.
Proof.
  intros run.
  destruct (performCheck_found_stops_and_allocates
              Sample.clock Rounds.early (Rounds.answering Sample.oneTrain)
              Rounds.form Sample.params (BAvailability Sample.oneTrain)
              Rounds.searching eq_refl eq_refl eq_refl eq_refl eq_refl)
    as (_ & _ & Hstopped & Hloading & _).
  split; [exact Hstopped | exact Hloading].
Defined.

End PerformCheck.
(* ===================================================================== *)
(** * Today's date                                                        *)
(* ===================================================================== *)

Module CalendarFacts.
Import Calendar.

Lemma range_check (check : Z -> bool) (low count : Z) :
  forallb check (List.map (fun i => low + Z.of_nat i) (seq 0 (Z.to_nat count)))
  = true ->
  forall n, low <= n < low + count -> check n = true.
Proof.
  intros Hall n Hn. rewrite forallb_forall in Hall. apply Hall.
  apply in_map_iff. exists (Z.to_nat (n - low)). split; [lia|].
  apply in_seq. lia.
Qed.

Lemma years_print_four n : 1000 <= n <= 9999 -> printsFour n = true.
Proof.
  intros Hn. apply (range_check printsFour 1000 9000); [|lia].
  vm_compute. reflexivity.
Qed.

Lemma small_print_two n : 1 <= n <= 31 -> printsTwo n = true.
Proof.
  intros Hn. apply (range_check printsTwo 1 31); [|lia].
  vm_compute. reflexivity.
Qed.

Lemma getTodayDate_iso today :
  fourDigitYear today = true -> Utils.isoDate (getTodayDate today) = true.
Proof.
  unfold fourDigitYear. rewrite !andb_true_iff, !Z.leb_le.
  intros [[[[[Hy1 Hy2] Hm1] Hm2] Hd1] Hd2].
  pose proof (years_print_four (fullYear today) (conj Hy1 Hy2)) as Hyear.
  assert (Hmonth : printsTwo (month today + 1) = true)
    by (apply small_print_two; lia).
  pose proof (small_print_two (date today) (conj Hd1 Hd2)) as Hday.
  unfold getTodayDate. cbv zeta.
  unfold printsFour in Hyear. unfold printsTwo in Hmonth, Hday.
  destruct (pretty (fullYear today)) as [|y1 [|y2 [|y3 [|y4 [|? ?]]]]];
    try discriminate.
  destruct (padStart 2 "0" (pretty (month today + 1))) as [|m1 [|m2 [|? ?]]];
    try discriminate.
  destruct (padStart 2 "0" (pretty (date today))) as [|d1 [|d2 [|? ?]]];
    try discriminate.
  cbv beta iota in Hyear, Hmonth, Hday.
  apply andb_prop in Hyear as [Hyear Hy4'].
  apply andb_prop in Hyear as [Hyear Hy3'].
  apply andb_prop in Hyear as [Hy1' Hy2'].
  apply andb_prop in Hmonth as [Hm1' Hm2'].
  apply andb_prop in Hday as [Hd1' Hd2'].
  cbv -[Js.isDigit].
  rewrite Hy1', Hy2', Hy3', Hy4', Hm1', Hm2', Hd1', Hd2'. reflexivity.
Qed.

(** X29. For a date with a four-digit year, [getTodayDate] yields a text of
    the form YYYY-MM-DD, with month and day padded to two digits, so the
    service format of it is the day, the month and the year in that order
    and converting back restores it: the date the page proposes survives
    the round trip through [convertDateToAPI] and [convertDateFromAPI]. *)
Theorem getTodayDate_round_trip (today : Date)
        (Hyear : fourDigitYear today = true) :
  Utils.isoDate (getTodayDate today) = true
  /\ String.length (getTodayDate today) = 10%nat
  /\ Utils.convertDateToAPI (getTodayDate today)
     = padStart 2 "0" (pretty (date today)) +:+ "-"
         +:+ padStart 2 "0" (pretty (month today + 1)) +:+ "-"
         +:+ pretty (fullYear today)
  /\ Utils.convertDateFromAPI (Utils.convertDateToAPI (getTodayDate today))
     = getTodayDate today.
Proof.
  pose proof (getTodayDate_iso today Hyear) as Hiso.
  split; [exact Hiso|].
  destruct (UtilsFacts.isoDate_fields _ Hiso)
    as (y & m & d & Hs & Ey & Em & Ed & Hy & Hm & Hd).
  assert (Hlength : String.length (getTodayDate today) = 10%nat).
  { destruct (getTodayDate today)
      as [|c1 [|c2 [|c3 [|c4 [|c5 [|c6 [|c7 [|c8 [|c9 [|c10 [|? ?]]]]]]]]]]];
      try discriminate Hiso. reflexivity. }
  split; [exact Hlength|].
  assert (Hfields : y = pretty (fullYear today)
                    /\ m = padStart 2 "0" (pretty (month today + 1))
                    /\ d = padStart 2 "0" (pretty (date today))).
  { unfold fourDigitYear in Hyear. rewrite !andb_true_iff, !Z.leb_le in Hyear.
    destruct Hyear as [[[[[Hy1 Hy2] Hm1] Hm2] Hd1] Hd2].
    pose proof (years_print_four (fullYear today) (conj Hy1 Hy2)) as Hfour.
    assert (Hmonth : printsTwo (month today + 1) = true)
      by (apply small_print_two; lia).
    pose proof (small_print_two (date today) (conj Hd1 Hd2)) as Hday.
    rewrite Ey, Em, Ed. unfold getTodayDate. cbv zeta.
    unfold printsFour in Hfour. unfold printsTwo in Hmonth, Hday.
    destruct (pretty (fullYear today)) as [|y1 [|y2 [|y3 [|y4 [|? ?]]]]];
      try discriminate.
    destruct (padStart 2 "0" (pretty (month today + 1))) as [|m1 [|m2 [|? ?]]];
      try discriminate.
    destruct (padStart 2 "0" (pretty (date today))) as [|d1 [|d2 [|? ?]]];
      try discriminate.
    repeat split; reflexivity. }
  destruct Hfields as (Hyv & Hmv & Hdv).
  assert (Hto : Utils.convertDateToAPI (getTodayDate today)
                = d +:+ "-" +:+ m +:+ "-" +:+ y).
  { rewrite Hs at 1. apply UtilsFacts.convertDateToAPI_fields; assumption. }
  split.
  - rewrite Hto, Hyv, Hmv, Hdv. reflexivity.
  - rewrite Hto, UtilsFacts.convertDateFromAPI_fields by assumption.
    symmetry. exact Hs.
Qed.

Lemma getTodayDate_round_trip_witness :
  getTodayDate {| fullYear := 2025; month := 2; date := 5 |} = "2025-03-05"
  /\ Utils.convertDateToAPI
       (getTodayDate {| fullYear := 2025; month := 2; date := 5 |})
     = "05-03-2025".
Proof.
  split; [reflexivity|].
  exact (proj1 (proj2 (proj2 (getTodayDate_round_trip
                                {| fullYear := 2025; month := 2; date := 5 |}
                                eq_refl)))).
Defined.

End CalendarFacts.
